(** * Enhanced Todo plugin: the task core, embedded and verified

    A shallow embedding of the parsing and analysis core of the plugin:
    - [services/AutoPriorityAssigner.ts]   (tier by subtask count, subtask scan, complexity)
    - [services/TaskSuitabilityAnalyzer.ts] (suitability issues, breakdown, auto-fix)
    - [parsers/EnhancedTodoParser.ts]       (line recognition, tags, manual priority)
    - [models/EnhancedTodoItem.ts]          (the task record and its methods)
    - [constants.ts]                        (tiers, time table, thresholds)
    - [main.ts], [views/EnhancedTodoView.ts] (the task queries, the checkbox toggle)

    Conventions of the embedding.
    - A JavaScript string is a [string]: a sequence of code units, read as
      Latin-1 (code units below 256).  White space, word characters and case
      folding are the ECMAScript ones restricted to that range.
    - A JavaScript number that the code only ever uses as an integer (counts,
      minutes, complexity points, line indices) is a [Z].  The two places where
      the source leaves the integers are written out exactly:
      [x > allocation * 1.5] is [2 * x > 3 * allocation], and an average
      [sum / n >= c] is [sum >= c * n] (for [n > 0]).
    - A regular-expression literal of the source is a term of [RegExp.regex],
      run by a backtracking matcher with the priorities of the ECMAScript one.
    - What the host provides (the luxon library, the system clock, a RegExp
      built at run time from a settings string) is the class [Host]. *)

From Stdlib Require Import ZArith Lia List Bool Arith Ascii String.
From Stdlib Require Import Numbers.DecimalString.
Import ListNotations.

Local Open Scope string_scope.
Local Open Scope Z_scope.

Set Implicit Arguments.
Unset Strict Implicit.

(* ================================================================== *)
(** * JavaScript strings *)
(* ================================================================== *)

Module JS.

Definition code (c : ascii) : N := N_of_ascii c.

Definition inRange (lo hi : N) (c : ascii) : bool :=
  ((lo <=? code c) && (code c <=? hi))%N.

(** [\s], and what [trim] strips: TAB LF VT FF CR SPACE NBSP. *)
Definition isWhiteSpace (c : ascii) : bool :=
  inRange 9 13 c || (code c =? 32)%N || (code c =? 160)%N.

Definition isDigit (c : ascii) : bool := inRange 48 57 c.
Definition isUpper (c : ascii) : bool := inRange 65 90 c.
Definition isLower (c : ascii) : bool := inRange 97 122 c.

(** [\w] *)
Definition isWordChar (c : ascii) : bool :=
  isUpper c || isLower c || isDigit c || (code c =? 95)%N.

(** [String.prototype.toLowerCase] on one Latin-1 code unit. *)
Definition toLowerChar (c : ascii) : ascii :=
  if isUpper c || inRange 192 214 c || inRange 216 222 c
  then ascii_of_N (code c + 32) else c.

(** [String.prototype.toUpperCase] on an ASCII code unit (the source
    applies it to a captured letter of [[ABCD]] under the [i] flag). *)
Definition toUpperChar (c : ascii) : ascii :=
  if isLower c then ascii_of_N (code c - 32) else c.

Fixpoint map (f : ascii -> ascii) (s : string) : string :=
  match s with
  | EmptyString => EmptyString
  | String c s' => String (f c) (map f s')
  end.

Definition toLowerCase : string -> string := map toLowerChar.
Definition toUpperCase : string -> string := map toUpperChar.

Fixpoint takeWhile (p : ascii -> bool) (s : string) : string :=
  match s with
  | String c s' => if p c then String c (takeWhile p s') else EmptyString
  | EmptyString => EmptyString
  end.

Fixpoint dropWhile (p : ascii -> bool) (s : string) : string :=
  match s with
  | String c s' => if p c then dropWhile p s' else s
  | EmptyString => EmptyString
  end.

Fixpoint forallb (p : ascii -> bool) (s : string) : bool :=
  match s with
  | String c s' => p c && forallb p s'
  | EmptyString => true
  end.

Fixpoint drop (n : nat) (s : string) : string :=
  match n, s with
  | S n', String _ s' => drop n' s'
  | _, _ => s
  end.

Definition take (n : nat) (s : string) : string := substring 0 n s.

Definition trimStart (s : string) : string := dropWhile isWhiteSpace s.

Fixpoint trimEnd (s : string) : string :=
  match s with
  | EmptyString => EmptyString
  | String c s' =>
      match trimEnd s' with
      | EmptyString => if isWhiteSpace c then EmptyString else String c EmptyString
      | t => String c t
      end
  end.

(** [s.trim()] *)
Definition trim (s : string) : string := trimEnd (trimStart s).

(** [s.split(sep)] for a one-character separator; never the empty list. *)
Fixpoint split (sep : ascii) (s : string) : list string :=
  match s with
  | EmptyString => [EmptyString]
  | String c s' =>
      if Ascii.eqb c sep then EmptyString :: split sep s'
      else match split sep s' with
           | h :: t => String c h :: t
           | [] => [String c EmptyString]
           end
  end.

(** [parts.join(sep)] *)
Fixpoint join (sep : string) (l : list string) : string :=
  match l with
  | [] => EmptyString
  | [x] => x
  | x :: l' => x ++ sep ++ join sep l'
  end.

(** [s.startsWith(p)] *)
Definition startsWith (s p : string) : bool := prefix p s.

(** [s.includes(sub)] *)
Fixpoint includes (s sub : string) : bool :=
  prefix sub s ||
  match s with
  | String _ s' => includes s' sub
  | EmptyString => false
  end.

(** [s.indexOf(sub)], [None] for -1. *)
Fixpoint indexOf (s sub : string) : option nat :=
  if prefix sub s then Some 0%nat
  else match s with
       | String _ s' => option_map S (indexOf s' sub)
       | EmptyString => None
       end.

(** [`${n}`] for an integer. *)
Definition ofZ (n : Z) : string := NilZero.string_of_int (Z.to_int n).

(** [s.replace(p, r)] for a string pattern: the first occurrence only. *)
Fixpoint replaceStr (s p r : string) : string :=
  if prefix p s then r ++ drop (String.length p) s
  else match s with
       | String c s' => String c (replaceStr s' p r)
       | EmptyString => EmptyString
       end.

(** [l.push(x)], the array afterwards. *)
Definition push {T} (l : list T) (x : T) : list T := (l ++ [x])%list.

(** [l[l.length - 1]] for [pop()] on a fresh array. *)
Definition pop (l : list string) : option string := List.last (List.map Some l) None.

End JS.

(* ================================================================== *)
(** * Regular expressions *)
(* ================================================================== *)

Module RegExp.

(** The fragment of ECMAScript patterns that the source uses.  A starred
    item is always a character class there. *)
Inductive regex : Type :=
| Eps : regex
| Bol : regex                          (* ^ without the m flag *)
| Eol : regex                          (* $ without the m flag *)
| Wb  : regex                          (* \b *)
| Cls : (ascii -> bool) -> regex       (* one character of a class *)
| Seq : regex -> regex -> regex
| Alt : regex -> regex -> regex
| Star : (ascii -> bool) -> regex      (* greedy [c]* *)
| Grp : regex -> regex                 (* ( ... ), capture group 1 *)
| NotAhead : regex -> regex.           (* (?! ... ) *)

(** Where a match attempt stands: the character before (none at index 0)
    and the text still to read. *)
Record cursor := { before : option ascii; rest : string }.

Definition advance (c : ascii) (s : string) : cursor :=
  {| before := Some c; rest := s |}.

Definition isWordAt (o : option ascii) : bool :=
  match o with Some c => JS.isWordChar c | None => false end.

Definition next (s : string) : option ascii :=
  match s with String c _ => Some c | EmptyString => None end.

Definition outcome := (cursor * option string)%type.
Definition cont := cursor -> option string -> option outcome.

(** The continuation that ends a match. *)
Definition done : cont := fun cur cap => Some (cur, cap).

(** The greedy loop of [c*]: take as many characters of the class as there
    are, then give them back one at a time until [k] accepts. *)
Fixpoint star (p : ascii -> bool) (k : cont) (cap : option string)
    (b : option ascii) (s : string) {struct s} : option outcome :=
  match s with
  | String c s' =>
      if p c then
        match star p k cap (Some c) s' with
        | Some o => Some o
        | None => k {| before := b; rest := s |} cap
        end
      else k {| before := b; rest := s |} cap
  | EmptyString => k {| before := b; rest := s |} cap
  end.

(** Backtracking matcher in continuation style: [run r cur cap k] tries the
    ways [r] matches at [cur] in priority order and returns the first one
    that [k] accepts. *)
Fixpoint run (r : regex) (cur : cursor) (cap : option string) (k : cont)
  {struct r} : option outcome :=
  match r with
  | Eps => k cur cap
  | Bol => match before cur with None => k cur cap | Some _ => None end
  | Eol => match rest cur with EmptyString => k cur cap | _ => None end
  | Wb => if xorb (isWordAt (before cur)) (isWordAt (next (rest cur)))
          then k cur cap else None
  | Cls p =>
      match rest cur with
      | String c s' => if p c then k (advance c s') cap else None
      | EmptyString => None
      end
  | Seq r1 r2 => run r1 cur cap (fun cur' cap' => run r2 cur' cap' k)
  | Alt r1 r2 =>
      match run r1 cur cap k with
      | Some o => Some o
      | None => run r2 cur cap k
      end
  | Star p => star p k cap (before cur) (rest cur)
  | Grp r1 =>
      run r1 cur cap (fun cur' _ =>
        k cur' (Some (JS.take (String.length (rest cur) - String.length (rest cur'))
                              (rest cur))))
  | NotAhead r1 =>
      match run r1 cur cap done with
      | Some _ => None
      | None => k cur cap
      end
  end.

(** One match: where it starts, its text, its first group, what follows. *)
Record found := { index : nat; text : string; group1 : option string; after : cursor }.

(** A match attempt anchored at the cursor. *)
Definition matchAt (r : regex) (i : nat) (cur : cursor) : option found :=
  match run r cur None done with
  | Some (cur', cap') =>
      Some {| index := i;
              text := JS.take (String.length (rest cur) - String.length (rest cur')) (rest cur);
              group1 := cap';
              after := cur' |}
  | None => None
  end.

(** The leftmost match from the cursor on. *)
Fixpoint searchFrom (r : regex) (i : nat) (b : option ascii) (s : string)
  {struct s} : option found :=
  match matchAt r i {| before := b; rest := s |} with
  | Some m => Some m
  | None =>
      match s with
      | String c s' => searchFrom r (S i) (Some c) s'
      | EmptyString => None
      end
  end.

(** [s.match(re)] without the g flag; [re.exec(s)]. *)
Definition exec (r : regex) (s : string) : option found := searchFrom r 0 None s.

(** [re.test(s)] *)
Definition test (r : regex) (s : string) : bool :=
  match exec r s with Some _ => true | None => false end.

(** The matches of a g-flagged pattern, left to right.  After a match the
    scan resumes where it ended (one further on after an empty match). *)
Fixpoint scanAll (fuel : nat) (r : regex) (i : nat) (b : option ascii) (s : string)
  : list found :=
  match fuel with
  | O => []
  | S fuel' =>
      match searchFrom r i b s with
      | None => []
      | Some m =>
          let cur := after m in
          let j := (index m + String.length (text m))%nat in
          match text m, rest cur with
          | EmptyString, String c s' => m :: scanAll fuel' r (S j) (Some c) s'
          | EmptyString, EmptyString => [m]
          | _, _ => m :: scanAll fuel' r j (before cur) (rest cur)
          end
      end
  end.

Definition execAll (r : regex) (s : string) : list found :=
  scanAll (S (String.length s)) r 0 None s.

(** [s.match(re)] with the g flag: the matched texts ([null] is the empty list,
    which the source turns into [[]] itself). *)
Definition matchAll (r : regex) (s : string) : list string :=
  List.map text (execAll r s).

(** [s.replace(re, rep)] without the g flag. *)
Definition replace (r : regex) (rep : string) (s : string) : string :=
  match exec r s with
  | Some m => JS.take (index m) s ++ rep ++ rest (after m)
  | None => s
  end.

(** [s.replace(re, rep)] with the g flag. *)
Fixpoint splice (ms : list found) (rep : string) (i : nat) (s : string) : string :=
  match ms with
  | [] => s
  | m :: ms' =>
      JS.take (index m - i) s ++ rep ++
      splice ms' rep (index m + String.length (text m))
             (JS.drop (index m - i + String.length (text m)) s)
  end.

Definition replaceAll (r : regex) (rep : string) (s : string) : string :=
  splice (execAll r s) rep 0 s.

(** ** Pattern syntax *)

Definition chr (c : ascii) : regex := Cls (Ascii.eqb c).

(** A character under the [i] flag. *)
Definition chrI (c : ascii) : regex :=
  Cls (fun x => Ascii.eqb (JS.toUpperChar x) (JS.toUpperChar c)).

Fixpoint anyOf (set : string) (c : ascii) : bool :=
  match set with
  | String x set' => Ascii.eqb c x || anyOf set' c
  | EmptyString => false
  end.

Definition anyOfI (set : string) (c : ascii) : bool :=
  anyOf (JS.toUpperCase set) (JS.toUpperChar c).

Fixpoint lit (s : string) : regex :=
  match s with
  | EmptyString => Eps
  | String c EmptyString => chr c
  | String c s' => Seq (chr c) (lit s')
  end.

Fixpoint litI (s : string) : regex :=
  match s with
  | EmptyString => Eps
  | String c EmptyString => chrI c
  | String c s' => Seq (chrI c) (litI s')
  end.

(** [(w1|w2|...)] of literal words. *)
Fixpoint words (ws : list string) : regex :=
  match ws with
  | [] => NotAhead Eps
  | [w] => lit w
  | w :: ws' => Alt (lit w) (words ws')
  end.

Definition plus (p : ascii -> bool) : regex := Seq (Cls p) (Star p).

Fixpoint times (n : nat) (r : regex) : regex :=
  match n with
  | O => Eps
  | S O => r
  | S n' => Seq r (times n' r)
  end.

Fixpoint seq (rs : list regex) : regex :=
  match rs with
  | [] => Eps
  | [r] => r
  | r :: rs' => Seq r (seq rs')
  end.

Definition ws : ascii -> bool := JS.isWhiteSpace.
Definition digit : ascii -> bool := JS.isDigit.

End RegExp.

(* ================================================================== *)
(** * The host: luxon, the clock, run-time patterns *)
(* ================================================================== *)

(** What [content.match(new RegExp(pattern))] can do for a pattern that is
    only known at run time. *)
Inductive RegExpResult : Type :=
| PatternSyntaxError : RegExpResult             (* [new RegExp] throws *)
| NoMatch : RegExpResult                        (* [null] *)
| Matched : option string -> RegExpResult.      (* group 1, when there is one *)

Class Host : Type := {
  (** a luxon [DateTime] *)
  DateTime : Type;
  (** the successive readings of the system clock, in milliseconds *)
  clock : nat -> Z;
  (** the luxon value of a clock reading *)
  fromMillis : Z -> DateTime;
  (** [DateTime.fromISO(text)], the clock having been read [n] times: the
      value, [None] when it is not [isValid], and the number of readings
      luxon takes after its first.  luxon reads the clock in every call,
      also for a text it rejects, and fills what a text leaves open (the day
      of a time-only text) from the reading; [text] is [None] for
      [undefined] *)
  fromISO : option string -> nat -> option DateTime * nat;
  (** [d.startOf('day')] *)
  startOfDay : DateTime -> DateTime;
  (** [d.hasSame(e, 'day')] *)
  hasSameDay : DateTime -> DateTime -> bool;
  (** [content.match(new RegExp(pattern))] *)
  dynamicMatch : string -> string -> RegExpResult
}.

Inductive JsError : Type :=
| TypeError : string -> JsError
| SyntaxError : string -> JsError.

Inductive Outcome (T : Type) : Type :=
| Returned : T -> Outcome T
| Threw : JsError -> Outcome T.
Arguments Threw {T} _.

(** Code that reads the clock or may throw: the state is the number of clock
    readings taken so far. *)
Definition M (T : Type) : Type := nat -> Outcome (T * nat).

Definition ret {T} (x : T) : M T := fun n => Returned (x, n).

Definition bind {T U} (c : M T) (f : T -> M U) : M U :=
  fun n => match c n with
           | Returned (x, n') => f x n'
           | Threw e => Threw e
           end.

Definition throw {T} (e : JsError) : M T := fun _ => Threw e.

Notation "x <- c ;; k" := (bind c (fun x => k))
  (at level 61, c at next level, right associativity).

(** [Date.now()] *)
Definition Date_now {H : Host} : M Z := fun n => Returned (clock n, S n).

(** [DateTime.now()] *)
Definition DateTime_now {H : Host} : M DateTime :=
  t <- Date_now ;; ret (fromMillis t).

(** [DateTime.fromISO(text)], kept when [isValid]. *)
Definition DateTime_fromISO {H : Host} (text : option string) : M (option DateTime) :=
  fun n => Returned (fst (fromISO text n), S (snd (fromISO text n) + n)).

(* ================================================================== *)
(** * constants.ts *)
(* ================================================================== *)

Module TaskPriority.
Inductive t : Set := A | B | C | D.

Definition eqb (p q : t) : bool :=
  match p, q with
  | A, A | B, B | C, C | D, D => true
  | _, _ => false
  end.

(** The enum's string value. *)
Definition toString (p : t) : string :=
  match p with A => "A" | B => "B" | C => "C" | D => "D" end.

(** The cast [s as TaskPriority] of a one-letter string. *)
Definition ofString (s : string) : option t :=
  if String.eqb s "A" then Some A
  else if String.eqb s "B" then Some B
  else if String.eqb s "C" then Some C
  else if String.eqb s "D" then Some D
  else None.

(** The tier ordering D < C < B < A. *)
Definition rank (p : t) : nat :=
  match p with D => 0 | C => 1 | B => 2 | A => 3 end%nat.

Definition le (p q : t) : Prop := (rank p <= rank q)%nat.
End TaskPriority.

Module TodoItemStatus.
Inductive t : Set := Todo | Done.

Definition eqb (p q : t) : bool :=
  match p, q with
  | Todo, Todo | Done, Done => true
  | _, _ => false
  end.
End TodoItemStatus.

Record TimeAllocationRatio : Set := {
  hoursBlock : Z;
  tasksInBlock : Z;
  timePerTask : Z
}.

Definition PRIORITY_TIME_RATIOS (p : TaskPriority.t) : TimeAllocationRatio :=
  match p with
  | TaskPriority.A => {| hoursBlock := 1; tasksInBlock := 2; timePerTask := 30 |}
  | TaskPriority.B => {| hoursBlock := 2; tasksInBlock := 4; timePerTask := 30 |}
  | TaskPriority.C => {| hoursBlock := 1; tasksInBlock := 6; timePerTask := 10 |}
  | TaskPriority.D => {| hoursBlock := 1; tasksInBlock := 1; timePerTask := 60 |}
  end.

Record AutoPriorityThresholds : Set := {
  PRIORITY_A : Z;
  PRIORITY_B : Z;
  PRIORITY_C : Z;
  PRIORITY_D : Z
}.

Definition AUTO_PRIORITY_THRESHOLDS : AutoPriorityThresholds :=
  {| PRIORITY_A := 6; PRIORITY_B := 4; PRIORITY_C := 2; PRIORITY_D := 0 |}.

Definition RESCHEDULE_WARNING_THRESHOLD : Z := 3.

(* ================================================================== *)
(** * models/EnhancedTodoItem.ts *)
(* ================================================================== *)

Module SubTask.
Record t : Set := {
  id : string;
  title : string;
  isCompleted : bool;
  parentTaskId : string;
  complexity : Z
}.

Definition withParent (p : string) (st : t) : t :=
  {| id := id st; title := title st; isCompleted := isCompleted st;
     parentTaskId := p; complexity := complexity st |}.
End SubTask.

Inductive IssueType : Set := TOO_COMPLEX | INCONSISTENT_COMPLEXITY | TIME_MISMATCH.
Inductive Severity : Set := LOW | MEDIUM | HIGH.
Inductive Action : Set := required | suggested | none.

Definition IssueType_eqb (a b : IssueType) : bool :=
  match a, b with
  | TOO_COMPLEX, TOO_COMPLEX
  | INCONSISTENT_COMPLEXITY, INCONSISTENT_COMPLEXITY
  | TIME_MISMATCH, TIME_MISMATCH => true
  | _, _ => false
  end.

Definition Severity_eqb (a b : Severity) : bool :=
  match a, b with
  | LOW, LOW | MEDIUM, MEDIUM | HIGH, HIGH => true
  | _, _ => false
  end.

Record TaskSuitabilityIssue : Set := {
  type : IssueType;
  severity : Severity;
  message : string;
  suggestion : string
}.

Record TaskSuitabilityResult : Set := {
  isProblematic : bool;
  issues : list TaskSuitabilityIssue;
  recommendedAction : Action
}.

Inductive DayEndStatus : Set := completed | forgotten | rescheduled.

Module EnhancedTodoItem.
Section WithHost.
Context {H : Host}.

Record RescheduleEvent : Type := {
  date : DateTime;
  reason : string;
  fromDate : DateTime;
  toDate : DateTime
}.

Record t : Type := {
  id : string;
  title : string;
  description : string;
  (* priority and time management *)
  priority : TaskPriority.t;
  subtasks : list SubTask.t;
  subtaskCount : Z;
  isAutoPriority : bool;
  allocatedTime : Z;
  remainingTime : Z;
  estimatedTime : Z;
  (* scheduling and tracking *)
  assignedDate : option DateTime;
  originalAssignedDate : option DateTime;
  rescheduleCount : Z;
  rescheduleHistory : list RescheduleEvent;
  isAssignedToday : bool;
  needsRescheduleWarning : bool;
  (* parent/child relationships *)
  parentTaskId : option string;
  childTaskIds : list string;
  tags : list string;
  (* status and metadata *)
  status : TodoItemStatus.t;
  isCompleted : bool;
  completedDate : option DateTime;
  createdDate : DateTime;
  sourceFilePath : string;
  lineNumber : Z;
  startIndex : Z;
  length : Z;
  (* daily management, breakdown analysis *)
  dayEndStatus : option DayEndStatus;
  suitabilityAnalysis : option TaskSuitabilityResult;
  lastAnalyzedDate : option DateTime
}.

(** [calculateAllocatedTime], on the tier it reads. *)
Definition calculateAllocatedTime (p : TaskPriority.t) : Z :=
  match p with
  | TaskPriority.A => 30
  | TaskPriority.B => 30
  | TaskPriority.C => 10
  | TaskPriority.D => 60
  end.

(** The record that the constructor builds, given the reading of
    [DateTime.now()]. *)
Definition make (createdDate : DateTime) (id title description : string)
    (priority : TaskPriority.t) (sourceFilePath : string)
    (lineNumber startIndex length : Z) (status : TodoItemStatus.t)
    (subtasks : list SubTask.t) (isAutoPriority : bool) : t :=
  let allocatedTime := calculateAllocatedTime priority in
  {| id := id; title := title; description := description;
     priority := priority; subtasks := subtasks;
     subtaskCount := Z.of_nat (List.length subtasks);
     isAutoPriority := isAutoPriority;
     allocatedTime := allocatedTime;
     remainingTime := allocatedTime;
     estimatedTime := allocatedTime;
     assignedDate := None; originalAssignedDate := None;
     rescheduleCount := 0; rescheduleHistory := [];
     isAssignedToday := false; needsRescheduleWarning := false;
     parentTaskId := None; childTaskIds := []; tags := [];
     status := status;
     isCompleted := TodoItemStatus.eqb status TodoItemStatus.Done;
     completedDate := None; createdDate := createdDate;
     sourceFilePath := sourceFilePath; lineNumber := lineNumber;
     startIndex := startIndex; length := length;
     dayEndStatus := None; suitabilityAnalysis := None;
     lastAnalyzedDate := None |}.

(** [new EnhancedTodoItem(...)] *)
Definition new (id title description : string) (priority : TaskPriority.t)
    (sourceFilePath : string) (lineNumber startIndex length : Z)
    (status : TodoItemStatus.t) (subtasks : list SubTask.t)
    (isAutoPriority : bool) : M t :=
  createdDate <- DateTime_now ;;
  ret (make createdDate id title description priority sourceFilePath lineNumber
            startIndex length status subtasks isAutoPriority).

(** [updatePriority(newPriority, isManual)] *)
Definition updatePriority (newPriority : TaskPriority.t) (isManual : bool) (x : t) : t :=
  let allocatedTime' := calculateAllocatedTime newPriority in
  {| id := id x; title := title x; description := description x;
     priority := newPriority; subtasks := subtasks x;
     subtaskCount := subtaskCount x;
     isAutoPriority := negb isManual;
     allocatedTime := allocatedTime';
     remainingTime := allocatedTime';
     estimatedTime := estimatedTime x;
     assignedDate := assignedDate x; originalAssignedDate := originalAssignedDate x;
     rescheduleCount := rescheduleCount x; rescheduleHistory := rescheduleHistory x;
     isAssignedToday := isAssignedToday x;
     needsRescheduleWarning := needsRescheduleWarning x;
     parentTaskId := parentTaskId x; childTaskIds := childTaskIds x; tags := tags x;
     status := status x; isCompleted := isCompleted x;
     completedDate := completedDate x; createdDate := createdDate x;
     sourceFilePath := sourceFilePath x; lineNumber := lineNumber x;
     startIndex := startIndex x; length := length x;
     dayEndStatus := dayEndStatus x; suitabilityAnalysis := suitabilityAnalysis x;
     lastAnalyzedDate := lastAnalyzedDate x |}.

(** The assignment [this.estimatedTime = v]. *)
Definition setEstimatedTime (v : Z) (x : t) : t :=
  {| id := id x; title := title x; description := description x;
     priority := priority x; subtasks := subtasks x;
     subtaskCount := subtaskCount x;
     isAutoPriority := isAutoPriority x;
     allocatedTime := allocatedTime x;
     remainingTime := remainingTime x;
     estimatedTime := v;
     assignedDate := assignedDate x; originalAssignedDate := originalAssignedDate x;
     rescheduleCount := rescheduleCount x; rescheduleHistory := rescheduleHistory x;
     isAssignedToday := isAssignedToday x;
     needsRescheduleWarning := needsRescheduleWarning x;
     parentTaskId := parentTaskId x; childTaskIds := childTaskIds x; tags := tags x;
     status := status x; isCompleted := isCompleted x;
     completedDate := completedDate x; createdDate := createdDate x;
     sourceFilePath := sourceFilePath x; lineNumber := lineNumber x;
     startIndex := startIndex x; length := length x;
     dayEndStatus := dayEndStatus x; suitabilityAnalysis := suitabilityAnalysis x;
     lastAnalyzedDate := lastAnalyzedDate x |}.

(** The assignment [this.tags = v]. *)
Definition setTags (v : list string) (x : t) : t :=
  {| id := id x; title := title x; description := description x;
     priority := priority x; subtasks := subtasks x;
     subtaskCount := subtaskCount x;
     isAutoPriority := isAutoPriority x;
     allocatedTime := allocatedTime x;
     remainingTime := remainingTime x;
     estimatedTime := estimatedTime x;
     assignedDate := assignedDate x; originalAssignedDate := originalAssignedDate x;
     rescheduleCount := rescheduleCount x; rescheduleHistory := rescheduleHistory x;
     isAssignedToday := isAssignedToday x;
     needsRescheduleWarning := needsRescheduleWarning x;
     parentTaskId := parentTaskId x; childTaskIds := childTaskIds x; tags := v;
     status := status x; isCompleted := isCompleted x;
     completedDate := completedDate x; createdDate := createdDate x;
     sourceFilePath := sourceFilePath x; lineNumber := lineNumber x;
     startIndex := startIndex x; length := length x;
     dayEndStatus := dayEndStatus x; suitabilityAnalysis := suitabilityAnalysis x;
     lastAnalyzedDate := lastAnalyzedDate x |}.

(** The two assignments [this.subtasks = l; this.subtaskCount = n]; the
    array is shared, so a write to its elements is a write to this field. *)
Definition setSubtasks (l : list SubTask.t) (n : Z) (x : t) : t :=
  {| id := id x; title := title x; description := description x;
     priority := priority x; subtasks := l;
     subtaskCount := n;
     isAutoPriority := isAutoPriority x;
     allocatedTime := allocatedTime x;
     remainingTime := remainingTime x;
     estimatedTime := estimatedTime x;
     assignedDate := assignedDate x; originalAssignedDate := originalAssignedDate x;
     rescheduleCount := rescheduleCount x; rescheduleHistory := rescheduleHistory x;
     isAssignedToday := isAssignedToday x;
     needsRescheduleWarning := needsRescheduleWarning x;
     parentTaskId := parentTaskId x; childTaskIds := childTaskIds x; tags := tags x;
     status := status x; isCompleted := isCompleted x;
     completedDate := completedDate x; createdDate := createdDate x;
     sourceFilePath := sourceFilePath x; lineNumber := lineNumber x;
     startIndex := startIndex x; length := length x;
     dayEndStatus := dayEndStatus x; suitabilityAnalysis := suitabilityAnalysis x;
     lastAnalyzedDate := lastAnalyzedDate x |}.

(** [subtasks.findIndex(st => st.id === subtaskId)], [None] for -1. *)
Fixpoint findIndex (subtaskId : string) (l : list SubTask.t) : option nat :=
  match l with
  | [] => None
  | st :: l' =>
      if String.eqb (SubTask.id st) subtaskId then Some 0%nat
      else option_map S (findIndex subtaskId l')
  end.

(** [l.splice(index, 1)], the array left behind. *)
Fixpoint splice1 (index : nat) (l : list SubTask.t) : list SubTask.t :=
  match index, l with
  | _, [] => []
  | O, _ :: l' => l'
  | S i, st :: l' => st :: splice1 i l'
  end.

(** [removeSubtask(subtaskId)]: the record afterwards and the returned flag. *)
Definition removeSubtask (subtaskId : string) (x : t) : t * bool :=
  match findIndex subtaskId (subtasks x) with
  | Some index =>
      let l := splice1 index (subtasks x) in
      (setSubtasks l (Z.of_nat (List.length l)) x, true)
  | None => (x, false)
  end.

(** [addSubtask(title, complexity)]: the record afterwards and the new subtask. *)
Definition addSubtask (title : string) (complexity : Z) (x : t) : t * SubTask.t :=
  let subtask :=
    {| SubTask.id := id x ++ "_sub_" ++ JS.ofZ (Z.of_nat (List.length (subtasks x)));
       SubTask.title := title;
       SubTask.isCompleted := false;
       SubTask.parentTaskId := id x;
       SubTask.complexity := complexity |} in
  let l := JS.push (subtasks x) subtask in
  (setSubtasks l (Z.of_nat (List.length l)) x, subtask).

(** What reaches the untyped parameter of [assignToDate]. *)
Inductive DateValue : Type :=
| LuxonDate : DateTime -> DateValue
| JsString : string -> DateValue.

(** The three assignments of [assignToDate], given the reading of
    [DateTime.now()]. *)
Definition assigned (d now : DateTime) (x : t) : t :=
  let assignedDate' := startOfDay d in
  {| id := id x; title := title x; description := description x;
     priority := priority x; subtasks := subtasks x;
     subtaskCount := subtaskCount x;
     isAutoPriority := isAutoPriority x;
     allocatedTime := allocatedTime x;
     remainingTime := remainingTime x;
     estimatedTime := estimatedTime x;
     assignedDate := Some assignedDate';
     originalAssignedDate :=
       match originalAssignedDate x with
       | Some o => Some o
       | None => Some assignedDate'
       end;
     rescheduleCount := rescheduleCount x; rescheduleHistory := rescheduleHistory x;
     isAssignedToday := hasSameDay d now;
     needsRescheduleWarning := needsRescheduleWarning x;
     parentTaskId := parentTaskId x; childTaskIds := childTaskIds x; tags := tags x;
     status := status x; isCompleted := isCompleted x;
     completedDate := completedDate x; createdDate := createdDate x;
     sourceFilePath := sourceFilePath x; lineNumber := lineNumber x;
     startIndex := startIndex x; length := length x;
     dayEndStatus := dayEndStatus x; suitabilityAnalysis := suitabilityAnalysis x;
     lastAnalyzedDate := lastAnalyzedDate x |}.

(** [assignToDate(date)]; a string has no [startOf] method. *)
Definition assignToDate (date : DateValue) (x : t) : M t :=
  match date with
  | JsString _ => throw (TypeError "date.startOf is not a function")
  | LuxonDate d =>
      now <- DateTime_now ;;
      ret (assigned d now x)
  end.

(** The record without what it took from the clock: the id (which the
    subtasks repeat), the creation date, the assigned date and the first
    assigned date (luxon completes a date text from its reading), and
    whether the assigned date is today. *)
Definition clockFree (x : t) : t :=
  {| id := ""; title := title x; description := description x;
     priority := priority x;
     subtasks := List.map (SubTask.withParent "") (subtasks x);
     subtaskCount := subtaskCount x;
     isAutoPriority := isAutoPriority x;
     allocatedTime := allocatedTime x;
     remainingTime := remainingTime x;
     estimatedTime := estimatedTime x;
     assignedDate := None; originalAssignedDate := None;
     rescheduleCount := rescheduleCount x; rescheduleHistory := rescheduleHistory x;
     isAssignedToday := false;
     needsRescheduleWarning := needsRescheduleWarning x;
     parentTaskId := parentTaskId x; childTaskIds := childTaskIds x; tags := tags x;
     status := status x; isCompleted := isCompleted x;
     completedDate := completedDate x; createdDate := fromMillis 0;
     sourceFilePath := sourceFilePath x; lineNumber := lineNumber x;
     startIndex := startIndex x; length := length x;
     dayEndStatus := dayEndStatus x; suitabilityAnalysis := suitabilityAnalysis x;
     lastAnalyzedDate := lastAnalyzedDate x |}.

End WithHost.
End EnhancedTodoItem.

Import RegExp.

(* ================================================================== *)
(** * services/AutoPriorityAssigner.ts *)
(* ================================================================== *)

Module AutoPriorityAssigner.

(** [assignPriorityBySubtaskCount(subtaskCount)] *)
Definition assignPriorityBySubtaskCount (subtaskCount : Z) : TaskPriority.t :=
  if subtaskCount >=? PRIORITY_A AUTO_PRIORITY_THRESHOLDS then TaskPriority.A
  else if subtaskCount >=? PRIORITY_B AUTO_PRIORITY_THRESHOLDS then TaskPriority.B
  else if subtaskCount >=? PRIORITY_C AUTO_PRIORITY_THRESHOLDS then TaskPriority.C
  else TaskPriority.D.

(** [/^\s+[-*]\s+\[[ x]\]/] *)
Definition subtaskLineRe : regex :=
  seq [Bol; plus ws; Cls (anyOf "-*"); plus ws; chr "["; Cls (anyOf " x"); chr "]"].

(** [/^\s*$/] *)
Definition blankRe : regex := seq [Bol; Star ws; Eol].

(** The [while] loop of [parseSubtasks]; it runs at most once per line. *)
Fixpoint parseSubtasks_loop (fuel : nat) (lines : list string) (currentLine : nat)
    (subtasks : list string) : list string :=
  match fuel with
  | O => subtasks
  | S fuel' =>
      match nth_error lines currentLine with
      | None => subtasks                       (* currentLine >= lines.length *)
      | Some line =>
          if test subtaskLineRe line then
            parseSubtasks_loop fuel' lines (S currentLine) (JS.push subtasks (JS.trim line))
          else if String.eqb (JS.trim line) "" || test blankRe line then
            parseSubtasks_loop fuel' lines (S currentLine) subtasks
          else subtasks                        (* break *)
      end
  end.

(** [parseSubtasks(content, startLine)] *)
Definition parseSubtasks (content : string) (startLine : nat) : list string :=
  let lines := JS.split "010" content in
  parseSubtasks_loop (List.length lines) lines (startLine + 1) [].

(** [/^(check|verify|confirm|send|email|call|read)/] *)
Definition simpleActionRe : regex :=
  Seq Bol (Grp (words ["check"; "verify"; "confirm"; "send"; "email"; "call"; "read"])).
(** [/(update|fix|edit|write|create|add|remove)/] *)
Definition mediumActionRe : regex :=
  Grp (words ["update"; "fix"; "edit"; "write"; "create"; "add"; "remove"]).
(** [/(design|implement|develop|analyze|research|build)/] *)
Definition complexActionRe : regex :=
  Grp (words ["design"; "implement"; "develop"; "analyze"; "research"; "build"]).
(** [/(architect|optimize|refactor|integrate|deploy)/] *)
Definition veryComplexActionRe : regex :=
  Grp (words ["architect"; "optimize"; "refactor"; "integrate"; "deploy"]).

(** [calculateSubtaskComplexity(subtaskTitle)] *)
Definition calculateSubtaskComplexity (subtaskTitle : string) : Z :=
  let title := JS.toLowerCase subtaskTitle in
  let complexity := 1 in
  if test simpleActionRe title then 1
  else
    let complexity := if test mediumActionRe title then complexity + 1 else complexity in
    let complexity := if test complexActionRe title then complexity + 2 else complexity in
    let complexity := if test veryComplexActionRe title then complexity + 3 else complexity in
    let complexity :=
      if JS.includes title "multiple" || JS.includes title "various"
         || JS.includes title "several"
      then complexity + 1 else complexity in
    let complexity :=
      if JS.includes title "complex" || JS.includes title "advanced"
         || JS.includes title "comprehensive"
      then complexity + 1 else complexity in
    Z.min complexity 5.

(** [/^\s*[-*]\s*\[[x ]\]\s*/i] *)
Definition checkboxPrefixRe : regex :=
  seq [Bol; Star ws; Cls (anyOfI "-*"); Star ws; chrI "["; Cls (anyOfI "x "); chrI "]";
       Star ws].

(** The body of the [forEach] of [parseSubtasksWithComplexity]. *)
Definition subtaskOfLine (startLine : nat) (index : nat) (line : string) : SubTask.t :=
  let complexity := calculateSubtaskComplexity line in
  let isCompleted := JS.includes line "[x]" || JS.includes line "[X]" in
  let title := JS.trim (replace checkboxPrefixRe "" line) in
  {| SubTask.id := "subtask_" ++ JS.ofZ (Z.of_nat startLine) ++ "_" ++ JS.ofZ (Z.of_nat index);
     SubTask.title := title;
     SubTask.isCompleted := isCompleted;
     SubTask.parentTaskId := "";
     SubTask.complexity := complexity |}.

Fixpoint forEachIndexed (startLine : nat) (index : nat) (subtaskLines : list string)
  : list SubTask.t :=
  match subtaskLines with
  | [] => []
  | line :: rest => subtaskOfLine startLine index line :: forEachIndexed startLine (S index) rest
  end.

(** [parseSubtasksWithComplexity(content, startLine)] *)
Definition parseSubtasksWithComplexity (content : string) (startLine : nat) : list SubTask.t :=
  forEachIndexed startLine 0 (parseSubtasks content startLine).

End AutoPriorityAssigner.

(* ================================================================== *)
(** * services/TaskSuitabilityAnalyzer.ts *)
(* ================================================================== *)

Record TaskBreakdownSuggestion : Set := {
  bd_title : string;
  bd_priority : TaskPriority.t;
  bd_subtasks : list string;
  bd_estimatedTime : Z;
  bd_reasoning : string
}.

Record AutoFixResult : Set := {
  fixed : bool;
  changes : list string
}.

Module TaskSuitabilityAnalyzer.
Section WithHost.
Context {H : Host}.

Definition complexityKeywords : list string :=
  ["research"; "analyze"; "design"; "implement"; "test"; "deploy";
   "multiple"; "various"; "several"; "comprehensive"; "complete";
   "system"; "platform"; "architecture"; "infrastructure"].

(** [isTooComplexForSingleTask(task)] *)
Definition isTooComplexForSingleTask (task : EnhancedTodoItem.t) : bool :=
  if EnhancedTodoItem.subtaskCount task >? 10 then true
  else
    let content :=
      JS.toLowerCase (EnhancedTodoItem.title task ++ " " ++ EnhancedTodoItem.description task) in
    let hasMultipleComplexKeywords :=
      (3 <=? List.length (List.filter (fun keyword => JS.includes content keyword)
                                      complexityKeywords))%nat in
    hasMultipleComplexKeywords.

(** [Math.max(...l)] and [Math.min(...l)] of a non-empty array. *)
Definition maxOf (l : list Z) : Z :=
  match l with [] => 0 | x :: l' => List.fold_left Z.max l' x end.
Definition minOf (l : list Z) : Z :=
  match l with [] => 0 | x :: l' => List.fold_left Z.min l' x end.

(** [hasInconsistentSubtaskComplexity(task)] *)
Definition hasInconsistentSubtaskComplexity (task : EnhancedTodoItem.t) : bool :=
  if (List.length (EnhancedTodoItem.subtasks task) <? 3)%nat then false
  else
    let complexityScores := List.map SubTask.complexity (EnhancedTodoItem.subtasks task) in
    let maxScore := maxOf complexityScores in
    let minScore := minOf complexityScores in
    (maxScore - minScore) >? 3.

(** [estimateTaskTime(task)] *)
Definition estimateTaskTime (task : EnhancedTodoItem.t) : Z :=
  match EnhancedTodoItem.subtasks task with
  | [] => 30
  | l => List.fold_left (fun total subtask => total + SubTask.complexity subtask * 10) l 0
  end.

(** [exceedsTimeAllocationLimits(task)]: [estimatedTime > allocation * 1.5]. *)
Definition exceedsTimeAllocationLimits (task : EnhancedTodoItem.t) : bool :=
  let allocation := timePerTask (PRIORITY_TIME_RATIOS (EnhancedTodoItem.priority task)) in
  let estimatedTime := estimateTaskTime task in
  2 * estimatedTime >? 3 * allocation.

(** [getRecommendedAction(issues)] *)
Definition getRecommendedAction (issues : list TaskSuitabilityIssue) : Action :=
  let highSeverityIssues := List.filter (fun i => Severity_eqb (severity i) HIGH) issues in
  if (0 <? List.length highSeverityIssues)%nat then required
  else if (0 <? List.length issues)%nat then suggested
  else none.

Definition tooComplexIssue : TaskSuitabilityIssue :=
  {| type := TOO_COMPLEX; severity := HIGH;
     message := "Task appears too complex for a single priority assignment";
     suggestion := "Break into smaller, more manageable subtasks" |}.

Definition inconsistentIssue : TaskSuitabilityIssue :=
  {| type := INCONSISTENT_COMPLEXITY; severity := MEDIUM;
     message := "Subtasks vary greatly in complexity";
     suggestion := "Group similar complexity subtasks or split complex ones" |}.

Definition timeMismatchIssue : TaskSuitabilityIssue :=
  {| type := TIME_MISMATCH; severity := HIGH;
     message := "Task time requirements don't match priority allocation";
     suggestion := "Adjust subtasks to fit priority time blocks" |}.

(** [analyzeTaskSuitability(task)] *)
Definition analyzeTaskSuitability (task : EnhancedTodoItem.t) : TaskSuitabilityResult :=
  let issues := [] in
  let issues :=
    if isTooComplexForSingleTask task then JS.push issues tooComplexIssue else issues in
  let issues :=
    if hasInconsistentSubtaskComplexity task then JS.push issues inconsistentIssue
    else issues in
  let issues :=
    if exceedsTimeAllocationLimits task then JS.push issues timeMismatchIssue
    else issues in
  {| isProblematic := (0 <? List.length issues)%nat;
     issues := issues;
     recommendedAction := getRecommendedAction issues |}.

(** [categorizeSubtask(title)] *)
Definition categorizeSubtask (title : string) : string :=
  let lowerTitle := JS.toLowerCase title in
  if test (Grp (words ["design"; "wireframe"; "mockup"; "layout"; "ui"; "ux"; "visual"]))
          lowerTitle then "Design"
  else if test (Grp (words ["implement"; "code"; "develop"; "build"; "create"; "program"]))
               lowerTitle then "Implementation"
  else if test (Grp (words ["test"; "verify"; "check"; "validate"; "qa"; "debug"]))
               lowerTitle then "Testing"
  else if test (Grp (words ["research"; "analyze"; "investigate"; "study"; "explore"]))
               lowerTitle then "Research"
  else if test (Grp (words ["document"; "write"; "update"; "record"; "note"]))
               lowerTitle then "Documentation"
  else if test (Grp (words ["plan"; "organize"; "schedule"; "prepare"; "setup"]))
               lowerTitle then "Planning"
  else if test (Grp (words ["deploy"; "release"; "publish"; "launch"; "install"]))
               lowerTitle then "Deployment"
  else "General".

(** A [Map<string, any[]>]: the keys in insertion order, each with its array. *)
Definition Groups : Set := list (string * list SubTask.t).

(** [if (!groups.has(type)) groups.set(type, []); groups.get(type).push(subtask)] *)
Fixpoint pushTo (type : string) (subtask : SubTask.t) (groups : Groups) : Groups :=
  match groups with
  | [] => [(type, [subtask])]
  | (k, v) :: groups' =>
      if String.eqb k type then (k, JS.push v subtask) :: groups'
      else (k, v) :: pushTo type subtask groups'
  end.

(** [groupSubtasksByType(subtasks)] *)
Definition groupSubtasksByType (subtasks : list SubTask.t) : Groups :=
  List.fold_left
    (fun groups subtask => pushTo (categorizeSubtask (SubTask.title subtask)) subtask groups)
    subtasks [].

(** [suggestPriorityForGroup(subtasks)]; [sum / count >= c] is false for an
    empty array (NaN) and [sum >= c * count] otherwise. *)
Definition suggestPriorityForGroup (subtasks : list SubTask.t) : TaskPriority.t :=
  let sum := List.fold_left (fun sum st => sum + SubTask.complexity st) subtasks 0 in
  let count := Z.of_nat (List.length subtasks) in
  let avgComplexityGe (c : Z) := (0 <? count) && (sum >=? c * count) in
  if avgComplexityGe 4 || (count >=? 6) then TaskPriority.A
  else if avgComplexityGe 3 || (count >=? 4) then TaskPriority.B
  else if avgComplexityGe 2 || (count >=? 2) then TaskPriority.C
  else TaskPriority.D.

(** [suggestComplexityBasedBreakdown(task)] *)
Definition suggestComplexityBasedBreakdown (task : EnhancedTodoItem.t) : list TaskBreakdownSuggestion :=
  let suggestions := [] in
  let highComplexity :=
    List.filter (fun st => SubTask.complexity st >=? 4) (EnhancedTodoItem.subtasks task) in
  let mediumComplexity :=
    List.filter (fun st => (SubTask.complexity st >=? 2) && (SubTask.complexity st <? 4))
                (EnhancedTodoItem.subtasks task) in
  let lowComplexity :=
    List.filter (fun st => SubTask.complexity st <? 2) (EnhancedTodoItem.subtasks task) in
  let suggestions :=
    if (0 <? List.length highComplexity)%nat then
      JS.push suggestions
       {| bd_title := EnhancedTodoItem.title task ++ " - Complex Tasks";
           bd_priority := TaskPriority.A;
           bd_subtasks := List.map SubTask.title highComplexity;
           bd_estimatedTime := 30;
           bd_reasoning := JS.ofZ (Z.of_nat (List.length highComplexity))
                           ++ " high-complexity tasks requiring focused attention" |}
    else suggestions in
  let suggestions :=
    if (0 <? List.length mediumComplexity)%nat then
      let priority :=
        if (4 <=? List.length mediumComplexity)%nat then TaskPriority.B else TaskPriority.C in
      JS.push suggestions
       {| bd_title := EnhancedTodoItem.title task ++ " - Standard Tasks";
           bd_priority := priority;
           bd_subtasks := List.map SubTask.title mediumComplexity;
           bd_estimatedTime := timePerTask (PRIORITY_TIME_RATIOS priority);
           bd_reasoning := JS.ofZ (Z.of_nat (List.length mediumComplexity))
                           ++ " medium-complexity tasks" |}
    else suggestions in
  let suggestions :=
    if (0 <? List.length lowComplexity)%nat then
      JS.push suggestions
       {| bd_title := EnhancedTodoItem.title task ++ " - Quick Tasks";
           bd_priority := TaskPriority.C;
           bd_subtasks := List.map SubTask.title lowComplexity;
           bd_estimatedTime := 10;
           bd_reasoning := JS.ofZ (Z.of_nat (List.length lowComplexity))
                           ++ " simple tasks that can be done quickly" |}
    else suggestions in
  suggestions.

(** The body of the [for ... of groupedSubtasks.entries()] loop. *)
Definition suggestionOfGroup (task : EnhancedTodoItem.t) (suggestions : list TaskBreakdownSuggestion)
    (entry : string * list SubTask.t) : list TaskBreakdownSuggestion :=
  let (groupType, subtasks) := entry in
  if (2 <=? List.length subtasks)%nat then
    let suggestedPriority := suggestPriorityForGroup subtasks in
    JS.push suggestions
     {| bd_title := EnhancedTodoItem.title task ++ " - " ++ groupType;
         bd_priority := suggestedPriority;
         bd_subtasks := List.map SubTask.title subtasks;
         bd_estimatedTime := timePerTask (PRIORITY_TIME_RATIOS suggestedPriority);
         bd_reasoning := "Grouped " ++ JS.ofZ (Z.of_nat (List.length subtasks)) ++ " "
                         ++ JS.toLowerCase groupType ++ " tasks" |}
  else suggestions.

(** [suggestBreakdown(task)] *)
Definition suggestBreakdown (task : EnhancedTodoItem.t) : list TaskBreakdownSuggestion :=
  let groupedSubtasks := groupSubtasksByType (EnhancedTodoItem.subtasks task) in
  let suggestions := List.fold_left (suggestionOfGroup task) groupedSubtasks [] in
  if ((List.length suggestions =? 0) && (6 <? List.length (EnhancedTodoItem.subtasks task)))%nat
  then (suggestions ++ suggestComplexityBasedBreakdown task)%list
  else suggestions.

(** [autoFixSimpleIssues(task)]: the record afterwards and the returned object. *)
Definition autoFixSimpleIssues (task : EnhancedTodoItem.t) : EnhancedTodoItem.t * AutoFixResult :=
  let changes := [] in
  let fixed := false in
  let correctPriority :=
    AutoPriorityAssigner.assignPriorityBySubtaskCount (EnhancedTodoItem.subtaskCount task) in
  let '(task, changes, fixed) :=
    if negb (TaskPriority.eqb (EnhancedTodoItem.priority task) correctPriority)
       && EnhancedTodoItem.isAutoPriority task
    then
      let task := EnhancedTodoItem.updatePriority correctPriority false task in
      (task,
       JS.push changes ("Updated priority from "
                    ++ TaskPriority.toString (EnhancedTodoItem.priority task)
                    ++ " to " ++ TaskPriority.toString correctPriority),
       true)
    else (task, changes, fixed) in
  let estimatedTime := estimateTaskTime task in
  let '(task, changes, fixed) :=
    if Z.abs (EnhancedTodoItem.estimatedTime task - estimatedTime) >? 10 then
      (EnhancedTodoItem.setEstimatedTime estimatedTime task,
       JS.push changes ("Updated estimated time to " ++ JS.ofZ estimatedTime ++ " minutes"),
       true)
    else (task, changes, fixed) in
  (task, {| fixed := fixed; changes := changes |}).

End WithHost.
End TaskSuitabilityAnalyzer.

(* ================================================================== *)
(** * parsers/EnhancedTodoParser.ts *)
(* ================================================================== *)

(** An Obsidian [TFile], of which the parser reads the path only. *)
Record TFile : Set := { path : string }.

Record ParsedTodoData : Set := {
  pd_title : string;
  pd_description : string;
  pd_status : TodoItemStatus.t;
  pd_tags : list string;
  pd_startIndex : Z;
  pd_length : Z
}.

Module EnhancedTodoParser.

Record t : Set := {
  dateTagFormat : string;
  dateFormat : string
}.

(** [new EnhancedTodoParser()] with the default arguments. *)
Definition default : t := {| dateTagFormat := "#%date%"; dateFormat := "yyyy-MM-dd" |}.

(** [/^\s*[-*]\s+\[[ x]\]/] *)
Definition todoLineRe : regex :=
  seq [Bol; Star ws; Cls (anyOf "-*"); plus ws; chr "["; Cls (anyOf " x"); chr "]"].

(** [isTodoLine(line)] *)
Definition isTodoLine (line : string) : bool := test todoLineRe line.

(** [/\[x\]/i] *)
Definition checkedRe : regex := seq [chrI "["; chrI "x"; chrI "]"].

(** [/#[\w\/\-]+/g] *)
Definition tagRe : regex :=
  Seq (chr "#") (plus (fun c => JS.isWordChar c || anyOf "/-" c)).

(** [extractTags(content)] *)
Definition extractTags (content : string) : list string := matchAll tagRe content.

(** [parseBasicTodoData(line, lineNumber)] *)
Definition parseBasicTodoData (line : string) (lineNumber : nat) : ParsedTodoData :=
  let trimmedLine := JS.trim line in
  let startIndex :=
    match JS.indexOf line trimmedLine with Some i => Z.of_nat i | None => -1 end in
  let isCompleted := test checkedRe trimmedLine in
  let status := if isCompleted then TodoItemStatus.Done else TodoItemStatus.Todo in
  let content := replace AutoPriorityAssigner.checkboxPrefixRe "" trimmedLine in
  let tags := extractTags content in
  let cleanContent := JS.trim (replaceAll tagRe "" content) in
  let parts := JS.split "010" cleanContent in
  let title := JS.trim (List.hd "" parts) in
  let description := JS.trim (JS.join (String "010" "") (List.tl parts)) in
  {| pd_title := title;
     pd_description := description;
     pd_status := status;
     pd_tags := tags;
     pd_startIndex := startIndex;
     pd_length := Z.of_nat (String.length line) |}.

(** [/#priority\/([ABCD])/i] *)
Definition priorityTagRe : regex :=
  Seq (litI "#priority/") (Grp (Cls (anyOfI "ABCD"))).

(** [/#([ABCD])(?!\w)/i] *)
Definition simplePriorityRe : regex :=
  seq [chrI "#"; Grp (Cls (anyOfI "ABCD")); NotAhead (Cls JS.isWordChar)].

(** [m[1].toUpperCase() as TaskPriority] *)
Definition priorityOfMatch (m : found) : option TaskPriority.t :=
  match group1 m with
  | Some letter => TaskPriority.ofString (JS.toUpperCase letter)
  | None => None
  end.

(** [extractManualPriority(line)] *)
Definition extractManualPriority (line : string) : option TaskPriority.t :=
  match exec priorityTagRe line with
  | Some priorityMatch => priorityOfMatch priorityMatch
  | None =>
      match exec simplePriorityRe line with
      | Some simplePriorityMatch => priorityOfMatch simplePriorityMatch
      | None => None
      end
  end.

(** [hash & hash]: the conversion to a signed 32-bit integer. *)
Definition toInt32 (z : Z) : Z :=
  let m := z mod 2 ^ 32 in
  if m >=? 2 ^ 31 then m - 2 ^ 32 else m.

Fixpoint simpleHash_loop (str : string) (hash : Z) : Z :=
  match str with
  | EmptyString => hash
  | String c str' =>
      let char := Z.of_N (JS.code c) in
      let hash := (toInt32 (hash * 32) - hash) + char in
      simpleHash_loop str' (toInt32 hash)
  end.

Definition digit36 (d : Z) : ascii :=
  if d <? 10 then ascii_of_N (Z.to_N (48 + d)) else ascii_of_N (Z.to_N (87 + d)).

Fixpoint toString36_loop (fuel : nat) (n : Z) (acc : string) : string :=
  match fuel with
  | O => acc
  | S fuel' =>
      let acc' := String (digit36 (n mod 36)) acc in
      if n / 36 =? 0 then acc' else toString36_loop fuel' (n / 36) acc'
  end.

(** [n.toString(36)] for a non-negative integer. *)
Definition toString36 (n : Z) : string :=
  toString36_loop (S (Z.to_nat (Z.log2 n))) n "".

(** [simpleHash(str)] *)
Definition simpleHash (str : string) : string :=
  toString36 (Z.abs (simpleHash_loop str 0)).

(** The file name without [.md]: [filePath.split('/').pop()?.replace('.md', '') || ''] *)
Definition fileName (filePath : string) : string :=
  match JS.pop (JS.split "/" filePath) with
  | Some f => JS.replaceStr f ".md" ""
  | None => ""
  end.

Definition dash : regex := chr "-".
(** [/^\d{4}-\d{2}-\d{2}$/] *)
Definition isoDayRe : regex :=
  seq [Bol; times 4 (Cls digit); dash; times 2 (Cls digit); dash; times 2 (Cls digit); Eol].
(** [/^\d{2}-\d{2}-\d{4}$/] *)
Definition usDayRe : regex :=
  seq [Bol; times 2 (Cls digit); dash; times 2 (Cls digit); dash; times 4 (Cls digit); Eol].
(** [/^\d{4}\d{2}\d{2}$/] *)
Definition compactDayRe : regex :=
  seq [Bol; times 4 (Cls digit); times 2 (Cls digit); times 2 (Cls digit); Eol].

(** [isDailyNote(filePath)] *)
Definition isDailyNote (filePath : string) : bool :=
  let filename := fileName filePath in
  test isoDayRe filename || test usDayRe filename || test compactDayRe filename.

(** [extractDateFromDailyNote(filePath)]: a string, or [null]. *)
Definition extractDateFromDailyNote (filePath : string) : option string :=
  let filename := fileName filePath in
  if test isoDayRe filename then Some filename
  else if test usDayRe filename then
    let parts := JS.split "-" filename in
    Some (List.nth 2 parts "" ++ "-" ++ List.nth 0 parts "" ++ "-" ++ List.nth 1 parts "")
  else if test compactDayRe filename then
    Some (substring 0 4 filename ++ "-" ++ substring 4 2 filename ++ "-"
          ++ substring 6 2 filename)
  else None.

(** [/\b(\d{4}-\d{2}-\d{2})\b/] *)
Definition standaloneDateRe : regex :=
  seq [Wb; Grp (seq [times 4 (Cls digit); dash; times 2 (Cls digit); dash;
                     times 2 (Cls digit)]); Wb].

Section WithHost.
Context {H : Host}.

(** [generateTodoId(filePath, lineNumber)] *)
Definition generateTodoId (filePath : string) (lineNumber : nat) : M string :=
  let fileHash := simpleHash filePath in
  now <- Date_now ;;
  ret ("todo_" ++ fileHash ++ "_" ++ JS.ofZ (Z.of_nat lineNumber) ++ "_" ++ JS.ofZ now).

(** [extractDueDate(content)].  The [RegExp] of the date tag is built
    outside the [try] blocks; what luxon does not accept is ignored.  Each
    [DateTime.fromISO] reads the clock: the one of the tag whenever the tag
    pattern matches, the one of the standalone date when the tag gave no
    valid date and the line has such a date. *)
Definition extractDueDate (self : t) (content : string) : M (option DateTime) :=
  let dateTagPattern := JS.replaceStr (dateTagFormat self) "%date%" "([\d\-\/]+)" in
  match dynamicMatch dateTagPattern content with
  | PatternSyntaxError => throw (SyntaxError "Invalid regular expression")
  | dateMatch =>
      tagged <- match dateMatch with
                | Matched dateStr => DateTime_fromISO dateStr
                | _ => ret None
                end ;;
      match tagged with
      | Some luxonDate => ret (Some luxonDate)
      | None =>
          match exec standaloneDateRe content with
          | Some standaloneDate => DateTime_fromISO (group1 standaloneDate)
          | None => ret None
          end
      end
  end.

(** [parseEnhancedTodoLine(line, filePath, lineNumber, fileContent)] *)
Definition parseEnhancedTodoLine (self : t) (line filePath : string) (lineNumber : nat)
    (fileContent : string) : M (option EnhancedTodoItem.t) :=
  if negb (isTodoLine line) then ret None
  else
    let basicData := parseBasicTodoData line lineNumber in
    let subtasks := AutoPriorityAssigner.parseSubtasksWithComplexity fileContent lineNumber in
    let subtaskCount := Z.of_nat (List.length subtasks) in
    let autoPriority := AutoPriorityAssigner.assignPriorityBySubtaskCount subtaskCount in
    let manualPriority := extractManualPriority line in
    let finalPriority :=
      match manualPriority with Some p => p | None => autoPriority end in
    let isAutoPriority :=
      match manualPriority with Some _ => false | None => true end in
    todoId <- generateTodoId filePath lineNumber ;;
    todo <- EnhancedTodoItem.new todoId (pd_title basicData) (pd_description basicData)
              finalPriority filePath (Z.of_nat lineNumber) (pd_startIndex basicData)
              (pd_length basicData) (pd_status basicData) subtasks isAutoPriority ;;
    (* the subtask objects are the ones the record holds *)
    let todo :=
      EnhancedTodoItem.setSubtasks
        (List.map (SubTask.withParent (EnhancedTodoItem.id todo)) (EnhancedTodoItem.subtasks todo))
        (EnhancedTodoItem.subtaskCount todo) todo in
    let todo := EnhancedTodoItem.setTags (pd_tags basicData) todo in
    dueDate <- extractDueDate self line ;;
    todo <- match dueDate with
            | Some d => EnhancedTodoItem.assignToDate (EnhancedTodoItem.LuxonDate d) todo
            | None => ret todo
            end ;;
    todo <- (if isDailyNote filePath
                && match dueDate with Some _ => false | None => true end
             then
               match extractDateFromDailyNote filePath with
               | Some dailyNoteDate =>
                   EnhancedTodoItem.assignToDate (EnhancedTodoItem.JsString dailyNoteDate) todo
               | None => ret todo
               end
             else ret todo) ;;
    ret (Some todo).

(** The [for] loop of [parseEnhancedTodosInFile], from line [i] on. *)
Fixpoint parseLines (self : t) (file : TFile) (content : string)
    (lines : list string) (i : nat) (todos : list EnhancedTodoItem.t)
  : M (list EnhancedTodoItem.t) :=
  match lines with
  | [] => ret todos
  | line :: lines' =>
      if isTodoLine line then
        todo <- parseEnhancedTodoLine self line (path file) i content ;;
        match todo with
        | Some todo => parseLines self file content lines' (S i) (JS.push todos todo)
        | None => parseLines self file content lines' (S i) todos
        end
      else parseLines self file content lines' (S i) todos
  end.

(** [parseEnhancedTodosInFile(file, content)] *)
Definition parseEnhancedTodosInFile (self : t) (file : TFile) (content : string)
  : M (list EnhancedTodoItem.t) :=
  let lines := JS.split "010" content in
  parseLines self file content lines 0 [].

End WithHost.
End EnhancedTodoParser.

(* ================================================================== *)
(** * The parser without its effects *)
(* ================================================================== *)

Section PureParser.
Context {H : Host}.

(** The pattern [extractDueDate] hands to [new RegExp]. *)
Definition dateTagPattern (self : EnhancedTodoParser.t) : string :=
  JS.replaceStr (EnhancedTodoParser.dateTagFormat self) "%date%" "([\d\-\/]+)".

(** The host compiles the date tag pattern of these settings. *)
Definition compilesDateTag (self : EnhancedTodoParser.t) : Prop :=
  forall content, dynamicMatch (dateTagPattern self) content <> PatternSyntaxError.

(** What [DateTime.fromISO(text)] gives, and the number of readings after
    it, the clock having been read [n] times before. *)
Definition readISO (text : option string) (n : nat) : option DateTime * nat :=
  (fst (fromISO text n), S (snd (fromISO text n) + n)).

(** What [extractDueDate] returns when the pattern compiles, and the number
    of readings after it, the clock having been read [n] times before. *)
Definition dueDateOf (self : EnhancedTodoParser.t) (content : string) (n : nat)
  : option DateTime * nat :=
  let tagged :=
    match dynamicMatch (dateTagPattern self) content with
    | Matched dateStr => readISO dateStr n
    | _ => (None, n)
    end in
  match fst tagged with
  | Some luxonDate => (Some luxonDate, snd tagged)
  | None =>
      match exec EnhancedTodoParser.standaloneDateRe content with
      | Some standaloneDate => readISO (group1 standaloneDate) (snd tagged)
      | None => (None, snd tagged)
      end
  end.

(** The number of clock readings after a task line, [n] before it: one for
    the id, one for the creation date, those of [extractDueDate], and one
    more when a due date is assigned. *)
Definition readingsAfter (self : EnhancedTodoParser.t) (line : string) (n : nat) : nat :=
  let due := dueDateOf self line (S (S n)) in
  match fst due with Some _ => S (snd due) | None => snd due end.

(** The record [parseEnhancedTodoLine] returns for a task line, when it
    returns, the clock having been read [n] times before. *)
Definition recordOfLine (self : EnhancedTodoParser.t) (filePath content : string)
    (i : nat) (line : string) (n : nat) : EnhancedTodoItem.t :=
  let basicData := EnhancedTodoParser.parseBasicTodoData line i in
  let subtasks := AutoPriorityAssigner.parseSubtasksWithComplexity content i in
  let autoPriority :=
    AutoPriorityAssigner.assignPriorityBySubtaskCount (Z.of_nat (List.length subtasks)) in
  let manualPriority := EnhancedTodoParser.extractManualPriority line in
  let todoId :=
    "todo_" ++ EnhancedTodoParser.simpleHash filePath ++ "_" ++ JS.ofZ (Z.of_nat i)
    ++ "_" ++ JS.ofZ (clock n) in
  let todo :=
    EnhancedTodoItem.make (fromMillis (clock (S n))) todoId
      (pd_title basicData) (pd_description basicData)
      (match manualPriority with Some p => p | None => autoPriority end)
      filePath (Z.of_nat i) (pd_startIndex basicData) (pd_length basicData)
      (pd_status basicData) subtasks
      (match manualPriority with Some _ => false | None => true end) in
  let todo :=
    EnhancedTodoItem.setSubtasks
      (List.map (SubTask.withParent (EnhancedTodoItem.id todo)) (EnhancedTodoItem.subtasks todo))
      (EnhancedTodoItem.subtaskCount todo) todo in
  let todo := EnhancedTodoItem.setTags (pd_tags basicData) todo in
  let due := dueDateOf self line (S (S n)) in
  match fst due with
  | Some d => EnhancedTodoItem.assigned d (fromMillis (clock (snd due))) todo
  | None => todo
  end.

(** The records of the task lines among [lines], the first of which is line [i]. *)
Fixpoint recordsFrom (self : EnhancedTodoParser.t) (filePath content : string)
    (lines : list string) (i : nat) (n : nat) : list EnhancedTodoItem.t :=
  match lines with
  | [] => []
  | line :: lines' =>
      if EnhancedTodoParser.isTodoLine line then
        recordOfLine self filePath content i line n
        :: recordsFrom self filePath content lines' (S i) (readingsAfter self line n)
      else recordsFrom self filePath content lines' (S i) n
  end.

(** Whether [extractDueDate] finds a date on every task line among [lines],
    the clock having been read [n] times before the first of them. *)
Fixpoint everyTaskDated (self : EnhancedTodoParser.t) (lines : list string) (n : nat) : bool :=
  match lines with
  | [] => true
  | line :: lines' =>
      if EnhancedTodoParser.isTodoLine line then
        match fst (dueDateOf self line (S (S n))) with
        | Some _ => everyTaskDated self lines' (readingsAfter self line n)
        | None => false
        end
      else everyTaskDated self lines' n
  end.

(** The indices of the task lines among [lines], the first of which is line [i]. *)
Fixpoint todoLineNumbers (lines : list string) (i : nat) : list Z :=
  match lines with
  | [] => []
  | line :: lines' =>
      if EnhancedTodoParser.isTodoLine line then Z.of_nat i :: todoLineNumbers lines' (S i)
      else todoLineNumbers lines' (S i)
  end.

End PureParser.

(* ================================================================== *)
(** * A host to run examples on *)
(* ================================================================== *)

(** [/#([\d\-\/]+)/], the pattern the default date tag format gives. *)
Definition defaultDateTagRe : regex :=
  Seq (chr "#") (Grp (plus (fun c => JS.isDigit c || anyOf "-/" c))).

(** A host whose clock starts at 1700000000000 ms and advances by one at each
    reading, whose run-time patterns are the default date tag pattern only,
    and whose luxon accepts no date text (so that it never has a day to
    round to or to compare) and reads the clock once for each. *)
Definition exampleHost : Host :=
  {| DateTime := Z;
     clock := fun n => Z.of_nat n + 1700000000000;
     fromMillis := fun t => t;
     fromISO := fun _ _ => (None, 0%nat);
     startOfDay := fun d => d;
     hasSameDay := fun _ _ => false;
     dynamicMatch := fun pattern content =>
       if String.eqb pattern "#([\d\-\/]+)" then
         match exec defaultDateTagRe content with
         | Some m => Matched (group1 m)
         | None => NoMatch
         end
       else PatternSyntaxError |}.

Definition vacation : string :=
"- [ ] Plan vacation
  - [ ] Book flights
  - [ ] Reserve hotel
  - [ ] Plan itinerary
  - [ ] Research visa requirements".


(** What a run returned, if it returned. *)
Definition result {T} (o : Outcome T) : option T :=
  match o with Returned x => Some x | Threw _ => None end.

(** What a run threw, if it threw. *)
Definition thrown {T} (o : Outcome T) : option JsError :=
  match o with Returned _ => None | Threw e => Some e end.

(** Parsing the vacation document as [notes/trip.md] on the example host,
    the clock having been read [n] times. *)
Definition parseTrip (n : nat) : Outcome (list (@EnhancedTodoItem.t exampleHost) * nat) :=
  @EnhancedTodoParser.parseEnhancedTodosInFile exampleHost EnhancedTodoParser.default
    {| path := "notes/trip.md" |} vacation n.

(** A task line and a sibling of the same indentation. *)
Definition siblings : string :=
"  - [ ] Write report
  - [ ] Send report".

(** A bare tag before a [#priority/] tag. *)
Definition twoTags : string := "- [ ] Pay rent #B #priority/A".

(** A task record on the example host: tier, mode, stored estimate, subtasks. *)
Definition exampleSubtask (id title : string) (complexity : Z) : SubTask.t :=
  {| SubTask.id := id; SubTask.title := title; SubTask.isCompleted := false;
     SubTask.parentTaskId := "t1"; SubTask.complexity := complexity |}.

Definition exampleTask (priority : TaskPriority.t) (isAutoPriority : bool)
    (subtasks : list SubTask.t) : @EnhancedTodoItem.t exampleHost :=
  @EnhancedTodoItem.make exampleHost 1700000000000 "t1" "Release" "" priority
    "notes/work.md" 0 0 13 TodoItemStatus.Todo subtasks isAutoPriority.

(** Seven subtasks of seven different categories; the complexity of each is
    the one [calculateSubtaskComplexity] gives its title. *)
Definition sevenCategories : list SubTask.t :=
  List.map (fun '(id, title) =>
              exampleSubtask id title (AutoPriorityAssigner.calculateSubtaskComplexity title))
    [("s0", "Design logo"); ("s1", "Implement login"); ("s2", "Test checkout");
     ("s3", "Research vendors"); ("s4", "Document API"); ("s5", "Plan sprint");
     ("s6", "Deploy and integrate server")].

(** The suggestion the fallback makes for the one subtask of high complexity. *)
Definition complexTasksSuggestion : TaskBreakdownSuggestion :=
  {| bd_title := "Release - Complex Tasks";
     bd_priority := TaskPriority.A;
     bd_subtasks := ["Deploy and integrate server"];
     bd_estimatedTime := 30;
     bd_reasoning := "1 high-complexity tasks requiring focused attention" |}.

(* ================================================================== *)
(** * The specification's own definitions, to compare the code with *)
(* ================================================================== *)

(** The estimated time in the words of the specification: 30 for a task
    without subtasks, else the sum over the subtasks of complexity times 10. *)
Definition spec_estimatedTime {H : Host} (task : EnhancedTodoItem.t) : Z :=
  match EnhancedTodoItem.subtasks task with
  | [] => 30
  | l => List.fold_right Z.add 0 (List.map (fun st => SubTask.complexity st * 10) l)
  end.

(** ** Line shapes *)

(** A checkbox at the head of [s]: a bracket, one of [boxes], a bracket. *)
Definition checkboxAt (boxes : string) (s : string) : bool :=
  match s with
  | String c1 (String c2 (String c3 _)) =>
      Ascii.eqb "[" c1 && anyOf boxes c2 && Ascii.eqb "]" c3
  | _ => false
  end.

(** Optional white space, a bullet, one or more white-space characters, a
    checkbox holding one of [boxes]: as a scan of the line. *)
Definition bulletLineb (boxes : string) (line : string) : bool :=
  match JS.dropWhile ws line with
  | String b (String w s) =>
      anyOf "-*" b && ws w && checkboxAt boxes (JS.dropWhile ws s)
  | _ => false
  end.

(** The same shape as a decomposition of the line. *)
Definition taskLineShape (boxes : string) (line : string) : Prop :=
  exists lead b gap c rest,
    line = lead ++ String b (gap ++ String "[" (String c (String "]" rest)))
    /\ JS.forallb ws lead = true
    /\ anyOf "-*" b = true
    /\ gap <> ""
    /\ JS.forallb ws gap = true
    /\ anyOf boxes c = true.

(** The task line of the specification, read to the letter: optional white
    space, a bullet, one space, a checkbox holding a space, [x] or [X]. *)
Definition spec_isTaskLine (line : string) : bool :=
  match JS.dropWhile ws line with
  | String b (String " " s) => anyOf "-*" b && checkboxAt " xX" s
  | _ => false
  end.

(** The line begins with a white-space character. *)
Definition startsWithSpace (line : string) : bool :=
  match line with String c _ => ws c | EmptyString => false end.

(** The number of leading white-space characters. *)
Definition indentOf (line : string) : nat := String.length (JS.takeWhile ws line).

(** ** The subtask scan *)

(** The two tests of the [while] loop of [parseSubtasks]. *)
Definition consumedAsSubtask (line : string) : bool :=
  test AutoPriorityAssigner.subtaskLineRe line.
Definition skippedAsBlank (line : string) : bool :=
  String.eqb (JS.trim line) "" || test AutoPriorityAssigner.blankRe line.

(** The longest prefix of a list whose elements all satisfy [f]. *)
Fixpoint takeWhileL {T} (f : T -> bool) (l : list T) : list T :=
  match l with
  | x :: l' => if f x then x :: takeWhileL f l' else []
  | [] => []
  end.

(** ** Priority tags *)

(** [p] is a prefix of [s], letter case apart. *)
Fixpoint prefixI (p s : string) : bool :=
  match p, s with
  | EmptyString, _ => true
  | String a p', String b s' =>
      Ascii.eqb (JS.toUpperChar b) (JS.toUpperChar a) && prefixI p' s'
  | String _ _, EmptyString => false
  end.

(** The tier named by a letter of either case. *)
Definition tierOfLetter (c : ascii) : option TaskPriority.t :=
  TaskPriority.ofString (String (JS.toUpperChar c) "").

(** [s] begins with a tag [#priority/<A|B|C|D>], letter case apart. *)
Definition priorityTagAt (s : string) : option TaskPriority.t :=
  if prefixI "#priority/" s then
    match JS.drop 10 s with
    | String c _ => tierOfLetter c
    | EmptyString => None
    end
  else None.

(** [s] begins with a bare tag [#<A|B|C|D>] that no word character follows. *)
Definition simpleTagAt (s : string) : option TaskPriority.t :=
  match s with
  | String h (String c s') =>
      if Ascii.eqb h "#" && negb (isWordAt (next s')) then tierOfLetter c else None
  | _ => None
  end.

(** The value of [f] at the leftmost suffix of [s] where it has one, and the
    index of that suffix. *)
Fixpoint firstAt {T} (f : string -> option T) (i : nat) (s : string) : option (nat * T) :=
  match f s with
  | Some x => Some (i, x)
  | None =>
      match s with
      | String _ s' => firstAt f (S i) s'
      | EmptyString => None
      end
  end.

(** The override in the words of the specification: the tier of the
    leftmost tag of either form. *)
Definition spec_manualPriority (line : string) : option TaskPriority.t :=
  option_map snd
    (firstAt (fun s => match priorityTagAt s with
                       | Some p => Some p
                       | None => simpleTagAt s
                       end) 0 line).

(** ** Reading the matcher *)

Definition isSome {T} (o : option T) : bool :=
  match o with Some _ => true | None => false end.

(** [r] matches at index 0 of [s]. *)
Definition accepts (r : regex) (s : string) : bool :=
  isSome (run r {| before := None; rest := s |} None done).

(** What the two line patterns share after their leading white space. *)
Definition bulletTail (boxes : string) : regex :=
  seq [Cls (anyOf "-*"); plus ws; chr "["; Cls (anyOf boxes); chr "]"].

Definition bulletTailb (boxes : string) (s : string) : bool :=
  match s with
  | String b (String w t) => anyOf "-*" b && ws w && checkboxAt boxes (JS.dropWhile ws t)
  | _ => false
  end.

(** The character before the cursor once [n] characters are read. *)
Fixpoint beforeAfter (n : nat) (b : option ascii) (s : string) : option ascii :=
  match n, s with
  | S n', String c s' => beforeAfter n' (Some c) s'
  | _, _ => b
  end.

(* ================================================================== *)
(** * models/EnhancedTodoItem.ts, the other methods *)
(* ================================================================== *)

Module TodoItemMethods.
Section WithHost.
Context {H : Host}.

(** The assignments to the four status fields. *)
Definition withStatus (status : TodoItemStatus.t) (isCompleted : bool)
    (completedDate : option DateTime) (remainingTime : Z)
    (x : EnhancedTodoItem.t) : EnhancedTodoItem.t :=
  {| EnhancedTodoItem.id := EnhancedTodoItem.id x;
     EnhancedTodoItem.title := EnhancedTodoItem.title x;
     EnhancedTodoItem.description := EnhancedTodoItem.description x;
     EnhancedTodoItem.priority := EnhancedTodoItem.priority x;
     EnhancedTodoItem.subtasks := EnhancedTodoItem.subtasks x;
     EnhancedTodoItem.subtaskCount := EnhancedTodoItem.subtaskCount x;
     EnhancedTodoItem.isAutoPriority := EnhancedTodoItem.isAutoPriority x;
     EnhancedTodoItem.allocatedTime := EnhancedTodoItem.allocatedTime x;
     EnhancedTodoItem.remainingTime := remainingTime;
     EnhancedTodoItem.estimatedTime := EnhancedTodoItem.estimatedTime x;
     EnhancedTodoItem.assignedDate := EnhancedTodoItem.assignedDate x;
     EnhancedTodoItem.originalAssignedDate := EnhancedTodoItem.originalAssignedDate x;
     EnhancedTodoItem.rescheduleCount := EnhancedTodoItem.rescheduleCount x;
     EnhancedTodoItem.rescheduleHistory := EnhancedTodoItem.rescheduleHistory x;
     EnhancedTodoItem.isAssignedToday := EnhancedTodoItem.isAssignedToday x;
     EnhancedTodoItem.needsRescheduleWarning := EnhancedTodoItem.needsRescheduleWarning x;
     EnhancedTodoItem.parentTaskId := EnhancedTodoItem.parentTaskId x;
     EnhancedTodoItem.childTaskIds := EnhancedTodoItem.childTaskIds x;
     EnhancedTodoItem.tags := EnhancedTodoItem.tags x;
     EnhancedTodoItem.status := status;
     EnhancedTodoItem.isCompleted := isCompleted;
     EnhancedTodoItem.completedDate := completedDate;
     EnhancedTodoItem.createdDate := EnhancedTodoItem.createdDate x;
     EnhancedTodoItem.sourceFilePath := EnhancedTodoItem.sourceFilePath x;
     EnhancedTodoItem.lineNumber := EnhancedTodoItem.lineNumber x;
     EnhancedTodoItem.startIndex := EnhancedTodoItem.startIndex x;
     EnhancedTodoItem.length := EnhancedTodoItem.length x;
     EnhancedTodoItem.dayEndStatus := EnhancedTodoItem.dayEndStatus x;
     EnhancedTodoItem.suitabilityAnalysis := EnhancedTodoItem.suitabilityAnalysis x;
     EnhancedTodoItem.lastAnalyzedDate := EnhancedTodoItem.lastAnalyzedDate x |}.

(** The assignments to the six scheduling fields. *)
Definition withSchedule (assignedDate originalAssignedDate : option DateTime)
    (rescheduleCount : Z) (rescheduleHistory : list EnhancedTodoItem.RescheduleEvent)
    (isAssignedToday needsRescheduleWarning : bool)
    (x : EnhancedTodoItem.t) : EnhancedTodoItem.t :=
  {| EnhancedTodoItem.id := EnhancedTodoItem.id x;
     EnhancedTodoItem.title := EnhancedTodoItem.title x;
     EnhancedTodoItem.description := EnhancedTodoItem.description x;
     EnhancedTodoItem.priority := EnhancedTodoItem.priority x;
     EnhancedTodoItem.subtasks := EnhancedTodoItem.subtasks x;
     EnhancedTodoItem.subtaskCount := EnhancedTodoItem.subtaskCount x;
     EnhancedTodoItem.isAutoPriority := EnhancedTodoItem.isAutoPriority x;
     EnhancedTodoItem.allocatedTime := EnhancedTodoItem.allocatedTime x;
     EnhancedTodoItem.remainingTime := EnhancedTodoItem.remainingTime x;
     EnhancedTodoItem.estimatedTime := EnhancedTodoItem.estimatedTime x;
     EnhancedTodoItem.assignedDate := assignedDate;
     EnhancedTodoItem.originalAssignedDate := originalAssignedDate;
     EnhancedTodoItem.rescheduleCount := rescheduleCount;
     EnhancedTodoItem.rescheduleHistory := rescheduleHistory;
     EnhancedTodoItem.isAssignedToday := isAssignedToday;
     EnhancedTodoItem.needsRescheduleWarning := needsRescheduleWarning;
     EnhancedTodoItem.parentTaskId := EnhancedTodoItem.parentTaskId x;
     EnhancedTodoItem.childTaskIds := EnhancedTodoItem.childTaskIds x;
     EnhancedTodoItem.tags := EnhancedTodoItem.tags x;
     EnhancedTodoItem.status := EnhancedTodoItem.status x;
     EnhancedTodoItem.isCompleted := EnhancedTodoItem.isCompleted x;
     EnhancedTodoItem.completedDate := EnhancedTodoItem.completedDate x;
     EnhancedTodoItem.createdDate := EnhancedTodoItem.createdDate x;
     EnhancedTodoItem.sourceFilePath := EnhancedTodoItem.sourceFilePath x;
     EnhancedTodoItem.lineNumber := EnhancedTodoItem.lineNumber x;
     EnhancedTodoItem.startIndex := EnhancedTodoItem.startIndex x;
     EnhancedTodoItem.length := EnhancedTodoItem.length x;
     EnhancedTodoItem.dayEndStatus := EnhancedTodoItem.dayEndStatus x;
     EnhancedTodoItem.suitabilityAnalysis := EnhancedTodoItem.suitabilityAnalysis x;
     EnhancedTodoItem.lastAnalyzedDate := EnhancedTodoItem.lastAnalyzedDate x |}.

(** The assignments to the two relationship fields. *)
Definition withLinks (parentTaskId : option string) (childTaskIds : list string)
    (x : EnhancedTodoItem.t) : EnhancedTodoItem.t :=
  {| EnhancedTodoItem.id := EnhancedTodoItem.id x;
     EnhancedTodoItem.title := EnhancedTodoItem.title x;
     EnhancedTodoItem.description := EnhancedTodoItem.description x;
     EnhancedTodoItem.priority := EnhancedTodoItem.priority x;
     EnhancedTodoItem.subtasks := EnhancedTodoItem.subtasks x;
     EnhancedTodoItem.subtaskCount := EnhancedTodoItem.subtaskCount x;
     EnhancedTodoItem.isAutoPriority := EnhancedTodoItem.isAutoPriority x;
     EnhancedTodoItem.allocatedTime := EnhancedTodoItem.allocatedTime x;
     EnhancedTodoItem.remainingTime := EnhancedTodoItem.remainingTime x;
     EnhancedTodoItem.estimatedTime := EnhancedTodoItem.estimatedTime x;
     EnhancedTodoItem.assignedDate := EnhancedTodoItem.assignedDate x;
     EnhancedTodoItem.originalAssignedDate := EnhancedTodoItem.originalAssignedDate x;
     EnhancedTodoItem.rescheduleCount := EnhancedTodoItem.rescheduleCount x;
     EnhancedTodoItem.rescheduleHistory := EnhancedTodoItem.rescheduleHistory x;
     EnhancedTodoItem.isAssignedToday := EnhancedTodoItem.isAssignedToday x;
     EnhancedTodoItem.needsRescheduleWarning := EnhancedTodoItem.needsRescheduleWarning x;
     EnhancedTodoItem.parentTaskId := parentTaskId;
     EnhancedTodoItem.childTaskIds := childTaskIds;
     EnhancedTodoItem.tags := EnhancedTodoItem.tags x;
     EnhancedTodoItem.status := EnhancedTodoItem.status x;
     EnhancedTodoItem.isCompleted := EnhancedTodoItem.isCompleted x;
     EnhancedTodoItem.completedDate := EnhancedTodoItem.completedDate x;
     EnhancedTodoItem.createdDate := EnhancedTodoItem.createdDate x;
     EnhancedTodoItem.sourceFilePath := EnhancedTodoItem.sourceFilePath x;
     EnhancedTodoItem.lineNumber := EnhancedTodoItem.lineNumber x;
     EnhancedTodoItem.startIndex := EnhancedTodoItem.startIndex x;
     EnhancedTodoItem.length := EnhancedTodoItem.length x;
     EnhancedTodoItem.dayEndStatus := EnhancedTodoItem.dayEndStatus x;
     EnhancedTodoItem.suitabilityAnalysis := EnhancedTodoItem.suitabilityAnalysis x;
     EnhancedTodoItem.lastAnalyzedDate := EnhancedTodoItem.lastAnalyzedDate x |}.

(** [markCompleted()] *)
Definition markCompleted (x : EnhancedTodoItem.t) : M EnhancedTodoItem.t :=
  now <- DateTime_now ;;
  ret (withStatus TodoItemStatus.Done true (Some now) 0 x).

(** [markTodo()] *)
Definition markTodo (x : EnhancedTodoItem.t) : EnhancedTodoItem.t :=
  withStatus TodoItemStatus.Todo false None (EnhancedTodoItem.allocatedTime x) x.

(** [addRescheduleEvent(fromDate, toDate, reason)]; it reads the clock for
    the event and again for [isAssignedToday]. *)
Definition addRescheduleEvent (fromDate toDate : DateTime) (reason : string)
    (x : EnhancedTodoItem.t) : M EnhancedTodoItem.t :=
  date <- DateTime_now ;;
  let rescheduleHistory :=
    JS.push (EnhancedTodoItem.rescheduleHistory x)
      {| EnhancedTodoItem.date := date; EnhancedTodoItem.reason := reason;
         EnhancedTodoItem.fromDate := fromDate; EnhancedTodoItem.toDate := toDate |} in
  let rescheduleCount := EnhancedTodoItem.rescheduleCount x + 1 in
  let needsRescheduleWarning := rescheduleCount >=? 3 in
  now <- DateTime_now ;;
  ret (withSchedule (Some toDate) (EnhancedTodoItem.originalAssignedDate x)
         rescheduleCount rescheduleHistory (hasSameDay toDate now)
         needsRescheduleWarning x).

(** [assignToToday()] *)
Definition assignToToday (x : EnhancedTodoItem.t) : M EnhancedTodoItem.t :=
  now <- DateTime_now ;;
  let assignedDate := startOfDay now in
  ret (withSchedule (Some assignedDate)
         (match EnhancedTodoItem.originalAssignedDate x with
          | Some o => Some o
          | None => Some assignedDate
          end)
         (EnhancedTodoItem.rescheduleCount x) (EnhancedTodoItem.rescheduleHistory x)
         true (EnhancedTodoItem.needsRescheduleWarning x) x).

(** Successive calls of [addRescheduleEvent], one for each
    (fromDate, toDate, reason). *)
Fixpoint rescheduleAll (events : list (DateTime * DateTime * string))
    (x : EnhancedTodoItem.t) : M EnhancedTodoItem.t :=
  match events with
  | [] => ret x
  | (fromDate, toDate, reason) :: events' =>
      x' <- addRescheduleEvent fromDate toDate reason x ;;
      rescheduleAll events' x'
  end.

End WithHost.
End TodoItemMethods.

(* ================================================================== *)
(** * services/AutoPriorityAssigner.ts, the other functions *)
(* ================================================================== *)

(** The object [validateAutoPriority] returns. *)
Record PriorityValidation : Set := {
  isValid : bool;
  suggestedPriority : option TaskPriority.t;
  reason : option string
}.

(** The object [suggestPriorityFromContent] returns; the confidence, one of
    0.8, 0.7, 0.6 and 0.5, is kept in tenths. *)
Record ContentSuggestion : Set := {
  cs_suggestedPriority : TaskPriority.t;
  cs_confidenceTenths : Z;
  cs_reasoning : string
}.

(** [a[i] = v] for an index within the array. *)
Fixpoint setNth {V : Type} (i : nat) (v : V) (a : list V) : list V :=
  match i, a with
  | _, [] => []
  | O, _ :: a' => v :: a'
  | S i', x :: a' => x :: setNth i' v a'
  end.

Module PriorityUpdates.
Section WithHost.
Context {H : Host}.

(** [validateAutoPriority(task)] *)
Definition validateAutoPriority (task : EnhancedTodoItem.t) : PriorityValidation :=
  let subtaskCount := EnhancedTodoItem.subtaskCount task in
  let currentPriority := EnhancedTodoItem.priority task in
  let suggestedPriority := AutoPriorityAssigner.assignPriorityBySubtaskCount subtaskCount in
  if TaskPriority.eqb currentPriority suggestedPriority then
    {| isValid := true; suggestedPriority := None; reason := None |}
  else if negb (EnhancedTodoItem.isAutoPriority task) then
    {| isValid := true;
       suggestedPriority := Some suggestedPriority;
       reason :=
         Some ("Manual priority " ++ TaskPriority.toString currentPriority ++ " set, but "
               ++ TaskPriority.toString suggestedPriority
               ++ " would be auto-assigned based on " ++ JS.ofZ subtaskCount ++ " subtasks") |}
  else
    {| isValid := false;
       suggestedPriority := Some suggestedPriority;
       reason :=
         Some ("Priority " ++ TaskPriority.toString currentPriority
               ++ " doesn't match expected " ++ TaskPriority.toString suggestedPriority
               ++ " for " ++ JS.ofZ subtaskCount ++ " subtasks") |}.

(** [updateTaskPriority(task, forceRecalculate)]: the record afterwards and
    the returned flag. *)
Definition updateTaskPriority (task : EnhancedTodoItem.t) (forceRecalculate : bool)
  : EnhancedTodoItem.t * bool :=
  if negb (EnhancedTodoItem.isAutoPriority task) && negb forceRecalculate then (task, false)
  else
    let newPriority :=
      AutoPriorityAssigner.assignPriorityBySubtaskCount (EnhancedTodoItem.subtaskCount task) in
    if negb (TaskPriority.eqb (EnhancedTodoItem.priority task) newPriority) then
      (EnhancedTodoItem.updatePriority newPriority false task, true)
    else (task, false).

(** The callback of the [forEach] in [batchUpdatePriorities].  The array
    holds references to task objects, which [updateTaskPriority] changes in
    place, and one object can stand in the array more than once: [store]
    holds the objects, a reference is an index of it. *)
Definition updateReferenced (state : list EnhancedTodoItem.t * list nat) (task : nat)
  : list EnhancedTodoItem.t * list nat :=
  let (store, updatedTasks) := state in
  match nth_error store task with
  | Some object =>
      let (object', updated) := updateTaskPriority object false in
      (setNth task object' store,
       if updated then JS.push updatedTasks task else updatedTasks)
  | None => state                         (* no reference is without its object *)
  end.

(** [batchUpdatePriorities(tasks)]: the objects afterwards and the returned
    array of references. *)
Definition batchUpdatePriorities (store : list EnhancedTodoItem.t) (tasks : list nat)
  : list EnhancedTodoItem.t * list nat :=
  let updatedTasks := [] in
  List.fold_left updateReferenced tasks (store, updatedTasks).

End WithHost.

(** [/(urgent|asap|immediately|critical|emergency)/] and the four patterns after it. *)
Definition urgencyRe : regex :=
  Grp (words ["urgent"; "asap"; "immediately"; "critical"; "emergency"]).
Definition complexityRe : regex :=
  Grp (words ["complex"; "comprehensive"; "multiple"; "various"; "several"]).
Definition actionRe : regex :=
  Grp (words ["design"; "implement"; "develop"; "analyze"; "research"; "build"; "architect"]).
Definition scopeRe : regex :=
  Grp (words ["project"; "system"; "platform"; "infrastructure"; "architecture"]).
Definition simpleRe : regex :=
  Grp (words ["check"; "verify"; "confirm"; "send"; "email"; "call"; "read"; "update"]).

(** The score and the reasons [suggestPriorityFromContent] gathers. *)
Definition contentScore (content : string) : Z * list string :=
  let priorityScore := 0 in
  let reasons := [] in
  let '(priorityScore, reasons) :=
    if test urgencyRe content
    then (priorityScore + 3, JS.push reasons "Contains urgency keywords")
    else (priorityScore, reasons) in
  let '(priorityScore, reasons) :=
    if test complexityRe content
    then (priorityScore + 2, JS.push reasons "Contains complexity indicators")
    else (priorityScore, reasons) in
  let '(priorityScore, reasons) :=
    if test actionRe content
    then (priorityScore + 2, JS.push reasons "Contains complex action verbs")
    else (priorityScore, reasons) in
  let '(priorityScore, reasons) :=
    if test scopeRe content
    then (priorityScore + 1, JS.push reasons "Large scope indicators")
    else (priorityScore, reasons) in
  let '(priorityScore, reasons) :=
    if test simpleRe content
    then (priorityScore - 1, JS.push reasons "Contains simple action verbs")
    else (priorityScore, reasons) in
  (priorityScore, reasons).

(** [suggestPriorityFromContent(title, description)] *)
Definition suggestPriorityFromContent (title description : string) : ContentSuggestion :=
  let content := JS.toLowerCase (title ++ " " ++ description) in
  let '(priorityScore, reasons) := contentScore content in
  let '(suggestedPriority, confidence) :=
    if priorityScore >=? 4 then (TaskPriority.A, 8)
    else if priorityScore >=? 2 then (TaskPriority.B, 7)
    else if priorityScore >=? 0 then (TaskPriority.C, 6)
    else (TaskPriority.D, 5) in
  {| cs_suggestedPriority := suggestedPriority;
     cs_confidenceTenths := confidence;
     cs_reasoning :=
       match JS.join ", " reasons with
       | EmptyString => "Based on content analysis"
       | joined => joined
       end |}.

End PriorityUpdates.

(* ================================================================== *)
(** * services/TaskSuitabilityAnalyzer.ts, the queries on an analysis *)
(* ================================================================== *)

(** The result type of [getBreakdownUrgency]. *)
Inductive Urgency : Set := urgency_none | urgency_low | urgency_medium | urgency_high.

Module BreakdownQueries.
Section WithHost.
Context {H : Host}.

Definition Action_eqb (a b : Action) : bool :=
  match a, b with
  | required, required | suggested, suggested | none, none => true
  | _, _ => false
  end.

(** [needsImmediateBreakdown(task)] *)
Definition needsImmediateBreakdown (task : EnhancedTodoItem.t) : bool :=
  let analysis := TaskSuitabilityAnalyzer.analyzeTaskSuitability task in
  Action_eqb (recommendedAction analysis) required.

(** [shouldSuggestBreakdown(task)] *)
Definition shouldSuggestBreakdown (task : EnhancedTodoItem.t) : bool :=
  let analysis := TaskSuitabilityAnalyzer.analyzeTaskSuitability task in
  Action_eqb (recommendedAction analysis) suggested
  || Action_eqb (recommendedAction analysis) required.

(** [getBreakdownUrgency(task)] *)
Definition getBreakdownUrgency (task : EnhancedTodoItem.t) : Urgency :=
  let analysis := TaskSuitabilityAnalyzer.analyzeTaskSuitability task in
  if Action_eqb (recommendedAction analysis) required then urgency_high
  else if Action_eqb (recommendedAction analysis) suggested then
    let highSeverityIssues :=
      List.filter (fun i => Severity_eqb (severity i) HIGH) (issues analysis) in
    let mediumSeverityIssues :=
      List.filter (fun i => Severity_eqb (severity i) MEDIUM) (issues analysis) in
    if (0 <? List.length highSeverityIssues)%nat then urgency_high
    else if (0 <? List.length mediumSeverityIssues)%nat then urgency_medium
    else urgency_low
  else urgency_none.

(** [generateBreakdownSummary(task)] *)
Definition generateBreakdownSummary (task : EnhancedTodoItem.t) : string :=
  let analysis := TaskSuitabilityAnalyzer.analyzeTaskSuitability task in
  if negb (isProblematic analysis) then
    "Task structure looks good for the current priority system."
  else
    let issueCount := List.length (issues analysis) in
    let highSeverityCount :=
      List.length (List.filter (fun i => Severity_eqb (severity i) HIGH) (issues analysis)) in
    let summary :=
      "Found " ++ JS.ofZ (Z.of_nat issueCount) ++ " issue"
      ++ (if (1 <? issueCount)%nat then "s" else "") in
    let summary :=
      if (0 <? highSeverityCount)%nat
      then summary ++ " (" ++ JS.ofZ (Z.of_nat highSeverityCount) ++ " high priority)"
      else summary in
    let summary := summary ++ ". " in
    if Action_eqb (recommendedAction analysis) required
    then summary ++ "Task breakdown is required before assignment."
    else summary ++ "Consider breaking down this task for better time management.".

End WithHost.
End BreakdownQueries.

(* ================================================================== *)
(** * main.ts and views/EnhancedTodoView.ts, the task queries *)
(* ================================================================== *)

Module EnhancedTodoPlugin.
Section WithHost.
Context {H : Host}.

(** [getTodaysAssignedTasks()], over what [getAllTodos()] returns. *)
Definition getTodaysAssignedTasks (allTodos : list EnhancedTodoItem.t) : list EnhancedTodoItem.t :=
  List.filter (fun todo => EnhancedTodoItem.isAssignedToday todo
                           && negb (EnhancedTodoItem.isCompleted todo)) allTodos.

(** [getUnassignedTasks()] *)
Definition getUnassignedTasks (allTodos : list EnhancedTodoItem.t) : list EnhancedTodoItem.t :=
  List.filter (fun todo => negb (EnhancedTodoItem.isAssignedToday todo)
                           && negb (EnhancedTodoItem.isCompleted todo)) allTodos.

(** [getTasksByPriority(priority)] *)
Definition getTasksByPriority (priority : TaskPriority.t) (allTodos : list EnhancedTodoItem.t)
  : list EnhancedTodoItem.t :=
  List.filter (fun todo => TaskPriority.eqb (EnhancedTodoItem.priority todo) priority
                           && negb (EnhancedTodoItem.isCompleted todo)) allTodos.

(** [/\[[ x]\]/i] *)
Definition checkboxRe : regex := seq [chrI "["; Cls (anyOfI " x"); chrI "]"].

(** The line that [toggleTaskStatus(todo)] writes back in place of
    [currentLine]. *)
Definition newLine (todo_isCompleted : bool) (currentLine : string) : string :=
  let newStatus := if todo_isCompleted then "[ ]" else "[x]" in
  replace checkboxRe newStatus currentLine.

(** [parseFileForTodos(file)], [content] being what the vault returned for
    the file: the tasks of the [try] block, or [[]] from the [catch]; the
    notice about tasks in need of a breakdown is not part of the result. *)
Definition parseFileForTodos (parser : EnhancedTodoParser.t) (file : TFile) (content : string)
    (clockReadings : nat) : list EnhancedTodoItem.t :=
  match EnhancedTodoParser.parseEnhancedTodosInFile parser file content clockReadings with
  | Returned (todos, _) => todos
  | Threw _ => []
  end.

End WithHost.
End EnhancedTodoPlugin.

Inductive ViewFilter : Set := filter_today | filter_scheduled | filter_inbox | filter_all.

Module EnhancedTodoView.
Section WithHost.
Context {H : Host}.

Definition isSet (A : Type) (o : option A) : bool :=
  match o with Some _ => true | None => false end.

(** [getFilteredTasks()]; [currentPriorityFilter] is a tier, or ['all']
    ([None]). *)
Definition getFilteredTasks (currentFilter : ViewFilter) (showCompletedTasks : bool)
    (currentPriorityFilter : option TaskPriority.t) (allTodos : list EnhancedTodoItem.t)
  : list EnhancedTodoItem.t :=
  let tasks :=
    match currentFilter with
    | filter_today => List.filter (fun t => EnhancedTodoItem.isAssignedToday t) allTodos
    | filter_scheduled =>
        List.filter (fun t => isSet (EnhancedTodoItem.assignedDate t)
                              && negb (EnhancedTodoItem.isAssignedToday t)) allTodos
    | filter_inbox =>
        List.filter (fun t => negb (EnhancedTodoItem.isAssignedToday t)
                              && negb (isSet (EnhancedTodoItem.assignedDate t))) allTodos
    | filter_all => allTodos
    end in
  let tasks :=
    if negb showCompletedTasks
    then List.filter (fun t => negb (EnhancedTodoItem.isCompleted t)) tasks
    else tasks in
  let tasks :=
    match currentPriorityFilter with
    | Some p => List.filter (fun t => TaskPriority.eqb (EnhancedTodoItem.priority t) p) tasks
    | None => tasks
    end in
  tasks.

(** [groupTasksByPriority(tasks)]: the object with the four keys, as a
    function of the key. *)
Definition groupTasksByPriority (tasks : list EnhancedTodoItem.t) (key : TaskPriority.t)
  : list EnhancedTodoItem.t :=
  List.fold_left
    (fun (groups : TaskPriority.t -> list EnhancedTodoItem.t) task =>
       fun k => if TaskPriority.eqb k (EnhancedTodoItem.priority task)
                then JS.push (groups k) task else groups k)
    tasks (fun _ => []) key.

(** The [completedToday] of [renderStats]. *)
Definition completedToday (allTasks : list EnhancedTodoItem.t) : nat :=
  let todaysTasks := EnhancedTodoPlugin.getTodaysAssignedTasks allTasks in
  List.length (List.filter (fun t => EnhancedTodoItem.isCompleted t) todaysTasks).

End WithHost.
End EnhancedTodoView.

(* ================================================================== *)
(** * parsers/EnhancedTodoParser.ts, the other methods *)
(* ================================================================== *)

Module ParserTools.

(** A [Map<string, V>]: the keys in insertion order, each with its value.
    [mapSet] is [map.set(key, v)], [mapGet] is [map.get(key)]. *)
Fixpoint mapSet {V : Type} (key : string) (v : V) (m : list (string * V)) : list (string * V) :=
  match m with
  | [] => [(key, v)]
  | (k, v0) :: m' =>
      if String.eqb k key then (k, v) :: m' else (k, v0) :: mapSet key v m'
  end.

Fixpoint mapGet {V : Type} (key : string) (m : list (string * V)) : option V :=
  match m with
  | [] => None
  | (k, v) :: m' => if String.eqb k key then Some v else mapGet key m'
  end.

(** [if (!map.has(key)) map.set(key, []); map.get(key).push(v)] *)
Definition mapPush {V : Type} (key : string) (v : V) (m : list (string * list V))
  : list (string * list V) :=
  match mapGet key m with
  | Some l => mapSet key (JS.push l v) m
  | None => mapSet key (JS.push [] v) m
  end.

Section WithHost.
Context {H : Host}.

(** [tags.find(tag => tag.startsWith(prefix))] *)
Definition findTag (prefix : string) (tags : list string) : option string :=
  List.find (fun tag => JS.startsWith tag prefix) tags.

(** The first pass of [parseParentChildRelationships]: the map from a
    parent name to the task object, which is the task at that index of
    [todos] (the array holds each task object once). *)
Fixpoint parentPass (todos : list EnhancedTodoItem.t) (i : nat) (parentMap : list (string * nat))
  : list (string * nat) :=
  match todos with
  | [] => parentMap
  | todo :: todos' =>
      let parentMap :=
        match findTag "#parent/" (EnhancedTodoItem.tags todo) with
        | Some parentTag => mapSet (JS.replaceStr parentTag "#parent/" "") i parentMap
        | None => parentMap
        end in
      parentPass todos' (S i) parentMap
  end.

(** The body of the second [forEach], for the task at index [i]; the
    parent is read again after the child is written, they are the same
    object when the indices agree. *)
Definition linkChild (parentMap : list (string * nat)) (todos : list EnhancedTodoItem.t) (i : nat)
  : list EnhancedTodoItem.t :=
  match nth_error todos i with
  | None => todos
  | Some todo =>
      match findTag "#child/" (EnhancedTodoItem.tags todo) with
      | None => todos
      | Some childTag =>
          let parentId := JS.replaceStr childTag "#child/" "" in
          match mapGet parentId parentMap with
          | None => todos
          | Some p =>
              match nth_error todos p with
              | None => todos
              | Some parent =>
                  let todos :=
                    setNth i (TodoItemMethods.withLinks (Some (EnhancedTodoItem.id parent))
                                (EnhancedTodoItem.childTaskIds todo) todo) todos in
                  match nth_error todos p with
                  | None => todos
                  | Some parent =>
                      setNth p (TodoItemMethods.withLinks (EnhancedTodoItem.parentTaskId parent)
                                  (JS.push (EnhancedTodoItem.childTaskIds parent)
                                           (EnhancedTodoItem.id todo)) parent) todos
                  end
              end
          end
      end
  end.

(** [parseParentChildRelationships(todos)]: the tasks afterwards. *)
Definition parseParentChildRelationships (todos : list EnhancedTodoItem.t)
  : list EnhancedTodoItem.t :=
  let parentMap := parentPass todos 0 [] in
  List.fold_left (linkChild parentMap) (List.seq 0 (List.length todos)) todos.

Definition isProjectTag (tag : string) : bool :=
  JS.startsWith tag "#project/" || JS.startsWith tag "#work/"
  || JS.startsWith tag "#personal/".

(** [parseProjectTags(todos)] *)
Definition parseProjectTags (todos : list EnhancedTodoItem.t)
  : list (string * list EnhancedTodoItem.t) :=
  List.fold_left
    (fun projectMap todo =>
       let projectTags := List.filter isProjectTag (EnhancedTodoItem.tags todo) in
       if (List.length projectTags =? 0)%nat then mapPush "uncategorized" todo projectMap
       else List.fold_left (fun projectMap projectTag => mapPush projectTag todo projectMap)
                           projectTags projectMap)
    todos [].

(** luxon's [toISODate()], [None] for the [null] of an invalid date; the
    text of a date holds no [$], so that [replace] inserts it as it is. *)
Variable toISODate : DateTime -> option string.

(** [generateTodoLine(todo)] *)
Definition generateTodoLine (self : EnhancedTodoParser.t) (todo : EnhancedTodoItem.t) : string :=
  let checkbox := if EnhancedTodoItem.isCompleted todo then "[x]" else "[ ]" in
  let line := "- " ++ checkbox ++ " " ++ EnhancedTodoItem.title todo in
  let line :=
    if negb (String.eqb (EnhancedTodoItem.description todo) "")
    then line ++ " " ++ EnhancedTodoItem.description todo else line in
  let line :=
    if negb (EnhancedTodoItem.isAutoPriority todo)
    then line ++ " #priority/" ++ TaskPriority.toString (EnhancedTodoItem.priority todo)
    else line in
  let line :=
    List.fold_left
      (fun line tag => if negb (JS.startsWith tag "#priority/") then line ++ " " ++ tag else line)
      (EnhancedTodoItem.tags todo) line in
  let line :=
    match EnhancedTodoItem.assignedDate todo with
    | Some assignedDate =>
        let dateStr := toISODate assignedDate in
        line ++ " " ++ JS.replaceStr (EnhancedTodoParser.dateTagFormat self) "%date%"
                         (match dateStr with Some s => s | None => "" end)
    | None => line
    end in
  line.

End WithHost.
End ParserTools.

(* ================================================================== *)
(** * Sequences of calls on a task record *)
(* ================================================================== *)

Module MethodCalls.
Section WithHost.
Context {H : Host}.

(** One call that changes a task record: a method of [EnhancedTodoItem]
    with arguments of the declared types, or one of the two services that
    update a record. *)
Inductive t : Type :=
| updatePriority (newPriority : TaskPriority.t) (isManual : bool)
| addRescheduleEvent (fromDate toDate : DateTime) (reason : string)
| markCompleted
| markTodo
| addSubtask (title : string) (complexity : Z)
| removeSubtask (subtaskId : string)
| assignToToday
| assignToDate (date : DateTime)
| updateTaskPriority (forceRecalculate : bool)
| autoFixSimpleIssues.

(** The record after the call. *)
Definition perform (c : t) (x : EnhancedTodoItem.t) : M EnhancedTodoItem.t :=
  match c with
  | updatePriority newPriority isManual =>
      ret (EnhancedTodoItem.updatePriority newPriority isManual x)
  | addRescheduleEvent fromDate toDate reason =>
      TodoItemMethods.addRescheduleEvent fromDate toDate reason x
  | markCompleted => TodoItemMethods.markCompleted x
  | markTodo => ret (TodoItemMethods.markTodo x)
  | addSubtask title complexity => ret (fst (EnhancedTodoItem.addSubtask title complexity x))
  | removeSubtask subtaskId => ret (fst (EnhancedTodoItem.removeSubtask subtaskId x))
  | assignToToday => TodoItemMethods.assignToToday x
  | assignToDate date => EnhancedTodoItem.assignToDate (EnhancedTodoItem.LuxonDate date) x
  | updateTaskPriority forceRecalculate =>
      ret (fst (PriorityUpdates.updateTaskPriority x forceRecalculate))
  | autoFixSimpleIssues => ret (fst (TaskSuitabilityAnalyzer.autoFixSimpleIssues x))
  end.

(** The calls one after the other. *)
Fixpoint performAll (cs : list t) (x : EnhancedTodoItem.t) : M EnhancedTodoItem.t :=
  match cs with
  | [] => ret x
  | c :: cs' => x' <- perform c x ;; performAll cs' x'
  end.

End WithHost.
End MethodCalls.

(* ================================================================== *)
(** * Properties of a task record *)
(* ================================================================== *)

Section RecordProperties.
Context {H : Host}.

(** What the fields of a record say about each other. *)
Definition consistent (x : EnhancedTodoItem.t) : Prop :=
  EnhancedTodoItem.subtaskCount x = Z.of_nat (List.length (EnhancedTodoItem.subtasks x))
  /\ EnhancedTodoItem.allocatedTime x
     = timePerTask (PRIORITY_TIME_RATIOS (EnhancedTodoItem.priority x))
  /\ (EnhancedTodoItem.remainingTime x = 0
      \/ EnhancedTodoItem.remainingTime x = EnhancedTodoItem.allocatedTime x)
  /\ EnhancedTodoItem.rescheduleCount x
     = Z.of_nat (List.length (EnhancedTodoItem.rescheduleHistory x))
  /\ EnhancedTodoItem.needsRescheduleWarning x
     = (EnhancedTodoItem.rescheduleCount x >=? RESCHEDULE_WARNING_THRESHOLD)
  /\ EnhancedTodoItem.isCompleted x
     = TodoItemStatus.eqb (EnhancedTodoItem.status x) TodoItemStatus.Done
  /\ (EnhancedTodoItem.isCompleted x = false -> EnhancedTodoItem.completedDate x = None).

(** A record that was never assigned, rescheduled or completed, as the
    constructor leaves it for an open task. *)
Definition open (x : EnhancedTodoItem.t) : Prop :=
  EnhancedTodoItem.status x = TodoItemStatus.Todo
  /\ EnhancedTodoItem.isCompleted x = false
  /\ EnhancedTodoItem.completedDate x = None
  /\ EnhancedTodoItem.remainingTime x = EnhancedTodoItem.allocatedTime x.

End RecordProperties.

(** The names [categorizeSubtask] returns. *)
Definition categoryNames : list string :=
  ["Design"; "Implementation"; "Testing"; "Research"; "Documentation"; "Planning";
   "Deployment"; "General"].

(** The subtasks of a category, in their order. *)
Definition ofCategory (category : string) (subtasks : list SubTask.t) : list SubTask.t :=
  List.filter
    (fun st => String.eqb (TaskSuitabilityAnalyzer.categorizeSubtask (SubTask.title st)) category)
    subtasks.

(** The three complexity bands, high (4 and more), medium (2 to 3) and low
    (less than 2), each under the name its suggestion carries. *)
Definition complexityBands (subtasks : list SubTask.t) : list (string * list SubTask.t) :=
  [("Complex Tasks", List.filter (fun st => 4 <=? SubTask.complexity st) subtasks);
   ("Standard Tasks",
    List.filter (fun st => (2 <=? SubTask.complexity st) && (SubTask.complexity st <=? 3))
                subtasks);
   ("Quick Tasks", List.filter (fun st => SubTask.complexity st <=? 1) subtasks)].

(** The title and the subtask titles of a suggestion. *)
Definition outline (s : TaskBreakdownSuggestion) : string * list string :=
  (bd_title s, bd_subtasks s).

(** The title and the subtask titles of the suggestion made for a named
    group of subtasks of a task with the title [title]. *)
Definition entitled (title : string) (group : string * list SubTask.t)
  : string * list string :=
  (title ++ " - " ++ fst group, List.map SubTask.title (snd group)).

Definition isEmpty {T : Type} (l : list T) : bool :=
  match l with [] => true | _ => false end.

(** The references of an array, each once, in the order of their first
    occurrence. *)
Fixpoint firstVisits (tasks : list nat) : list nat :=
  match tasks with
  | [] => []
  | task :: tasks' =>
      task :: List.filter (fun task' => negb (task' =? task)%nat) (firstVisits tasks')
  end.

(** A task after an unforced [updateTaskPriority]. *)
Definition autoUpdated {H : Host} (task : EnhancedTodoItem.t) : EnhancedTodoItem.t :=
  fst (PriorityUpdates.updateTaskPriority task false).

(** Whether [validateAutoPriority] rejects the object a reference names. *)
Definition rejected {H : Host} (store : list EnhancedTodoItem.t) (task : nat) : bool :=
  match nth_error store task with
  | Some object => negb (isValid (PriorityUpdates.validateAutoPriority object))
  | None => false
  end.

(** A store of two task objects, both automatic: the first in tier D with
    two subtasks, the second in tier C with two subtasks. *)
Definition exampleStore : list (@EnhancedTodoItem.t exampleHost) :=
  [exampleTask TaskPriority.D true [exampleSubtask "a" "check" 1; exampleSubtask "b" "write" 2];
   exampleTask TaskPriority.C true [exampleSubtask "a" "check" 1; exampleSubtask "b" "write" 2]].

(* ================================================================== *)
(** * Scans of a string *)
(* ================================================================== *)

(** [f] holds of [s] or of one of its suffixes. *)
Fixpoint anyTail (f : string -> bool) (s : string) : bool :=
  f s || match s with String _ s' => anyTail f s' | EmptyString => false end.

(** No character of [s] is [c]. *)
Definition lacks (c : ascii) (s : string) : bool :=
  JS.forallb (fun x => negb (Ascii.eqb x c)) s.

(** The tasks that belong under a key of the project map: a task without
    project tag under ["uncategorized"], any other task once for each of
    its project tags that is the key. *)
Definition tasksUnder {H : Host} (key : string) (todos : list EnhancedTodoItem.t)
  : list EnhancedTodoItem.t :=
  List.flat_map
    (fun todo =>
       let projectTags := List.filter ParserTools.isProjectTag (EnhancedTodoItem.tags todo) in
       if (List.length projectTags =? 0)%nat
       then (if String.eqb "uncategorized" key then [todo] else [])
       else List.map (fun _ => todo) (List.filter (fun tag => String.eqb tag key) projectTags))
    todos.

(** [Some l] for a non-empty [l]. *)
Definition nonEmpty {T : Type} (l : list T) : option (list T) :=
  match l with [] => None | _ => Some l end.

(** The index of the last task among [todos] (the first of which has index
    [i]) whose first [#parent/] tag names [name]. *)
Fixpoint declaredParent {H : Host} (name : string) (todos : list EnhancedTodoItem.t) (i : nat)
  : option nat :=
  match todos with
  | [] => None
  | todo :: todos' =>
      match declaredParent name todos' (S i) with
      | Some p => Some p
      | None =>
          match ParserTools.findTag "#parent/" (EnhancedTodoItem.tags todo) with
          | Some parentTag =>
              if String.eqb (JS.replaceStr parentTag "#parent/" "") name then Some i else None
          | None => None
          end
      end
  end.

(** A task record on the example host with an id and tags. *)
Definition exampleTagged (id : string) (tags : list string) : @EnhancedTodoItem.t exampleHost :=
  EnhancedTodoItem.setTags tags
    (@EnhancedTodoItem.make exampleHost 1700000000000 id "Task" "" TaskPriority.D
       "notes/work.md" 0 0 10 TodoItemStatus.Todo [] true).

(* ================================================================== *)
(** * The embedding at work *)
(* ================================================================== *)

Example split_keeps_trailing_line :
  JS.split "010" (String "a" (String "010" (String "b" (String "010" "")))) = ["a"; "b"; ""].
Proof. reflexivity. Qed.

Example trim_both_ends : JS.trim "  a b  " = "a b".
Proof. reflexivity. Qed.

Example tags_of_a_line :
  EnhancedTodoParser.extractTags "Write report #work/a #B now #due/2024-01-15"
  = ["#work/a"; "#B"; "#due/2024-01-15"].
Proof. vm_compute. reflexivity. Qed.

Example basic_data_of_a_line :
  EnhancedTodoParser.parseBasicTodoData "  - [x] Write report #work/a now" 3
  = {| pd_title := "Write report  now"; pd_description := "";
       pd_status := TodoItemStatus.Done; pd_tags := ["#work/a"];
       pd_startIndex := 2; pd_length := 32 |}.
Proof. vm_compute. reflexivity. Qed.

Example complexity_scores :
  List.map AutoPriorityAssigner.calculateSubtaskComplexity
    ["Check mail and deploy"; "Write and design"; "Refactor several complex modules"; "Walk"]
  = [1; 4; 5; 1].
Proof. vm_compute. reflexivity. Qed.

Example hash_of_a_path : EnhancedTodoParser.simpleHash "notes/trip.md" = "6w881e".
Proof. vm_compute. reflexivity. Qed.

Example daily_notes :
  List.map EnhancedTodoParser.isDailyNote
    ["journal/2024-01-15.md"; "01-15-2024.md"; "20240115.md"; "notes/trip.md"]
  = [true; true; true; false].
Proof. vm_compute. reflexivity. Qed.

(* ================================================================== *)
(** * Priority by subtask count *)
(* ================================================================== *)

Lemma assignPriority_cases (n : Z) :
  (6 <= n /\ AutoPriorityAssigner.assignPriorityBySubtaskCount n = TaskPriority.A)
  \/ (4 <= n < 6 /\ AutoPriorityAssigner.assignPriorityBySubtaskCount n = TaskPriority.B)
  \/ (2 <= n < 4 /\ AutoPriorityAssigner.assignPriorityBySubtaskCount n = TaskPriority.C)
  \/ (n < 2 /\ AutoPriorityAssigner.assignPriorityBySubtaskCount n = TaskPriority.D).
Proof.
  unfold AutoPriorityAssigner.assignPriorityBySubtaskCount; simpl.
  destruct (Z.geb_spec n 6); [left; split; [lia | reflexivity] | right].
  destruct (Z.geb_spec n 4); [left; split; [lia | reflexivity] | right].
  destruct (Z.geb_spec n 2); [left | right]; (split; [lia | reflexivity]).
Qed.

(** C1: the tier assigned by subtask count never decreases (in the order
    D < C < B < A) when the count grows, and with the default thresholds
    5 subtasks give tier B and 6 give tier A. *)
Theorem assignPriorityBySubtaskCount_monotone :
  (forall n m : Z, n <= m ->
     TaskPriority.le (AutoPriorityAssigner.assignPriorityBySubtaskCount n)
                     (AutoPriorityAssigner.assignPriorityBySubtaskCount m))
  /\ AutoPriorityAssigner.assignPriorityBySubtaskCount 5 = TaskPriority.B
  /\ AutoPriorityAssigner.assignPriorityBySubtaskCount 6 = TaskPriority.A.
Proof.
  split; [| split; reflexivity].
  intros n m Hnm. unfold TaskPriority.le.
  destruct (assignPriority_cases n) as [[Hn ->] | [[Hn ->] | [[Hn ->] | [Hn ->]]]];
    destruct (assignPriority_cases m) as [[Hm ->] | [[Hm ->] | [[Hm ->] | [Hm ->]]]];
    simpl; lia.
Qed.

Lemma assignPriorityBySubtaskCount_monotone_witness :
  3 <= 7 /\
  TaskPriority.le (AutoPriorityAssigner.assignPriorityBySubtaskCount 3)
                  (AutoPriorityAssigner.assignPriorityBySubtaskCount 7).
Proof.
  split; [lia |].
  apply (proj1 assignPriorityBySubtaskCount_monotone 3 7); lia.
Defined.

(* ================================================================== *)
(** * Removing a subtask *)
(* ================================================================== *)

Section RemoveSubtask.
Context {H : Host}.

Lemma findIndex_None (sid : string) (l : list SubTask.t) :
  EnhancedTodoItem.findIndex sid l = None <->
  (forall st, In st l -> SubTask.id st <> sid).
Proof.
  induction l as [| a l IH]; simpl.
  - split; [intros _ st [] | reflexivity].
  - destruct (String.eqb_spec (SubTask.id a) sid) as [E | N].
    + split; [discriminate |]. intros Hall. exfalso. apply (Hall a); auto.
    + destruct (EnhancedTodoItem.findIndex sid l) as [i |] eqn:Ei; simpl.
      * split; [discriminate |]. intros Hall.
        destruct IH as [_ IHr].
        assert (Hn : Some i = None); [| discriminate Hn].
        apply IHr. intros st Hst. apply Hall. now right.
      * split; [| reflexivity]. intros _ st [<- | Hst]; [exact N |].
        now apply (proj1 IH eq_refl).
Qed.

Lemma findIndex_Some (sid : string) (l : list SubTask.t) (i : nat) :
  EnhancedTodoItem.findIndex sid l = Some i ->
  exists l1 st l2,
    l = (l1 ++ st :: l2)%list /\ SubTask.id st = sid /\
    (forall y, In y l1 -> SubTask.id y <> sid) /\
    List.length l1 = i /\ EnhancedTodoItem.splice1 i l = (l1 ++ l2)%list.
Proof.
  revert i. induction l as [| a l IH]; simpl; intros i Hi; [discriminate |].
  destruct (String.eqb_spec (SubTask.id a) sid) as [E | N].
  - injection Hi as <-. exists [], a, l. simpl. repeat split; auto.
  - destruct (EnhancedTodoItem.findIndex sid l) as [j |]; simpl in Hi; [| discriminate].
    injection Hi as <-.
    destruct (IH j eq_refl) as (l1 & st & l2 & -> & Hid & Hl1 & Hlen & Hsp).
    exists (a :: l1), st, l2. simpl. repeat split; auto.
    + intros y [<- | Hy]; auto.
    + now rewrite Hsp.
Qed.

(** C10: [removeSubtask] returns false and changes nothing when no subtask
    has the id; otherwise it returns true, removes exactly the first subtask
    with that id and leaves [subtaskCount] equal to the new length. *)
Theorem removeSubtask_first_or_nothing (x : EnhancedTodoItem.t) (sid : string) :
  ((forall st, In st (EnhancedTodoItem.subtasks x) -> SubTask.id st <> sid) ->
     EnhancedTodoItem.removeSubtask sid x = (x, false))
  /\
  ((exists st, In st (EnhancedTodoItem.subtasks x) /\ SubTask.id st = sid) ->
     exists l1 st l2,
       EnhancedTodoItem.subtasks x = (l1 ++ st :: l2)%list
       /\ SubTask.id st = sid
       /\ (forall y, In y l1 -> SubTask.id y <> sid)
       /\ EnhancedTodoItem.removeSubtask sid x
          = (EnhancedTodoItem.setSubtasks (l1 ++ l2) (Z.of_nat (List.length (l1 ++ l2))) x, true)
       /\ EnhancedTodoItem.subtasks (fst (EnhancedTodoItem.removeSubtask sid x)) = (l1 ++ l2)%list
       /\ EnhancedTodoItem.subtaskCount (fst (EnhancedTodoItem.removeSubtask sid x))
          = Z.of_nat (List.length
                        (EnhancedTodoItem.subtasks (fst (EnhancedTodoItem.removeSubtask sid x))))).
Proof.
  unfold EnhancedTodoItem.removeSubtask. split.
  - intros Hno. apply findIndex_None in Hno. now rewrite Hno.
  - intros (st0 & Hin & Hid0).
    destruct (EnhancedTodoItem.findIndex sid (EnhancedTodoItem.subtasks x)) as [i |] eqn:Ei.
    + destruct (findIndex_Some Ei) as (l1 & st & l2 & Hl & Hid & Hl1 & _ & Hsp).
      exists l1, st, l2. rewrite Hsp. simpl. repeat split; auto.
    + exfalso. apply findIndex_None with (st := st0) in Ei; auto.
Qed.

End RemoveSubtask.

Lemma removeSubtask_first_or_nothing_witness :
  let x := exampleTask TaskPriority.C true
             [exampleSubtask "a" "one" 1; exampleSubtask "b" "two" 2;
              exampleSubtask "a" "three" 3] in
  EnhancedTodoItem.removeSubtask "z" x = (x, false)
  /\ List.map SubTask.title
       (EnhancedTodoItem.subtasks (fst (EnhancedTodoItem.removeSubtask "a" x)))
     = ["two"; "three"].
Proof.
  intro x. split.
  - apply (proj1 (removeSubtask_first_or_nothing x "z")).
    simpl. intros st [<- | [<- | [<- | []]]]; discriminate.
  - destruct (proj2 (removeSubtask_first_or_nothing x "a")) as (l1 & st & l2 & _ & _ & _ & E & _).
    + exists (exampleSubtask "a" "one" 1). split; [now left | reflexivity].
    + reflexivity.
Defined.

(* ================================================================== *)
(** * Suitability analysis *)
(* ================================================================== *)

Section Suitability.
Context {H : Host}.

Lemma fold_left_add_acc (f : SubTask.t -> Z) (l : list SubTask.t) (a : Z) :
  List.fold_left (fun total st => total + f st) l a
  = a + List.fold_right Z.add 0 (List.map f l).
Proof.
  revert a. induction l as [| x l IH]; intro a; simpl; [lia |].
  rewrite IH. lia.
Qed.

Lemma estimateTaskTime_spec (task : EnhancedTodoItem.t) :
  TaskSuitabilityAnalyzer.estimateTaskTime task = spec_estimatedTime task.
Proof.
  unfold TaskSuitabilityAnalyzer.estimateTaskTime, spec_estimatedTime.
  destruct (EnhancedTodoItem.subtasks task) as [| st l]; [reflexivity |].
  now rewrite fold_left_add_acc.
Qed.

Lemma filter_length_pos {T} (f : T -> bool) (l : list T) :
  (0 <? List.length (List.filter f l))%nat = true <-> exists x, In x l /\ f x = true.
Proof.
  rewrite Nat.ltb_lt. split.
  - intro Hl. destruct (List.filter f l) as [| x r] eqn:E; [simpl in Hl; lia |].
    exists x. apply filter_In. rewrite E. now left.
  - intros (x & Hx & Hf).
    assert (Hin : In x (List.filter f l)) by (apply filter_In; auto).
    destruct (List.filter f l); [destruct Hin | simpl; lia].
Qed.

Lemma Severity_eqb_eq (a b : Severity) : Severity_eqb a b = true <-> a = b.
Proof. destruct a, b; simpl; split; congruence. Qed.

Lemma getRecommendedAction_spec (l : list TaskSuitabilityIssue) :
  ((exists i, In i l /\ severity i = HIGH) ->
     TaskSuitabilityAnalyzer.getRecommendedAction l = required)
  /\ (l <> [] -> (forall i, In i l -> severity i <> HIGH) ->
      TaskSuitabilityAnalyzer.getRecommendedAction l = suggested)
  /\ (l = [] -> TaskSuitabilityAnalyzer.getRecommendedAction l = none).
Proof.
  unfold TaskSuitabilityAnalyzer.getRecommendedAction.
  repeat split.
  - intros (i & Hi & Hs).
    assert (E : (0 <? List.length (List.filter (fun i => Severity_eqb (severity i) HIGH) l))%nat
                = true).
    { apply filter_length_pos. exists i. split; [exact Hi |]. now apply Severity_eqb_eq. }
    now rewrite E.
  - intros Hne Hno.
    destruct (0 <? List.length (List.filter (fun i => Severity_eqb (severity i) HIGH) l))%nat
      eqn:E.
    + apply filter_length_pos in E. destruct E as (i & Hi & Hs).
      apply Severity_eqb_eq in Hs. now elim (Hno i Hi).
    + destruct l; [congruence | reflexivity].
  - intros ->. reflexivity.
Qed.

(** C6: the analysis reports a TIME_MISMATCH issue, of severity HIGH, exactly
    when the estimated time (30 without subtasks, else the sum of complexity
    times 10) exceeds 1.5 times the time of the task's tier; the recommended
    action is [required] with a HIGH issue, [suggested] with issues none of
    which is HIGH, [none] without issues. *)
Theorem analyzeTaskSuitability_time_mismatch (task : EnhancedTodoItem.t) :
  let r := TaskSuitabilityAnalyzer.analyzeTaskSuitability task in
  ((exists i, In i (issues r) /\ type i = TIME_MISMATCH)
   <-> 2 * spec_estimatedTime task
       > 3 * timePerTask (PRIORITY_TIME_RATIOS (EnhancedTodoItem.priority task)))
  /\ (forall i, In i (issues r) -> type i = TIME_MISMATCH -> severity i = HIGH)
  /\ ((exists i, In i (issues r) /\ severity i = HIGH) -> recommendedAction r = required)
  /\ (issues r <> [] -> (forall i, In i (issues r) -> severity i <> HIGH) ->
      recommendedAction r = suggested)
  /\ (issues r = [] -> recommendedAction r = none).
Proof.
  intro r. split; [| split].
  - rewrite <- estimateTaskTime_spec.
    subst r. unfold TaskSuitabilityAnalyzer.analyzeTaskSuitability; simpl.
    assert (Hex : TaskSuitabilityAnalyzer.exceedsTimeAllocationLimits task = true
                  <-> 2 * TaskSuitabilityAnalyzer.estimateTaskTime task
                      > 3 * timePerTask (PRIORITY_TIME_RATIOS (EnhancedTodoItem.priority task))).
    { unfold TaskSuitabilityAnalyzer.exceedsTimeAllocationLimits. rewrite Z.gtb_lt. lia. }
    rewrite <- Hex.
    destruct (TaskSuitabilityAnalyzer.isTooComplexForSingleTask task),
             (TaskSuitabilityAnalyzer.hasInconsistentSubtaskComplexity task),
             (TaskSuitabilityAnalyzer.exceedsTimeAllocationLimits task); simpl;
      (split;
       [ intros (i & Hi & Ht); intuition (subst i; first [reflexivity | discriminate Ht])
       | intro E;
         first [ discriminate E
               | exists TaskSuitabilityAnalyzer.timeMismatchIssue;
                 split; [simpl; tauto | reflexivity] ] ]).
  - subst r. unfold TaskSuitabilityAnalyzer.analyzeTaskSuitability; simpl.
    destruct (TaskSuitabilityAnalyzer.isTooComplexForSingleTask task),
             (TaskSuitabilityAnalyzer.hasInconsistentSubtaskComplexity task),
             (TaskSuitabilityAnalyzer.exceedsTimeAllocationLimits task); simpl;
      intros i Hi Ht;
      intuition (subst i; first [reflexivity | discriminate Ht]).
  - subst r. unfold TaskSuitabilityAnalyzer.analyzeTaskSuitability.
    cbv zeta. cbn [issues recommendedAction].
    apply getRecommendedAction_spec.
Qed.

End Suitability.

Lemma analyzeTaskSuitability_time_mismatch_witness :
  let x := exampleTask TaskPriority.D true
             [exampleSubtask "a" "deploy" 5; exampleSubtask "b" "refactor" 5] in
  (exists i, In i (issues (TaskSuitabilityAnalyzer.analyzeTaskSuitability x))
             /\ type i = TIME_MISMATCH)
  /\ recommendedAction (TaskSuitabilityAnalyzer.analyzeTaskSuitability x) = required.
Proof.
  intro x.
  pose proof (@analyzeTaskSuitability_time_mismatch exampleHost x) as (Htm & Hhigh & Hreq & _).
  assert (Hex : exists i, In i (issues (TaskSuitabilityAnalyzer.analyzeTaskSuitability x))
                          /\ type i = TIME_MISMATCH).
  { apply Htm. vm_compute. reflexivity. }
  split; [exact Hex |].
  apply Hreq. destruct Hex as (i & Hi & Ht). exists i. split; [exact Hi |].
  now apply Hhigh.
Defined.

(* ================================================================== *)
(** * Auto-fix *)
(* ================================================================== *)

Section AutoFix.
Context {H : Host}.

(** C8: on a manually overridden task whose stored estimate is within 10
    minutes of the computed one, auto-fix returns [fixed = false], no change
    description, and the record as it was; on every manually overridden task
    it leaves the tier and its time allocation as they were. *)
Theorem autoFixSimpleIssues_manual (task : EnhancedTodoItem.t) :
  EnhancedTodoItem.isAutoPriority task = false ->
  (Z.abs (EnhancedTodoItem.estimatedTime task - spec_estimatedTime task) <= 10 ->
     TaskSuitabilityAnalyzer.autoFixSimpleIssues task
     = (task, {| fixed := false; changes := [] |}))
  /\ EnhancedTodoItem.priority (fst (TaskSuitabilityAnalyzer.autoFixSimpleIssues task))
     = EnhancedTodoItem.priority task
  /\ EnhancedTodoItem.allocatedTime (fst (TaskSuitabilityAnalyzer.autoFixSimpleIssues task))
     = EnhancedTodoItem.allocatedTime task
  /\ EnhancedTodoItem.remainingTime (fst (TaskSuitabilityAnalyzer.autoFixSimpleIssues task))
     = EnhancedTodoItem.remainingTime task
  /\ EnhancedTodoItem.isAutoPriority (fst (TaskSuitabilityAnalyzer.autoFixSimpleIssues task))
     = false.
Proof.
  intro Hman. rewrite <- estimateTaskTime_spec.
  unfold TaskSuitabilityAnalyzer.autoFixSimpleIssues.
  rewrite Hman, Bool.andb_false_r.
  destruct (Z.gtb_spec
              (Z.abs (EnhancedTodoItem.estimatedTime task
                      - TaskSuitabilityAnalyzer.estimateTaskTime task)) 10) as [Hgt | Hle];
    simpl; repeat split; auto.
  intro Hle. lia.
Qed.

End AutoFix.

Lemma autoFixSimpleIssues_manual_witness :
  let x := exampleTask TaskPriority.A false [exampleSubtask "a" "call" 1;
                                            exampleSubtask "b" "write" 2] in
  TaskSuitabilityAnalyzer.autoFixSimpleIssues x = (x, {| fixed := false; changes := [] |}).
Proof.
  intro x.
  apply (proj1 (@autoFixSimpleIssues_manual exampleHost x eq_refl)).
  vm_compute. discriminate.
Defined.

(* ================================================================== *)
(** * Breakdown suggestions *)
(* ================================================================== *)

Section Breakdown.
Context {H : Host}.

Lemma In_push {T} (l : list T) (x y : T) : In y (JS.push l x) <-> In y l \/ y = x.
Proof.
  unfold JS.push. rewrite in_app_iff. simpl. intuition.
Qed.

Lemma suggestionOfGroup_sizes (task : EnhancedTodoItem.t) (groups : TaskSuitabilityAnalyzer.Groups) :
  forall acc s,
    In s (List.fold_left (TaskSuitabilityAnalyzer.suggestionOfGroup task) groups acc) ->
    In s acc \/ (2 <= List.length (bd_subtasks s))%nat.
Proof.
  induction groups as [| [k v] groups IH]; intros acc s Hs; [now left |].
  cbn [List.fold_left] in Hs.
  apply IH in Hs. destruct Hs as [Hs | Hs]; [| now right].
  unfold TaskSuitabilityAnalyzer.suggestionOfGroup in Hs.
  destruct (2 <=? List.length v)%nat eqn:E; [| now left].
  apply In_push in Hs. destruct Hs as [Hs | ->]; [now left | right].
  simpl. rewrite length_map. now apply Nat.leb_le.
Qed.

Lemma suggestComplexityBasedBreakdown_sizes (task : EnhancedTodoItem.t) :
  forall s, In s (TaskSuitabilityAnalyzer.suggestComplexityBasedBreakdown task) ->
            (1 <= List.length (bd_subtasks s))%nat.
Proof.
  intros s. unfold TaskSuitabilityAnalyzer.suggestComplexityBasedBreakdown.
  cbv zeta.
  repeat match goal with
         | |- context [if (0 <? ?n)%nat then _ else _] => destruct (Nat.ltb_spec 0 n)
         end;
    rewrite ?In_push; simpl In;
    intuition (subst s; simpl; rewrite length_map; lia).
Qed.

Lemma suggestionOfGroup_title (t1 t2 : EnhancedTodoItem.t) (groups : TaskSuitabilityAnalyzer.Groups) :
  EnhancedTodoItem.title t1 = EnhancedTodoItem.title t2 ->
  forall acc,
    List.fold_left (TaskSuitabilityAnalyzer.suggestionOfGroup t1) groups acc
    = List.fold_left (TaskSuitabilityAnalyzer.suggestionOfGroup t2) groups acc.
Proof.
  intro Ht. induction groups as [| [k v] groups IH]; intro acc; [reflexivity |].
  cbn [List.fold_left]. rewrite IH. f_equal.
  unfold TaskSuitabilityAnalyzer.suggestionOfGroup. now rewrite Ht.
Qed.

End Breakdown.

(* ================================================================== *)
(** * Facts about strings and the matcher *)
(* ================================================================== *)

(** A fact about one character is settled on the 256 code units. *)
Ltac by_ascii c :=
  destruct c as [[] [] [] [] [] [] [] []]; try reflexivity; try discriminate.

Lemma bullet_not_space (c : ascii) : anyOf "-*" c = true -> ws c = false.
Proof. by_ascii c. Qed.

Lemma bracket_not_space (c : ascii) : Ascii.eqb "[" c = true -> ws c = false.
Proof. by_ascii c. Qed.

Lemma takeWhile_dropWhile (p : ascii -> bool) (s : string) :
  s = JS.takeWhile p s ++ JS.dropWhile p s.
Proof.
  induction s as [| c s IH]; simpl; [reflexivity |].
  destruct (p c); simpl; [now rewrite <- IH | reflexivity].
Qed.

Lemma forallb_takeWhile (p : ascii -> bool) (s : string) :
  JS.forallb p (JS.takeWhile p s) = true.
Proof.
  induction s as [| c s IH]; simpl; [reflexivity |].
  destruct (p c) eqn:E; simpl; [now rewrite E | reflexivity].
Qed.

Lemma dropWhile_head (p : ascii -> bool) (s : string) (c : ascii) (t : string) :
  JS.dropWhile p s = String c t -> p c = false.
Proof.
  induction s as [| a s IH]; simpl; [discriminate |].
  destruct (p a) eqn:E; [exact IH |]. intro Heq. injection Heq as <- _. exact E.
Qed.

Lemma dropWhile_app (p : ascii -> bool) (w : string) (c : ascii) (t : string) :
  JS.forallb p w = true -> p c = false ->
  JS.dropWhile p (w ++ String c t) = String c t.
Proof.
  intros Hw Hc. induction w as [| a w IH]; simpl in *.
  - now rewrite Hc.
  - apply Bool.andb_true_iff in Hw. destruct Hw as [Ha Hw]. rewrite Ha. now apply IH.
Qed.

Lemma dropWhile_all (p : ascii -> bool) (s : string) :
  JS.dropWhile p s = "" <-> JS.forallb p s = true.
Proof.
  induction s as [| a s IH]; simpl; [tauto |].
  destruct (p a); simpl; [exact IH | split; discriminate].
Qed.

Lemma trimEnd_empty (s : string) : JS.trimEnd s = "" <-> JS.forallb ws s = true.
Proof.
  unfold ws. induction s as [| a s IH]; simpl; [tauto |].
  destruct (JS.trimEnd s) eqn:E.
  - destruct (JS.isWhiteSpace a) eqn:Ea; simpl.
    + split; [intros _; now apply IH | reflexivity].
    + split; discriminate.
  - split; [discriminate |]. intro Hall.
    apply Bool.andb_true_iff in Hall. destruct Hall as [_ Hall].
    apply IH in Hall. discriminate Hall.
Qed.

Lemma trim_empty (s : string) : JS.trim s = "" <-> JS.forallb ws s = true.
Proof.
  unfold JS.trim, JS.trimStart. rewrite trimEnd_empty. unfold ws.
  induction s as [| a s IH]; simpl; [tauto |].
  destruct (JS.isWhiteSpace a) eqn:Ea; simpl; [exact IH |].
  rewrite Ea. simpl. split; discriminate.
Qed.

(** ** The greedy loop commits when what follows rejects the class. *)

Lemma star_commit (p : ascii -> bool) (k : cont) (cap : option string) :
  (forall b c s, p c = true -> k {| before := b; rest := String c s |} cap = None) ->
  forall s b, exists b',
    star p k cap b s = k {| before := b'; rest := JS.dropWhile p s |} cap.
Proof.
  intros Hk. induction s as [| c s IH]; intro b; simpl.
  - now exists b.
  - destruct (p c) eqn:E; [| now exists b].
    destruct (IH (Some c)) as (b' & ->). exists b'.
    destruct (k {| before := b'; rest := JS.dropWhile p s |} cap); [reflexivity |].
    now apply Hk.
Qed.

(** ** A pattern that begins with [^] matches at index 0 or nowhere. *)

Lemma searchFrom_Bol_later (r : regex) (s : string) :
  forall i c, searchFrom (Seq Bol r) i (Some c) s = None.
Proof.
  induction s as [| a s IH]; intros i c; simpl; unfold matchAt; simpl; auto.
Qed.

Lemma test_Bol (r : regex) (s : string) : test (Seq Bol r) s = accepts r s.
Proof.
  unfold test, exec, accepts, isSome.
  destruct s as [| a s]; simpl; unfold matchAt; simpl.
  - destruct (run r _ None done) as [[cur' cap'] |]; reflexivity.
  - destruct (run r _ None done) as [[cur' cap'] |]; [reflexivity |].
    now rewrite searchFrom_Bol_later.
Qed.

Ltac run_step := cbn [run seq chr plus rest before advance isSome done bulletTail checkboxAt bulletTailb].

Lemma run_checkbox (boxes : string) (b : option ascii) (s : string) :
  isSome (run (seq [chr "["; Cls (anyOf boxes); chr "]"]) {| before := b; rest := s |} None done)
  = checkboxAt boxes s.
Proof.
  destruct s as [| c1 [| c2 [| c3 t]]]; run_step.
  - reflexivity.
  - now destruct (Ascii.eqb "[" c1).
  - destruct (Ascii.eqb "[" c1); [| reflexivity]. now destruct (anyOf boxes c2).
  - destruct (Ascii.eqb "[" c1); [| reflexivity].
    destruct (anyOf boxes c2); [| reflexivity].
    now destruct (Ascii.eqb "]" c3).
Qed.

Ltac commit_star :=
  match goal with
  | |- context [star ?p ?k ?cap ?bb ?ss] =>
      let b' := fresh "b" in
      let E := fresh "E" in
      let Hk := fresh "Hk" in
      assert (Hk : forall b0 c0 s0, p c0 = true ->
                     k {| before := b0; rest := String c0 s0 |} cap = None);
      [ | destruct (@star_commit p k cap Hk ss bb) as (b' & E);
          rewrite E; clear E Hk; cbn beta; cbn [rest before] ]
  end.

Lemma run_bulletTail (boxes : string) (b : option ascii) (s : string) :
  isSome (run (bulletTail boxes) {| before := b; rest := s |} None done)
  = bulletTailb boxes s.
Proof.
  destruct s as [| bl [| w t]]; run_step.
  - reflexivity.
  - now destruct (anyOf "-*" bl).
  - destruct (anyOf "-*" bl); [| reflexivity].
    destruct (ws w) eqn:Ew; [| reflexivity]. cbn [andb].
    commit_star.
    + intros b0 c s Hc. cbn [rest].
      destruct (Ascii.eqb "[" c) eqn:E; [| reflexivity].
      apply bracket_not_space in E. congruence.
    + destruct (JS.dropWhile ws t) as [| c1 [| c2 [| c3 u]]]; run_step;
        repeat match goal with
               | |- context [if ?c then _ else _] => destruct c
               end; reflexivity.
Qed.

Lemma isTodoLine_scan (line : string) :
  EnhancedTodoParser.isTodoLine line = bulletLineb " x" line.
Proof.
  unfold EnhancedTodoParser.isTodoLine.
  change EnhancedTodoParser.todoLineRe with (Seq Bol (Seq (Star ws) (bulletTail " x"))).
  rewrite test_Bol. unfold accepts. cbn [run rest before].
  commit_star.
  - intros b0 c s Hc. cbn [run bulletTail seq rest].
    destruct (anyOf "-*" c) eqn:E; [| reflexivity].
    apply bullet_not_space in E. congruence.
  - rewrite run_bulletTail. unfold bulletLineb, bulletTailb. reflexivity.
Qed.

Lemma consumedAsSubtask_scan (line : string) :
  consumedAsSubtask line = startsWithSpace line && EnhancedTodoParser.isTodoLine line.
Proof.
  rewrite isTodoLine_scan. unfold consumedAsSubtask.
  change AutoPriorityAssigner.subtaskLineRe
    with (Seq Bol (Seq (plus ws) (bulletTail " x"))).
  rewrite test_Bol. unfold accepts, bulletLineb, startsWithSpace.
  cbn [run rest before plus].
  destruct line as [| c s]; [reflexivity |]. cbn [JS.dropWhile].
  change (JS.isWhiteSpace c) with (ws c) || idtac.
  destruct (ws c) eqn:Ec; [| reflexivity]. cbn [andb advance rest before].
  commit_star.
  - intros b0 c0 s0 Hc. cbn [run bulletTail seq rest].
    destruct (anyOf "-*" c0) eqn:E; [| reflexivity].
    apply bullet_not_space in E. congruence.
  - rewrite run_bulletTail. reflexivity.
Qed.

Lemma skippedAsBlank_scan (line : string) :
  skippedAsBlank line = JS.forallb ws line.
Proof.
  unfold skippedAsBlank.
  destruct (JS.forallb ws line) eqn:E.
  - apply trim_empty in E. rewrite E. reflexivity.
  - assert (Ht : String.eqb (JS.trim line) "" = false).
    { apply String.eqb_neq. intro Ht. apply trim_empty in Ht. congruence. }
    rewrite Ht. cbn [orb].
    change AutoPriorityAssigner.blankRe with (Seq Bol (Seq (Star ws) Eol)).
    rewrite test_Bol. unfold accepts. cbn [run rest before].
    commit_star.
    + intros b0 c s Hc. reflexivity.
    + destruct (JS.dropWhile ws line) eqn:Ed; [| reflexivity].
      apply dropWhile_all in Ed. congruence.
Qed.

(* ================================================================== *)
(** * Task lines *)
(* ================================================================== *)

Lemma anyOf_weaken (c : ascii) : anyOf " x" c = true -> anyOf " xX" c = true.
Proof. by_ascii c. Qed.

Lemma anyOf_split (c : ascii) :
  anyOf " xX" c = true -> anyOf " x" c = true \/ anyOf "X" c = true.
Proof. by_ascii c; intros _; auto. Qed.

Lemma bulletLineb_shape (boxes : string) (line : string) :
  bulletLineb boxes line = true <-> taskLineShape boxes line.
Proof.
  unfold bulletLineb, taskLineShape. split.
  - destruct (JS.dropWhile ws line) as [| b [| w s]] eqn:E; try discriminate.
    intro Hb. apply Bool.andb_true_iff in Hb. destruct Hb as [Hb Hc].
    apply Bool.andb_true_iff in Hb. destruct Hb as [Hb Hw].
    unfold checkboxAt in Hc.
    destruct (JS.dropWhile ws s) as [| c1 [| c2 [| c3 rest]]] eqn:E2; try discriminate.
    apply Bool.andb_true_iff in Hc. destruct Hc as [Hc H3].
    apply Bool.andb_true_iff in Hc. destruct Hc as [H1 H2].
    apply Ascii.eqb_eq in H1, H3. subst c1 c3.
    exists (JS.takeWhile ws line), b, (String w (JS.takeWhile ws s)), c2, rest.
    repeat split; auto.
    + rewrite (takeWhile_dropWhile ws line) at 1. rewrite E. f_equal. f_equal.
      simpl. f_equal. rewrite <- E2. apply takeWhile_dropWhile.
    + apply forallb_takeWhile.
    + discriminate.
    + simpl. rewrite Hw. apply forallb_takeWhile.
  - intros (lead & b & gap & c & rest & -> & Hlead & Hb & Hne & Hgap & Hc).
    rewrite (@dropWhile_app ws lead b _ Hlead (bullet_not_space Hb)).
    destruct gap as [| w gap]; [congruence |].
    simpl in Hgap. apply Bool.andb_true_iff in Hgap. destruct Hgap as [Hw Hgap].
    cbn [append]. rewrite Hb, Hw. cbn [andb].
    rewrite (@dropWhile_app ws gap "[" _ Hgap (@bracket_not_space "[" eq_refl)).
    cbn [checkboxAt]. rewrite Hc, !Ascii.eqb_refl. reflexivity.
Qed.

(** What [isTodoLine] accepts, exactly. *)
Lemma isTodoLine_exact (line : string) :
  EnhancedTodoParser.isTodoLine line = true <-> taskLineShape " x" line.
Proof. rewrite isTodoLine_scan. apply bulletLineb_shape. Qed.

(** C3 (as the code has it): apart from the lines whose checkbox holds an
    uppercase [X], a line is recognised as a task line if and only if it is
    optional white space, a [-] or [*] bullet, one or more white-space
    characters, and a bracketed checkbox holding a space or an [x]. *)
Theorem isTodoLine_shape (line : string) :
  ~ taskLineShape "X" line ->
  (EnhancedTodoParser.isTodoLine line = true <-> taskLineShape " xX" line).
Proof.
  intro HnX. rewrite isTodoLine_exact. split.
  - intros (lead & b & gap & c & rest & Hl & Hlead & Hb & Hne & Hgap & Hc).
    exists lead, b, gap, c, rest. repeat split; auto. now apply anyOf_weaken.
  - intros (lead & b & gap & c & rest & Hl & Hlead & Hb & Hne & Hgap & Hc).
    destruct (anyOf_split Hc) as [Hx | HX].
    + exists lead, b, gap, c, rest. repeat split; auto.
    + exfalso. apply HnX. exists lead, b, gap, c, rest. repeat split; auto.
Qed.

Lemma isTodoLine_shape_witness :
  EnhancedTodoParser.isTodoLine "  *   [x] Book flights" = true
  <-> taskLineShape " xX" "  *   [x] Book flights".
Proof.
  apply isTodoLine_shape.
  intro HX. apply bulletLineb_shape in HX. discriminate HX.
Defined.

(** Two lines on which the code and the task line of the specification
    differ: an uppercase [X] in the checkbox, two spaces after the bullet. *)
Lemma isTodoLine_differs_from_spec :
  EnhancedTodoParser.isTodoLine "- [X] title" = false
  /\ spec_isTaskLine "- [X] title" = true
  /\ EnhancedTodoParser.isTodoLine "-  [ ] title" = true
  /\ spec_isTaskLine "-  [ ] title" = false.
Proof. repeat split; vm_compute; reflexivity. Qed.

(* ================================================================== *)
(** * The subtask scan *)
(* ================================================================== *)

Lemma nth_error_skipn {T} (l : list T) (n : nat) :
  match nth_error l n with
  | Some x => skipn n l = x :: skipn (S n) l
  | None => skipn n l = []
  end.
Proof.
  revert n. induction l as [| a l IH]; intros [| n]; simpl; try reflexivity.
  apply IH.
Qed.

Lemma parseSubtasks_loop_scan (lines : list string) :
  forall fuel currentLine subtasks,
    (List.length lines <= fuel + currentLine)%nat ->
    AutoPriorityAssigner.parseSubtasks_loop fuel lines currentLine subtasks
    = (subtasks ++
       List.map JS.trim
         (List.filter consumedAsSubtask
            (takeWhileL (fun l => consumedAsSubtask l || skippedAsBlank l)
                        (skipn currentLine lines))))%list.
Proof.
  induction fuel as [| fuel IH]; intros cur acc Hlen.
  - simpl. rewrite skipn_all2 by lia. simpl. now rewrite app_nil_r.
  - cbn [AutoPriorityAssigner.parseSubtasks_loop].
    pose proof (nth_error_skipn lines cur) as Hn.
    destruct (nth_error lines cur) as [line |] eqn:E.
    + rewrite Hn. cbn [takeWhileL].
      fold (consumedAsSubtask line). fold (skippedAsBlank line).
      assert (Hlen' : (List.length lines <= fuel + S cur)%nat) by lia.
      destruct (consumedAsSubtask line) eqn:Ec; cbn [orb].
      * rewrite (IH _ _ Hlen'). cbn [List.filter]. rewrite Ec. cbn [List.map].
        unfold JS.push. now rewrite <- app_assoc.
      * destruct (skippedAsBlank line) eqn:Eb.
        -- rewrite (IH _ _ Hlen'). cbn [List.filter]. now rewrite Ec.
        -- simpl. now rewrite app_nil_r.
    + rewrite Hn. simpl. now rewrite app_nil_r.
Qed.

(** C4 (as the code has it): from the line after the task line on, a line is
    consumed as a subtask if and only if it begins with a white-space
    character (whatever the indentation of the task line), has the bullet and
    checkbox syntax of a task line, and only subtask lines and blank lines
    stand before it in the scan; blank lines are skipped, the first line that
    is neither ends the scan, and the subtasks come in document order. *)
Theorem parseSubtasks_scan (content : string) (startLine : nat) :
  AutoPriorityAssigner.parseSubtasks content startLine
  = List.map JS.trim
      (List.filter consumedAsSubtask
         (takeWhileL (fun l => consumedAsSubtask l || skippedAsBlank l)
                     (skipn (S startLine) (JS.split "010" content))))
  /\ (forall line, consumedAsSubtask line = true
                   <-> startsWithSpace line = true
                       /\ EnhancedTodoParser.isTodoLine line = true)
  /\ (forall line, skippedAsBlank line = true <-> JS.forallb ws line = true).
Proof.
  split; [| split].
  - unfold AutoPriorityAssigner.parseSubtasks. cbv zeta.
    rewrite parseSubtasks_loop_scan by lia.
    now rewrite Nat.add_1_r.
  - intro line. rewrite consumedAsSubtask_scan. apply Bool.andb_true_iff.
  - intro line. now rewrite skippedAsBlank_scan.
Qed.

(** In [siblings] the second line is consumed as a subtask of the first,
    though it is not indented any further than the first. *)
Lemma parseSubtasks_same_indentation :
  EnhancedTodoParser.isTodoLine (List.nth 0 (JS.split "010" siblings) "") = true
  /\ AutoPriorityAssigner.parseSubtasks siblings 0 = ["- [ ] Send report"]
  /\ ~ (indentOf (List.nth 0 (JS.split "010" siblings) "")
        < indentOf (List.nth 1 (JS.split "010" siblings) ""))%nat.
Proof.
  split; [vm_compute; reflexivity |].
  split; [vm_compute; reflexivity |].
  vm_compute. intro Hlt. apply Nat.nle_succ_diag_l in Hlt. exact Hlt.
Qed.

(* ================================================================== *)
(** * Manual priority tags *)
(* ================================================================== *)

Lemma take_one (c : ascii) (s : string) :
  JS.take (String.length (String c s) - String.length s) (String c s) = String c "".
Proof.
  replace (String.length (String c s) - String.length s)%nat with 1%nat
    by (cbn [String.length]; lia).
  unfold JS.take. cbn [substring]. now destruct s.
Qed.

Lemma run_litI (p : string) :
  forall b s cap k,
    run (litI p) {| before := b; rest := s |} cap k
    = if prefixI p s
      then k {| before := beforeAfter (String.length p) b s;
                rest := JS.drop (String.length p) s |} cap
      else None.
Proof.
  induction p as [| a p IH]; intros b s cap k.
  - cbn [litI run prefixI String.length beforeAfter JS.drop]. now destruct s.
  - destruct p as [| a' p'].
    + cbn [litI chrI run rest prefixI String.length].
      destruct s as [| c s]; [reflexivity |].
      cbn [beforeAfter JS.drop]. rewrite Bool.andb_true_r.
      destruct (Ascii.eqb _ _); [| reflexivity].
      unfold advance. now destruct s.
    + change (litI (String a (String a' p'))) with (Seq (chrI a) (litI (String a' p'))).
      cbn [run chrI rest prefixI].
      destruct s as [| c s]; [reflexivity |].
      destruct (Ascii.eqb _ _); [| reflexivity].
      cbn [andb]. unfold advance. rewrite IH. reflexivity.
Qed.

Lemma tierOfLetter_class (c : ascii) :
  tierOfLetter c = None <-> anyOfI "ABCD" c = false.
Proof.
  destruct c as [[] [] [] [] [] [] [] []]; vm_compute;
    (split; intro H0; first [reflexivity | discriminate H0]).
Qed.

Lemma hash_upper (c : ascii) :
  Ascii.eqb (JS.toUpperChar c) (JS.toUpperChar "#") = Ascii.eqb c "#".
Proof. by_ascii c. Qed.

Lemma matchAt_priorityTag (i : nat) (b : option ascii) (s : string) :
  match matchAt EnhancedTodoParser.priorityTagRe i {| before := b; rest := s |} with
  | Some m =>
      index m = i /\ EnhancedTodoParser.priorityOfMatch m <> None
      /\ EnhancedTodoParser.priorityOfMatch m = priorityTagAt s
  | None => priorityTagAt s = None
  end.
Proof.
  unfold matchAt, EnhancedTodoParser.priorityTagRe, priorityTagAt.
  cbn [run rest]. rewrite run_litI.
  destruct (prefixI "#priority/" s); [| reflexivity].
  cbn [run rest].
  destruct (JS.drop (String.length "#priority/") s) as [| c t] eqn:E;
    [cbn in E |- *; now rewrite E |].
  change (JS.drop 10 s) with (JS.drop (String.length "#priority/") s). rewrite E.
  destruct (anyOfI "ABCD" c) eqn:Ec.
  - unfold done, advance. cbn [rest index group1]. rewrite take_one.
    unfold EnhancedTodoParser.priorityOfMatch. cbn [group1 JS.toUpperCase JS.map].
    fold (tierOfLetter c). repeat split; auto.
    rewrite tierOfLetter_class. congruence.
  - now apply tierOfLetter_class.
Qed.

Lemma matchAt_simpleTag (i : nat) (b : option ascii) (s : string) :
  match matchAt EnhancedTodoParser.simplePriorityRe i {| before := b; rest := s |} with
  | Some m =>
      index m = i /\ EnhancedTodoParser.priorityOfMatch m <> None
      /\ EnhancedTodoParser.priorityOfMatch m = simpleTagAt s
  | None => simpleTagAt s = None
  end.
Proof.
  unfold matchAt, EnhancedTodoParser.simplePriorityRe, simpleTagAt.
  cbn [run seq chrI rest].
  destruct s as [| h [| c t]]; [reflexivity | |].
  - rewrite hash_upper. now destruct (Ascii.eqb h "#").
  - rewrite hash_upper. destruct (Ascii.eqb h "#"); [| reflexivity].
    cbn [advance rest andb].
    destruct (anyOfI "ABCD" c) eqn:Ec.
    + rewrite take_one. cbn [run rest next isWordAt].
      assert (Hw : match t with
                   | "" => None
                   | String c0 s' =>
                       if JS.isWordChar c0 then done (advance c0 s') (Some (String c "")) else None
                   end = None <-> isWordAt (next t) = false).
      { destruct t as [| c0 t']; cbn [next isWordAt]; [tauto |].
        destruct (JS.isWordChar c0); unfold done; split; congruence. }
      destruct (match t with "" => None | String c0 s' => _ end) eqn:Ea.
      * destruct (isWordAt (next t)) eqn:En; [cbn [negb]; reflexivity |].
        destruct Hw as [_ Hw]. discriminate (Hw eq_refl).
      * destruct Hw as [Hw _]. rewrite (Hw eq_refl). cbn [negb].
        unfold done. cbn [index group1].
        unfold EnhancedTodoParser.priorityOfMatch. cbn [group1 JS.toUpperCase JS.map].
        fold (tierOfLetter c). repeat split; auto.
        rewrite tierOfLetter_class. congruence.
    + destruct (negb _); [now apply tierOfLetter_class | reflexivity].
Qed.

Lemma searchFrom_firstAt {T} (r : regex) (g : found -> option T) (f : string -> option T) :
  (forall i b s,
     match matchAt r i {| before := b; rest := s |} with
     | Some m => index m = i /\ g m <> None /\ g m = f s
     | None => f s = None
     end) ->
  forall s i b,
    match searchFrom r i b s with
    | Some m => match g m with Some x => Some (index m, x) | None => None end
    | None => None
    end = firstAt f i s.
Proof.
  intro Hm. induction s as [| c s IH]; intros i b; cbn [searchFrom firstAt];
    specialize (Hm i b).
  - specialize (Hm ""). destruct (matchAt r i _) as [m |].
    + destruct Hm as (-> & Hg & <-). now destruct (g m).
    + now rewrite Hm.
  - specialize (Hm (String c s)). destruct (matchAt r i _) as [m |].
    + destruct Hm as (-> & Hg & <-). now destruct (g m).
    + rewrite Hm. apply IH.
Qed.

(** [extractManualPriority] in terms of where the two tag forms stand. *)
Lemma extractManualPriority_scan (line : string) :
  EnhancedTodoParser.extractManualPriority line
  = match firstAt priorityTagAt 0 line with
    | Some (_, p) => Some p
    | None => option_map snd (firstAt simpleTagAt 0 line)
    end.
Proof.
  unfold EnhancedTodoParser.extractManualPriority, exec.
  rewrite <- (searchFrom_firstAt (g := EnhancedTodoParser.priorityOfMatch)
                matchAt_priorityTag line 0 None).
  rewrite <- (searchFrom_firstAt (g := EnhancedTodoParser.priorityOfMatch)
                matchAt_simpleTag line 0 None).
  assert (Hsome : forall r,
            (forall i b s,
               match matchAt r i {| before := b; rest := s |} with
               | Some m => index m = i /\ EnhancedTodoParser.priorityOfMatch m <> None
                           /\ True
               | None => True
               end) ->
            forall s i b m, searchFrom r i b s = Some m ->
                            EnhancedTodoParser.priorityOfMatch m <> None).
  { intros r Hr s. induction s as [| c s IH]; intros i b m; cbn [searchFrom];
      specialize (Hr i b).
    - specialize (Hr ""). destruct (matchAt r i _) as [m' |]; [| discriminate].
      intro E. injection E as <-. apply Hr.
    - specialize (Hr (String c s)). destruct (matchAt r i _) as [m' |].
      + intro E. injection E as <-. apply Hr.
      + apply IH. }
  destruct (searchFrom EnhancedTodoParser.priorityTagRe 0 None line) as [m |] eqn:E1.
  - assert (Hg : EnhancedTodoParser.priorityOfMatch m <> None).
    { refine (Hsome _ _ _ _ _ _ E1). intros i b s.
      pose proof (matchAt_priorityTag i b s) as Hp.
      destruct (matchAt _ i _); [| exact I]. tauto. }
    destruct (EnhancedTodoParser.priorityOfMatch m); [reflexivity | congruence].
  - destruct (searchFrom EnhancedTodoParser.simplePriorityRe 0 None line) as [m |] eqn:E2;
      [| reflexivity].
    assert (Hg : EnhancedTodoParser.priorityOfMatch m <> None).
    { refine (Hsome _ _ _ _ _ _ E2). intros i b s.
      pose proof (matchAt_simpleTag i b s) as Hp.
      destruct (matchAt _ i _); [| exact I]. tauto. }
    destruct (EnhancedTodoParser.priorityOfMatch m); [reflexivity | congruence].
Qed.

(* ================================================================== *)
(** * The parser, effect by effect *)
(* ================================================================== *)

Section ParserFacts.
Context {H : Host}.

Ltac mstep :=
  cbv beta iota zeta delta [bind ret throw Date_now DateTime_now DateTime_fromISO
                       EnhancedTodoItem.new EnhancedTodoItem.assignToDate
                       EnhancedTodoParser.generateTodoId].

Lemma extractDueDate_returns (self : EnhancedTodoParser.t) (content : string) (n : nat) :
  dynamicMatch (dateTagPattern self) content <> PatternSyntaxError ->
  EnhancedTodoParser.extractDueDate self content n = Returned (dueDateOf self content n).
Proof.
  intro Hc.
  unfold EnhancedTodoParser.extractDueDate, dueDateOf, readISO.
  fold (dateTagPattern self).
  destruct (dynamicMatch (dateTagPattern self) content) as [| | dateStr];
    [congruence | |]; mstep; cbn [fst snd].
  - destruct (exec EnhancedTodoParser.standaloneDateRe content) as [m |]; reflexivity.
  - destruct (fst (fromISO dateStr n)); [reflexivity |].
    destruct (exec EnhancedTodoParser.standaloneDateRe content) as [m |]; reflexivity.
Qed.

Lemma extractDueDate_syntax_error (self : EnhancedTodoParser.t) (content : string) (n : nat) :
  dynamicMatch (dateTagPattern self) content = PatternSyntaxError ->
  EnhancedTodoParser.extractDueDate self content n
  = Threw (SyntaxError "Invalid regular expression").
Proof.
  intro E. unfold EnhancedTodoParser.extractDueDate. fold (dateTagPattern self).
  now rewrite E.
Qed.

Lemma parseEnhancedTodoLine_returns (self : EnhancedTodoParser.t)
    (line filePath : string) (i : nat) (content : string) (n : nat) :
  dynamicMatch (dateTagPattern self) line <> PatternSyntaxError ->
  EnhancedTodoParser.isTodoLine line = true ->
  EnhancedTodoParser.isDailyNote filePath = false
  \/ fst (dueDateOf self line (S (S n))) <> None ->
  EnhancedTodoParser.parseEnhancedTodoLine self line filePath i content n
  = Returned (Some (recordOfLine self filePath content i line n),
              readingsAfter self line n).
Proof.
  intros Hc Htodo Hdaily.
  unfold EnhancedTodoParser.parseEnhancedTodoLine. rewrite Htodo. cbn [negb].
  mstep.
  rewrite extractDueDate_returns by exact Hc.
  unfold recordOfLine, readingsAfter. cbv zeta.
  destruct (dueDateOf self line (S (S n))) as [[d |] n']; cbn [fst snd] in *.
  - rewrite Bool.andb_false_r. reflexivity.
  - destruct Hdaily as [-> | Hd]; [reflexivity | congruence].
Qed.

(** In a daily note a task line without a due date makes the parser throw:
    [assignToDate] receives the file name, a string. *)
Lemma parseEnhancedTodoLine_daily_note (self : EnhancedTodoParser.t)
    (line filePath : string) (i : nat) (content : string) (n : nat) :
  dynamicMatch (dateTagPattern self) line <> PatternSyntaxError ->
  EnhancedTodoParser.isTodoLine line = true ->
  EnhancedTodoParser.isDailyNote filePath = true ->
  fst (dueDateOf self line (S (S n))) = None ->
  EnhancedTodoParser.parseEnhancedTodoLine self line filePath i content n
  = Threw (TypeError "date.startOf is not a function").
Proof.
  intros Hc Htodo Hdaily Hdue.
  unfold EnhancedTodoParser.parseEnhancedTodoLine. rewrite Htodo, Hdaily. cbn [negb andb].
  mstep.
  rewrite extractDueDate_returns by exact Hc.
  destruct (dueDateOf self line (S (S n))) as [due n']. cbn [fst] in Hdue. rewrite Hdue.
  unfold EnhancedTodoParser.isDailyNote in Hdaily.
  unfold EnhancedTodoParser.extractDateFromDailyNote.
  destruct (test EnhancedTodoParser.isoDayRe _); [reflexivity |].
  destruct (test EnhancedTodoParser.usDayRe _); [reflexivity |].
  destruct (test EnhancedTodoParser.compactDayRe _); [reflexivity | discriminate Hdaily].
Qed.

Lemma parseLines_returns (self : EnhancedTodoParser.t) (file : TFile) (content : string) :
  compilesDateTag self ->
  EnhancedTodoParser.isDailyNote (path file) = false ->
  forall lines i todos n,
  exists n',
    EnhancedTodoParser.parseLines self file content lines i todos n
    = Returned ((todos ++ recordsFrom self (path file) content lines i n)%list, n').
Proof.
  intros Hc Hdaily. induction lines as [| line lines IH]; intros i todos n.
  - exists n. cbn. now rewrite app_nil_r.
  - cbn [EnhancedTodoParser.parseLines recordsFrom].
    destruct (EnhancedTodoParser.isTodoLine line) eqn:Htodo; [| apply IH].
    unfold bind. rewrite parseEnhancedTodoLine_returns by auto.
    destruct (IH (S i) (JS.push todos (recordOfLine self (path file) content i line n))
                 (readingsAfter self line n)) as (n' & ->).
    exists n'. unfold JS.push. now rewrite <- app_assoc.
Qed.

Lemma parseEnhancedTodosInFile_returns (self : EnhancedTodoParser.t) (file : TFile)
    (content : string) (n : nat) :
  compilesDateTag self ->
  EnhancedTodoParser.isDailyNote (path file) = false ->
  exists n',
    EnhancedTodoParser.parseEnhancedTodosInFile self file content n
    = Returned (recordsFrom self (path file) content (JS.split "010" content) 0 n, n').
Proof.
  intros Hc Hdaily. unfold EnhancedTodoParser.parseEnhancedTodosInFile.
  destruct (parseLines_returns content Hc Hdaily (JS.split "010" content) 0 [] n) as (n' & E).
  exists n'. exact E.
Qed.

Lemma recordsFrom_lineNumbers (self : EnhancedTodoParser.t) (filePath content : string)
    (lines : list string) :
  forall i n,
    List.map EnhancedTodoItem.lineNumber (recordsFrom self filePath content lines i n)
    = todoLineNumbers lines i.
Proof.
  induction lines as [| line lines IH]; intros i n; cbn [recordsFrom todoLineNumbers];
    [reflexivity |].
  destruct (EnhancedTodoParser.isTodoLine line); [| apply IH].
  cbn [List.map]. rewrite IH. f_equal.
  unfold recordOfLine. cbv zeta. now destruct (fst (dueDateOf self line (S (S n)))).
Qed.

Lemma recordOfLine_clockFree (self : EnhancedTodoParser.t) (filePath content : string)
    (i : nat) (line : string) (n m : nat) :
  EnhancedTodoItem.clockFree (recordOfLine self filePath content i line n)
  = EnhancedTodoItem.clockFree (recordOfLine self filePath content i line m).
Proof.
  unfold recordOfLine. cbv zeta.
  destruct (fst (dueDateOf self line (S (S n)))), (fst (dueDateOf self line (S (S m))));
    unfold EnhancedTodoItem.clockFree; cbn;
    rewrite !List.map_map; reflexivity.
Qed.

Lemma recordsFrom_clockFree (self : EnhancedTodoParser.t) (filePath content : string)
    (lines : list string) :
  forall i n m,
    List.map EnhancedTodoItem.clockFree (recordsFrom self filePath content lines i n)
    = List.map EnhancedTodoItem.clockFree (recordsFrom self filePath content lines i m).
Proof.
  induction lines as [| line lines IH]; intros i n m; cbn [recordsFrom]; [reflexivity |].
  destruct (EnhancedTodoParser.isTodoLine line); [| apply IH].
  cbn [List.map]. f_equal; [apply recordOfLine_clockFree | apply IH].
Qed.


(** Every way [parseEnhancedTodoLine] can end. *)
Lemma parseEnhancedTodoLine_outcome (self : EnhancedTodoParser.t)
    (line filePath : string) (i : nat) (content : string) (n : nat) :
  match EnhancedTodoParser.parseEnhancedTodoLine self line filePath i content n with
  | Returned (Some todo, n') =>
      EnhancedTodoParser.isTodoLine line = true
      /\ todo = recordOfLine self filePath content i line n
  | Returned (None, n') => EnhancedTodoParser.isTodoLine line = false
  | Threw e =>
      EnhancedTodoParser.isTodoLine line = true
      /\ (dynamicMatch (dateTagPattern self) line = PatternSyntaxError
          \/ (EnhancedTodoParser.isDailyNote filePath = true
              /\ fst (dueDateOf self line (S (S n))) = None))
  end.
Proof.
  destruct (EnhancedTodoParser.isTodoLine line) eqn:Htodo.
  - destruct (dynamicMatch (dateTagPattern self) line) eqn:Edyn.
    + unfold EnhancedTodoParser.parseEnhancedTodoLine. rewrite Htodo. cbn [negb]. mstep.
      rewrite extractDueDate_syntax_error by exact Edyn. auto.
    + destruct (EnhancedTodoParser.isDailyNote filePath) eqn:Hdaily;
        [destruct (fst (dueDateOf self line (S (S n)))) as [d |] eqn:Hdue |].
      * rewrite parseEnhancedTodoLine_returns; auto; try congruence.
        right. congruence.
      * rewrite parseEnhancedTodoLine_daily_note; auto. congruence.
      * rewrite parseEnhancedTodoLine_returns; auto. congruence.
    + destruct (EnhancedTodoParser.isDailyNote filePath) eqn:Hdaily;
        [destruct (fst (dueDateOf self line (S (S n)))) as [d |] eqn:Hdue |].
      * rewrite parseEnhancedTodoLine_returns; auto; try congruence.
        right. congruence.
      * rewrite parseEnhancedTodoLine_daily_note; auto. congruence.
      * rewrite parseEnhancedTodoLine_returns; auto. congruence.
  - unfold EnhancedTodoParser.parseEnhancedTodoLine. rewrite Htodo. reflexivity.
Qed.

Lemma recordOfLine_priority (self : EnhancedTodoParser.t) (filePath content : string)
    (i : nat) (line : string) (n : nat) :
  let todo := recordOfLine self filePath content i line n in
  match EnhancedTodoParser.extractManualPriority line with
  | Some p =>
      EnhancedTodoItem.priority todo = p /\ EnhancedTodoItem.isAutoPriority todo = false
  | None =>
      EnhancedTodoItem.priority todo
      = AutoPriorityAssigner.assignPriorityBySubtaskCount (EnhancedTodoItem.subtaskCount todo)
      /\ EnhancedTodoItem.isAutoPriority todo = true
  end.
Proof.
  unfold recordOfLine. cbv zeta.
  destruct (fst (dueDateOf self line (S (S n)))),
           (EnhancedTodoParser.extractManualPriority line); cbn;
    rewrite ?length_map; auto.
Qed.

End ParserFacts.

(* ================================================================== *)
(** * Manual priority override *)
(* ================================================================== *)

(** [firstAt] finds the leftmost suffix. *)
Lemma firstAt_leftmost {T} (f : string -> option T) (s : string) :
  forall i j x,
    firstAt f i s = Some (j, x) ->
    (i <= j)%nat /\ f (JS.drop (j - i) s) = Some x
    /\ forall k, (k < j - i)%nat -> f (JS.drop k s) = None.
Proof.
  induction s as [| c s IH]; intros i j x; cbn [firstAt].
  - destruct (f "") eqn:E; [| discriminate].
    intro Ej. injection Ej as <- <-. rewrite Nat.sub_diag. cbn [JS.drop].
    repeat split; auto. intros k Hk. lia.
  - destruct (f (String c s)) eqn:E.
    + intro Ej. injection Ej as <- <-. rewrite Nat.sub_diag. cbn [JS.drop].
      repeat split; auto. intros k Hk. lia.
    + intro Ej. apply IH in Ej. destruct Ej as (Hij & Hx & Hbefore).
      replace (j - i)%nat with (S (j - S i)) by lia. cbn [JS.drop].
      repeat split; [lia | exact Hx |].
      intros [| k] Hk; cbn [JS.drop]; [exact E | apply Hbefore; lia].
Qed.

Section ManualPriority.
Context {H : Host}.

(** C5 (as the code has it): a [#priority/<A|B|C|D>] tag overrides the tier,
    the leftmost one if there are several, wherever a bare [#<A|B|C|D>] tag
    stands; the bare form (leftmost, not followed by a word character) counts
    only when the line has no [#priority/] tag; whenever either form is
    present the record has [isAutoPriority] false and the tier of the tag,
    not the tier of its subtask count. *)
Theorem extractManualPriority_precedence (line : string) :
  (forall i p, firstAt priorityTagAt 0 line = Some (i, p) ->
     EnhancedTodoParser.extractManualPriority line = Some p)
  /\ (forall i p, firstAt priorityTagAt 0 line = None ->
        firstAt simpleTagAt 0 line = Some (i, p) ->
        EnhancedTodoParser.extractManualPriority line = Some p)
  /\ (firstAt priorityTagAt 0 line = None -> firstAt simpleTagAt 0 line = None ->
        EnhancedTodoParser.extractManualPriority line = None)
  /\ (forall self filePath i content n todo n' p,
        EnhancedTodoParser.parseEnhancedTodoLine self line filePath i content n
        = Returned (Some todo, n') ->
        EnhancedTodoParser.extractManualPriority line = Some p ->
        EnhancedTodoItem.priority todo = p /\ EnhancedTodoItem.isAutoPriority todo = false).
Proof.
  split; [| split; [| split]].
  - intros i p E. rewrite extractManualPriority_scan, E. reflexivity.
  - intros i p E1 E2. rewrite extractManualPriority_scan, E1, E2. reflexivity.
  - intros E1 E2. rewrite extractManualPriority_scan, E1, E2. reflexivity.
  - intros self filePath i content n todo n' p Hrun Hp.
    pose proof (parseEnhancedTodoLine_outcome self line filePath i content n) as Ho.
    rewrite Hrun in Ho. destruct Ho as [_ ->].
    pose proof (recordOfLine_priority self filePath content i line n) as Hr.
    cbv zeta in Hr. rewrite Hp in Hr. exact Hr.
Qed.

End ManualPriority.

Lemma extractManualPriority_precedence_witness :
  firstAt priorityTagAt 0 twoTags = Some (18%nat, TaskPriority.A)
  /\ EnhancedTodoParser.extractManualPriority twoTags = Some TaskPriority.A.
Proof.
  assert (Hf : firstAt priorityTagAt 0 twoTags = Some (18%nat, TaskPriority.A))
    by (vm_compute; reflexivity).
  split; [exact Hf |].
  exact (proj1 (@extractManualPriority_precedence exampleHost twoTags) _ _ Hf).
Defined.

(** In [twoTags] the bare tag [#B] stands before [#priority/A]; the leftmost
    tag names tier B, the override is tier A. *)
Lemma extractManualPriority_not_leftmost :
  EnhancedTodoParser.extractManualPriority twoTags = Some TaskPriority.A
  /\ spec_manualPriority twoTags = Some TaskPriority.B
  /\ option_map (fun m => (index m, text m)) (exec EnhancedTodoParser.simplePriorityRe twoTags)
     = Some (15%nat, "#B")
  /\ option_map (fun m => (index m, text m)) (exec EnhancedTodoParser.priorityTagRe twoTags)
     = Some (18%nat, "#priority/A").
Proof. repeat split; vm_compute; reflexivity. Qed.

(* ================================================================== *)
(** * Parsing a document *)
(* ================================================================== *)

Section ParseDocument.
Context {H : Host}.

Lemma recordsFrom_length (self : EnhancedTodoParser.t) (filePath content : string)
    (lines : list string) (i n : nat) :
  List.length (recordsFrom self filePath content lines i n)
  = List.length (todoLineNumbers lines i).
Proof.
  rewrite <- (recordsFrom_lineNumbers self filePath content lines i n).
  now rewrite length_map.
Qed.

(** C9 (as the code has it): with settings whose date tag pattern compiles
    and a file that is not a daily note, parsing returns, whenever it is
    invoked, one record for each task line and none for another line; two
    invocations on the same text give lists that agree on every field but
    what is read from the clock: the id, which the subtasks repeat, the
    creation date, the assigned date and the first assigned date (luxon
    reads the clock in [DateTime.fromISO] and completes a time-only text
    with the current day), and whether the assigned date is today. *)
Theorem parseEnhancedTodosInFile_deterministic_up_to_clock
    (self : EnhancedTodoParser.t) (file : TFile) (content : string) (n m : nat) :
  compilesDateTag self ->
  EnhancedTodoParser.isDailyNote (path file) = false ->
  exists todos1 n' todos2 m',
    EnhancedTodoParser.parseEnhancedTodosInFile self file content n = Returned (todos1, n')
    /\ EnhancedTodoParser.parseEnhancedTodosInFile self file content m = Returned (todos2, m')
    /\ List.map EnhancedTodoItem.clockFree todos1 = List.map EnhancedTodoItem.clockFree todos2
    /\ List.map EnhancedTodoItem.lineNumber todos1
       = todoLineNumbers (JS.split "010" content) 0
    /\ List.map EnhancedTodoItem.lineNumber todos2
       = todoLineNumbers (JS.split "010" content) 0.
Proof.
  intros Hc Hdaily.
  destruct (parseEnhancedTodosInFile_returns content n Hc Hdaily) as (n' & E1).
  destruct (parseEnhancedTodosInFile_returns content m Hc Hdaily) as (m' & E2).
  eexists _, n', _, m'. split; [exact E1 |]. split; [exact E2 |].
  split; [apply recordsFrom_clockFree |].
  split; apply recordsFrom_lineNumbers.
Qed.

(** C2 (as the code has it): the vacation document yields five records, one
    for each of its lines; the first, for "Plan vacation", has 4 subtasks,
    the automatic tier B, 30 minutes allocated (and stored as its estimate),
    subtask complexities 1, 1, 1 and 3, an estimated time of 60 in the
    analysis, and a TIME_MISMATCH issue with the recommended action
    [required]. *)
Theorem parse_vacation (file : TFile) (n : nat) :
  compilesDateTag EnhancedTodoParser.default ->
  EnhancedTodoParser.isDailyNote (path file) = false ->
  exists todo others n',
    EnhancedTodoParser.parseEnhancedTodosInFile EnhancedTodoParser.default file vacation n
    = Returned (todo :: others, n')
    /\ List.length others = 4%nat
    /\ EnhancedTodoItem.title todo = "Plan vacation"
    /\ EnhancedTodoItem.subtaskCount todo = 4
    /\ EnhancedTodoItem.isAutoPriority todo = true
    /\ EnhancedTodoItem.priority todo = TaskPriority.B
    /\ EnhancedTodoItem.allocatedTime todo = 30
    /\ EnhancedTodoItem.estimatedTime todo = 30
    /\ List.map SubTask.complexity (EnhancedTodoItem.subtasks todo) = [1; 1; 1; 3]
    /\ TaskSuitabilityAnalyzer.estimateTaskTime todo = 60
    /\ issues (TaskSuitabilityAnalyzer.analyzeTaskSuitability todo)
       = [TaskSuitabilityAnalyzer.timeMismatchIssue]
    /\ recommendedAction (TaskSuitabilityAnalyzer.analyzeTaskSuitability todo) = required.
Proof.
  intros Hc Hdaily.
  destruct (parseEnhancedTodosInFile_returns vacation n Hc Hdaily) as (n' & E).
  assert (Hlen : List.length (recordsFrom EnhancedTodoParser.default (path file) vacation
                                (JS.split "010" vacation) 0 n) = 5%nat).
  { rewrite recordsFrom_length. vm_compute. reflexivity. }
  assert (Hsplit : JS.split "010" vacation
                   = "- [ ] Plan vacation" :: List.tl (JS.split "010" vacation))
    by (vm_compute; reflexivity).
  rewrite Hsplit in E, Hlen. cbn [recordsFrom] in E, Hlen.
  assert (Htodo : EnhancedTodoParser.isTodoLine "- [ ] Plan vacation" = true)
    by (vm_compute; reflexivity).
  rewrite Htodo in E, Hlen.
  eexists _, _, n'. split; [exact E |].
  split; [cbn [List.length] in Hlen; congruence |].
  unfold recordOfLine. cbv zeta.
  destruct (fst (dueDateOf EnhancedTodoParser.default "- [ ] Plan vacation" (S (S n))));
    repeat split; vm_compute; reflexivity.
Qed.

End ParseDocument.

Lemma parseEnhancedTodosInFile_deterministic_up_to_clock_witness :
  exists todos1 n' todos2 m',
    @EnhancedTodoParser.parseEnhancedTodosInFile exampleHost EnhancedTodoParser.default
      {| path := "notes/trip.md" |} vacation 0%nat = Returned (todos1, n')
    /\ @EnhancedTodoParser.parseEnhancedTodosInFile exampleHost EnhancedTodoParser.default
         {| path := "notes/trip.md" |} vacation 10%nat = Returned (todos2, m')
    /\ List.map EnhancedTodoItem.clockFree todos1 = List.map EnhancedTodoItem.clockFree todos2
    /\ List.map EnhancedTodoItem.lineNumber todos1 = [0; 1; 2; 3; 4]
    /\ List.map EnhancedTodoItem.lineNumber todos2 = [0; 1; 2; 3; 4].
Proof.
  apply (@parseEnhancedTodosInFile_deterministic_up_to_clock exampleHost
           EnhancedTodoParser.default {| path := "notes/trip.md" |} vacation 0%nat 10%nat).
  - intro content. unfold dateTagPattern. cbn.
    destruct (exec defaultDateTagRe content); discriminate.
  - vm_compute. reflexivity.
Defined.

Lemma parse_vacation_witness :
  exists todo others n',
    @EnhancedTodoParser.parseEnhancedTodosInFile exampleHost EnhancedTodoParser.default
      {| path := "notes/trip.md" |} vacation 0%nat = Returned (todo :: others, n')
    /\ List.length others = 4%nat
    /\ EnhancedTodoItem.title todo = "Plan vacation"
    /\ EnhancedTodoItem.subtaskCount todo = 4
    /\ EnhancedTodoItem.isAutoPriority todo = true
    /\ EnhancedTodoItem.priority todo = TaskPriority.B
    /\ EnhancedTodoItem.allocatedTime todo = 30
    /\ EnhancedTodoItem.estimatedTime todo = 30
    /\ List.map SubTask.complexity (EnhancedTodoItem.subtasks todo) = [1; 1; 1; 3]
    /\ TaskSuitabilityAnalyzer.estimateTaskTime todo = 60
    /\ issues (TaskSuitabilityAnalyzer.analyzeTaskSuitability todo)
       = [TaskSuitabilityAnalyzer.timeMismatchIssue]
    /\ recommendedAction (TaskSuitabilityAnalyzer.analyzeTaskSuitability todo) = required.
Proof.
  apply (@parse_vacation exampleHost {| path := "notes/trip.md" |} 0%nat).
  - intro content. unfold dateTagPattern. cbn.
    destruct (exec defaultDateTagRe content); discriminate.
  - vm_compute. reflexivity.
Defined.

(** The vacation document does not give one record with complexities
    2, 2, 2, 3 and an estimate of 90: it gives five records, and the first
    has complexities 1, 1, 1, 3 and an estimate of 60. *)
Lemma parse_vacation_not_one_record :
  option_map (fun r => List.length (fst r)) (result (parseTrip 0)) = Some 5%nat
  /\ option_map
       (fun r => List.map (fun t => List.map SubTask.complexity (EnhancedTodoItem.subtasks t))
                          (firstn 1 (fst r)))
       (result (parseTrip 0)) = Some [[1; 1; 1; 3]]
  /\ option_map
       (fun r => List.map (@TaskSuitabilityAnalyzer.estimateTaskTime exampleHost)
                          (firstn 1 (fst r)))
       (result (parseTrip 0)) = Some [60].
Proof. repeat split; vm_compute; reflexivity. Qed.

(** Two invocations, one after the other, on the same text and settings give
    different lists: the ids carry the clock. *)
Lemma parse_twice_differs :
  option_map snd (result (parseTrip 0)) = Some 10%nat
  /\ option_map snd (result (parseTrip 10)) = Some 20%nat
  /\ option_map fst (result (parseTrip 0)) <> option_map fst (result (parseTrip 10)).
Proof.
  split; [vm_compute; reflexivity |].
  split; [vm_compute; reflexivity |].
  intro E.
  apply (f_equal (option_map (List.map (@EnhancedTodoItem.id exampleHost)))) in E.
  vm_compute in E. discriminate E.
Qed.

(** In a daily note the same document makes the parser throw. *)
Lemma parse_daily_note_throws :
  thrown (@EnhancedTodoParser.parseEnhancedTodosInFile exampleHost EnhancedTodoParser.default
            {| path := "journal/2024-01-15.md" |} vacation 0%nat)
  = Some (TypeError "date.startOf is not a function").
Proof. vm_compute. reflexivity. Qed.

(** Running the clock-reading methods of a record. *)
Ltac run_methods :=
  cbv beta iota zeta delta
    [bind ret throw Date_now DateTime_now EnhancedTodoItem.new EnhancedTodoItem.assignToDate
     TodoItemMethods.markCompleted TodoItemMethods.addRescheduleEvent
     TodoItemMethods.assignToToday MethodCalls.perform].

Section RecordInvariants.
Context {H : Host}.

Lemma consistent_make createdDate id title description priority sourceFilePath
    lineNumber startIndex length status subtasks isAutoPriority :
  consistent (EnhancedTodoItem.make createdDate id title description priority sourceFilePath
                lineNumber startIndex length status subtasks isAutoPriority).
Proof.
  unfold consistent; cbn.
  repeat split; try reflexivity.
  - destruct priority; reflexivity.
  - right; reflexivity.
Qed.

Lemma consistent_updatePriority p m x :
  consistent x -> consistent (EnhancedTodoItem.updatePriority p m x).
Proof.
  unfold consistent; cbn. intros (H1 & H2 & H3 & H4 & H5 & H6 & H7).
  repeat split; try assumption.
  - destruct p; reflexivity.
  - right; reflexivity.
Qed.

Lemma splice1_length i (l : list SubTask.t) :
  (i < List.length l)%nat -> List.length (EnhancedTodoItem.splice1 i l) = pred (List.length l).
Proof.
  revert i; induction l as [|a l IH]; intros [|i] Hi; cbn in *; try lia.
  rewrite IH by lia. destruct l; cbn in *; lia.
Qed.

Lemma consistent_setSubtasks l x :
  consistent x -> consistent (EnhancedTodoItem.setSubtasks l (Z.of_nat (List.length l)) x).
Proof.
  unfold consistent; cbn. intros (H1 & H2 & H3 & H4 & H5 & H6 & H7).
  repeat split; assumption.
Qed.

Lemma consistent_setEstimatedTime v x :
  consistent x -> consistent (EnhancedTodoItem.setEstimatedTime v x).
Proof.
  unfold consistent; cbn. intros (H1 & H2 & H3 & H4 & H5 & H6 & H7).
  repeat split; assumption.
Qed.

Lemma consistent_updateTaskPriority x f :
  consistent x -> consistent (fst (PriorityUpdates.updateTaskPriority x f)).
Proof.
  intros Hx. unfold PriorityUpdates.updateTaskPriority.
  destruct (negb (EnhancedTodoItem.isAutoPriority x) && negb f); [exact Hx|].
  destruct (negb _); [|exact Hx]. cbn [fst]. now apply consistent_updatePriority.
Qed.

Lemma consistent_autoFix x :
  consistent x -> consistent (fst (TaskSuitabilityAnalyzer.autoFixSimpleIssues x)).
Proof.
  intros Hx. unfold TaskSuitabilityAnalyzer.autoFixSimpleIssues.
  destruct (negb _ && _);
    match goal with |- context [if ?b then _ else _] => destruct b end; cbn [fst];
    repeat first [apply consistent_setEstimatedTime | apply consistent_updatePriority]; exact Hx.
Qed.

Lemma perform_consistent c x n :
  consistent x ->
  exists x' n', MethodCalls.perform c x n = Returned (x', n') /\ consistent x'.
Proof.
  intros Hx. destruct c; run_methods.
  - eexists _, _; split; [reflexivity|]. now apply consistent_updatePriority.
  - eexists _, _; split; [reflexivity|].
    destruct Hx as (H1 & H2 & H3 & H4 & H5 & H6 & H7).
    unfold consistent; cbn. repeat split; try assumption.
    unfold JS.push. rewrite length_app; cbn. rewrite H4. lia.
  - eexists _, _; split; [reflexivity|].
    destruct Hx as (H1 & H2 & H3 & H4 & H5 & H6 & H7).
    unfold consistent; cbn. repeat split; try assumption.
    + left; reflexivity.
    + discriminate.
  - eexists _, _; split; [reflexivity|].
    destruct Hx as (H1 & H2 & H3 & H4 & H5 & H6 & H7).
    unfold consistent; cbn. repeat split; try assumption.
    right; reflexivity.
  - eexists _, _; split; [reflexivity|].
    unfold EnhancedTodoItem.addSubtask; cbn [fst]. now apply consistent_setSubtasks.
  - eexists _, _; split; [reflexivity|].
    unfold EnhancedTodoItem.removeSubtask.
    destruct (EnhancedTodoItem.findIndex _ _); cbn [fst]; [|exact Hx].
    now apply consistent_setSubtasks.
  - eexists _, _; split; [reflexivity|].
    destruct Hx as (H1 & H2 & H3 & H4 & H5 & H6 & H7).
    unfold consistent; cbn. repeat split; assumption.
  - eexists _, _; split; [reflexivity|].
    destruct Hx as (H1 & H2 & H3 & H4 & H5 & H6 & H7).
    unfold consistent; cbn. repeat split; assumption.
  - eexists _, _; split; [reflexivity|]. now apply consistent_updateTaskPriority.
  - eexists _, _; split; [reflexivity|]. now apply consistent_autoFix.
Qed.

Lemma performAll_consistent cs : forall x n,
  consistent x ->
  exists x' n', MethodCalls.performAll cs x n = Returned (x', n') /\ consistent x'.
Proof.
  induction cs as [|c cs IH]; intros x n Hx; cbn [MethodCalls.performAll].
  - exists x, n; split; [reflexivity | exact Hx].
  - destruct (perform_consistent c n Hx) as (x1 & n1 & E1 & H1).
    destruct (IH x1 n1 H1) as (x2 & n2 & E2 & H2).
    exists x2, n2; split; [|exact H2].
    unfold bind; rewrite E1; exact E2.
Qed.

(** X1: whatever the arguments of the constructor and whatever calls follow
    it, the calls return and the record stays consistent. *)
Theorem record_stays_consistent id title description priority sourceFilePath
    lineNumber startIndex length status subtasks isAutoPriority
    (calls : list MethodCalls.t) (n : nat) :
  exists x n',
    (x0 <- EnhancedTodoItem.new id title description priority sourceFilePath lineNumber
             startIndex length status subtasks isAutoPriority ;;
     MethodCalls.performAll calls x0) n = Returned (x, n')
    /\ consistent x.
Proof.
  run_methods. apply performAll_consistent, consistent_make.
Qed.

End RecordInvariants.

Section RecordMethods.
Context {H : Host}.

(** X2: completing an open task and reopening it gives the record back;
    [markCompleted] reads the clock once and leaves no time remaining. *)
Theorem markCompleted_markTodo_round_trip (x : EnhancedTodoItem.t) (n : nat) :
  open x ->
  exists x',
    TodoItemMethods.markCompleted x n = Returned (x', S n)
    /\ EnhancedTodoItem.isCompleted x' = true
    /\ EnhancedTodoItem.status x' = TodoItemStatus.Done
    /\ EnhancedTodoItem.completedDate x' = Some (fromMillis (clock n))
    /\ EnhancedTodoItem.remainingTime x' = 0
    /\ TodoItemMethods.markTodo x' = x.
Proof.
  intros (Hs & Hc & Hd & Hr).
  eexists; split; [reflexivity|].
  repeat split.
  destruct x; cbn in *. unfold TodoItemMethods.markTodo, TodoItemMethods.withStatus; cbn.
  subst. reflexivity.
Qed.

(** X3: rescheduling [k] times reads the clock [2 k] times, appends the
    [k] events in order, adds [k] to the count, stores the last target date
    as it is, never touches the original date, and raises the warning
    exactly when the count has reached the threshold. *)
Theorem rescheduleAll_counts (events : list (DateTime * DateTime * string)) :
  forall (x : EnhancedTodoItem.t) (n : nat),
  exists x',
    TodoItemMethods.rescheduleAll events x n = Returned (x', (n + 2 * List.length events)%nat)
    /\ EnhancedTodoItem.rescheduleCount x'
       = EnhancedTodoItem.rescheduleCount x + Z.of_nat (List.length events)
    /\ List.map (fun e => (EnhancedTodoItem.fromDate e, EnhancedTodoItem.toDate e,
                           EnhancedTodoItem.reason e))
                (EnhancedTodoItem.rescheduleHistory x')
       = (List.map (fun e => (EnhancedTodoItem.fromDate e, EnhancedTodoItem.toDate e,
                              EnhancedTodoItem.reason e))
                   (EnhancedTodoItem.rescheduleHistory x) ++ events)%list
    /\ EnhancedTodoItem.originalAssignedDate x' = EnhancedTodoItem.originalAssignedDate x
    /\ EnhancedTodoItem.assignedDate x'
       = List.last (List.map (fun e => Some (snd (fst e))) events)
                   (EnhancedTodoItem.assignedDate x)
    /\ EnhancedTodoItem.needsRescheduleWarning x'
       = match events with
         | [] => EnhancedTodoItem.needsRescheduleWarning x
         | _ => EnhancedTodoItem.rescheduleCount x' >=? RESCHEDULE_WARNING_THRESHOLD
         end.
Proof.
  induction events as [|[[f t] r] events IH]; intros x n.
  - exists x. cbn. rewrite Nat.add_0_r, Z.add_0_r, app_nil_r.
    repeat split; reflexivity.
  - cbn [TodoItemMethods.rescheduleAll]. run_methods.
    match goal with |- context [TodoItemMethods.rescheduleAll events ?y ?m] =>
      destruct (IH y m) as (x' & E & Hc & Hm & Ho & Ha & Hw) end.
    exists x'. rewrite E. cbn in Hc, Hm, Ho, Ha, Hw.
    unfold JS.push in Hm. rewrite map_app in Hm. cbn [List.map] in Hm.
    rewrite <- app_assoc in Hm. cbn [List.length].
    split; [f_equal; f_equal; lia|].
    split; [lia|]. split; [exact Hm|].
    clear IH.
    split; [exact Ho|]. split.
    { rewrite Ha. cbn [List.map snd fst]. destruct events as [|e events]; [reflexivity|].
      cbn [List.map]. generalize (Some (snd (fst e))) (List.map (fun e => Some (snd (fst e))) events).
      intros o l. change (List.last (Some t :: o :: l) (EnhancedTodoItem.assignedDate x))
        with (List.last (o :: l) (EnhancedTodoItem.assignedDate x)).
      generalize (Some t) (EnhancedTodoItem.assignedDate x). revert o.
      induction l as [|o' l IHl]; intros o d d'; [reflexivity|].
      change (List.last (o' :: l) d = List.last (o' :: l) d'). apply IHl. }
    destruct events; [|exact Hw].
    cbn in E. injection E as E _. subst x'. cbn. reflexivity.
Qed.

Lemma findIndex_fresh (subtaskId : string) (l : list SubTask.t) (st : SubTask.t) :
  List.forallb (fun s => negb (String.eqb (SubTask.id s) subtaskId)) l = true ->
  SubTask.id st = subtaskId ->
  EnhancedTodoItem.findIndex subtaskId (l ++ [st]) = Some (List.length l)
  /\ EnhancedTodoItem.splice1 (List.length l) (l ++ [st]) = l.
Proof.
  intros Hl Hst. induction l as [|a l IH]; cbn in *.
  - rewrite Hst, String.eqb_refl. split; reflexivity.
  - apply andb_prop in Hl as [Ha Hl]. apply negb_true_iff in Ha. rewrite Ha.
    destruct (IH Hl) as [-> ->]. split; reflexivity.
Qed.

(** X4: removing the subtask that [addSubtask] has just returned gives the
    record back, when no subtask held that id before and the stored count
    was the number of subtasks. *)
Theorem addSubtask_removeSubtask_round_trip (title : string) (complexity : Z)
    (x : EnhancedTodoItem.t) :
  EnhancedTodoItem.subtaskCount x = Z.of_nat (List.length (EnhancedTodoItem.subtasks x)) ->
  List.forallb
    (fun s => negb (String.eqb (SubTask.id s)
                      (SubTask.id (snd (EnhancedTodoItem.addSubtask title complexity x)))))
    (EnhancedTodoItem.subtasks x) = true ->
  EnhancedTodoItem.removeSubtask
    (SubTask.id (snd (EnhancedTodoItem.addSubtask title complexity x)))
    (fst (EnhancedTodoItem.addSubtask title complexity x))
  = (x, true).
Proof.
  intros Hc Hfresh.
  unfold EnhancedTodoItem.addSubtask in *. cbn [fst snd] in *.
  unfold EnhancedTodoItem.removeSubtask. cbn [EnhancedTodoItem.subtasks EnhancedTodoItem.setSubtasks].
  unfold JS.push.
  match goal with |- context [EnhancedTodoItem.findIndex ?i (?l ++ [?st])] =>
    destruct (@findIndex_fresh i l st Hfresh eq_refl) as [-> ->] end.
  destruct x; cbn in *. subst. reflexivity.
Qed.

Lemma findIndex_le (subtaskId : string) (l1 l2 : list SubTask.t) (st : SubTask.t) :
  SubTask.id st = subtaskId ->
  exists i, EnhancedTodoItem.findIndex subtaskId (l1 ++ st :: l2) = Some i
            /\ (i <= List.length l1)%nat.
Proof.
  intros Hid. induction l1 as [|a l1 IH]; cbn.
  - rewrite Hid, String.eqb_refl. exists 0%nat; split; [reflexivity | lia].
  - destruct (String.eqb (SubTask.id a) subtaskId).
    + exists 0%nat; split; [reflexivity | lia].
    + destruct IH as (i & -> & Hi). exists (S i); split; [reflexivity | lia].
Qed.

Lemma splice1_app (i : nat) (l r : list SubTask.t) :
  (i < List.length l)%nat ->
  EnhancedTodoItem.splice1 i (l ++ r) = (EnhancedTodoItem.splice1 i l ++ r)%list.
Proof.
  revert i; induction l as [|a l IH]; intros [|i] Hi; cbn in *; try lia; try reflexivity.
  rewrite IH by lia. reflexivity.
Qed.

(** X5: subtask ids are not unique over the life of a record: after two
    subtasks are added and the first of them is removed, the next subtask
    added gets the id of the second, which is still there. *)
Theorem addSubtask_reuses_id (t1 t2 t3 : string) (c1 c2 c3 : Z) (x : EnhancedTodoItem.t) :
  let (x1, a) := EnhancedTodoItem.addSubtask t1 c1 x in
  let (x2, b) := EnhancedTodoItem.addSubtask t2 c2 x1 in
  let (x3, removed) := EnhancedTodoItem.removeSubtask (SubTask.id a) x2 in
  let (x4, c) := EnhancedTodoItem.addSubtask t3 c3 x3 in
  removed = true /\ SubTask.id c = SubTask.id b
  /\ In b (EnhancedTodoItem.subtasks x4) /\ In c (EnhancedTodoItem.subtasks x4).
Proof.
  unfold EnhancedTodoItem.addSubtask at 1 2.
  cbn [EnhancedTodoItem.subtasks EnhancedTodoItem.setSubtasks EnhancedTodoItem.id].
  unfold EnhancedTodoItem.removeSubtask.
  cbn [EnhancedTodoItem.subtasks EnhancedTodoItem.setSubtasks EnhancedTodoItem.id].
  set (a := {| SubTask.id := _; SubTask.title := t1 |}).
  set (b := {| SubTask.id := _; SubTask.title := t2 |}).
  unfold JS.push.
  destruct (@findIndex_le (SubTask.id a) (EnhancedTodoItem.subtasks x) [b] a eq_refl)
    as (i & Ei & Hi).
  assert (Ei' : EnhancedTodoItem.findIndex (SubTask.id a)
                  ((EnhancedTodoItem.subtasks x ++ [a]) ++ [b]) = Some i)
    by (rewrite <- app_assoc; exact Ei).
  rewrite Ei'. unfold EnhancedTodoItem.addSubtask.
  cbn [EnhancedTodoItem.subtasks EnhancedTodoItem.setSubtasks EnhancedTodoItem.id].
  rewrite splice1_app by (rewrite length_app; cbn; lia).
  assert (Hlen : List.length (EnhancedTodoItem.splice1 i (EnhancedTodoItem.subtasks x ++ [a]))
                 = List.length (EnhancedTodoItem.subtasks x)).
  { rewrite splice1_length by (rewrite length_app; cbn; lia).
    rewrite length_app; cbn; lia. }
  unfold JS.push. rewrite !length_app, Hlen. cbn [List.length].
  split; [reflexivity|]. split.
  { unfold b, JS.push; cbn [SubTask.id]. rewrite length_app. reflexivity. }
  rewrite !in_app_iff; cbn; auto.
Qed.

End RecordMethods.

Lemma markCompleted_markTodo_round_trip_witness :
  let x := exampleTask TaskPriority.B true [] in
  TodoItemMethods.markTodo
    (@TodoItemMethods.withStatus exampleHost TodoItemStatus.Done true (Some 1700000000007) 0 x)
  = x.
Proof.
  intro x.
  destruct (@markCompleted_markTodo_round_trip exampleHost x 7) as (x' & E & _ & _ & _ & _ & Hx).
  - repeat split.
  - injection E as <-. exact Hx.
Defined.

Lemma addSubtask_removeSubtask_round_trip_witness :
  let x := exampleTask TaskPriority.D true [exampleSubtask "t1_sub_0" "one" 1] in
  List.map SubTask.id (EnhancedTodoItem.subtasks (fst (EnhancedTodoItem.addSubtask "two" 2 x)))
  = ["t1_sub_0"; "t1_sub_1"]
  /\ EnhancedTodoItem.removeSubtask "t1_sub_1" (fst (EnhancedTodoItem.addSubtask "two" 2 x))
     = (x, true).
Proof.
  intro x. split; [reflexivity|].
  apply (@addSubtask_removeSubtask_round_trip exampleHost "two" 2 x); reflexivity.
Defined.

Section RecordCalls.
Context {H : Host}.

Lemma perform_keeps_original (c : MethodCalls.t) (x : EnhancedTodoItem.t) (n : nat)
    (o : DateTime) :
  EnhancedTodoItem.originalAssignedDate x = Some o ->
  exists x' n', MethodCalls.perform c x n = Returned (x', n')
                /\ EnhancedTodoItem.originalAssignedDate x' = Some o.
Proof.
  intros Ho. destruct c; run_methods;
    try (eexists _, _; split; [reflexivity|]; cbn; try rewrite Ho; reflexivity).
  - eexists _, _; split; [reflexivity|].
    unfold EnhancedTodoItem.removeSubtask.
    destruct (EnhancedTodoItem.findIndex _ _); exact Ho.
  - eexists _, _; split; [reflexivity|].
    unfold PriorityUpdates.updateTaskPriority.
    destruct (negb (EnhancedTodoItem.isAutoPriority x) && negb forceRecalculate); [exact Ho|].
    destruct (negb _); exact Ho.
  - eexists _, _; split; [reflexivity|].
    unfold TaskSuitabilityAnalyzer.autoFixSimpleIssues.
    destruct (negb _ && _);
      match goal with |- context [if ?b then _ else _] => destruct b end; exact Ho.
Qed.

(** X6: once a record has an original assigned date, no call changes it:
    every later assignment or rescheduling moves only [assignedDate]. *)
Theorem originalAssignedDate_never_overwritten (calls : list MethodCalls.t) :
  forall (x : EnhancedTodoItem.t) (n : nat) (o : DateTime),
  EnhancedTodoItem.originalAssignedDate x = Some o ->
  exists x' n', MethodCalls.performAll calls x n = Returned (x', n')
                /\ EnhancedTodoItem.originalAssignedDate x' = Some o.
Proof.
  induction calls as [|c calls IH]; intros x n o Ho; cbn [MethodCalls.performAll].
  - exists x, n; split; [reflexivity | exact Ho].
  - destruct (perform_keeps_original c n Ho) as (x1 & n1 & E1 & H1).
    destruct (IH x1 n1 o H1) as (x2 & n2 & E2 & H2).
    exists x2, n2; split; [|exact H2].
    unfold bind; rewrite E1; exact E2.
Qed.

Lemma TaskPriority_eqb_refl (p : TaskPriority.t) : TaskPriority.eqb p p = true.
Proof. destruct p; reflexivity. Qed.

Lemma TaskPriority_eqb_eq (p q : TaskPriority.t) : TaskPriority.eqb p q = true <-> p = q.
Proof. destruct p, q; cbn; split; intro E; first [reflexivity | discriminate E]. Qed.

Lemma isValid_unless_updated (task : EnhancedTodoItem.t) :
  isValid (PriorityUpdates.validateAutoPriority task)
  = negb (snd (PriorityUpdates.updateTaskPriority task false)).
Proof.
  unfold PriorityUpdates.validateAutoPriority, PriorityUpdates.updateTaskPriority.
  destruct (TaskPriority.eqb (EnhancedTodoItem.priority task) _);
    destruct (EnhancedTodoItem.isAutoPriority task); reflexivity.
Qed.

(** X7: [validateAutoPriority] rejects a task exactly when
    [updateTaskPriority] would change it; after an update the task is
    valid; after a forced update the tier is the one of the subtask
    count, and the task has become automatic unless it was manual with
    that very tier. *)
Theorem validateAutoPriority_after_update (task : EnhancedTodoItem.t) :
  isValid (PriorityUpdates.validateAutoPriority task)
  = negb (snd (PriorityUpdates.updateTaskPriority task false))
  /\ (forall force,
        isValid (PriorityUpdates.validateAutoPriority
                   (fst (PriorityUpdates.updateTaskPriority task force))) = true)
  /\ EnhancedTodoItem.priority (fst (PriorityUpdates.updateTaskPriority task true))
     = AutoPriorityAssigner.assignPriorityBySubtaskCount (EnhancedTodoItem.subtaskCount task)
  /\ EnhancedTodoItem.isAutoPriority (fst (PriorityUpdates.updateTaskPriority task true))
     = (EnhancedTodoItem.isAutoPriority task
        || negb (TaskPriority.eqb (EnhancedTodoItem.priority task)
                   (AutoPriorityAssigner.assignPriorityBySubtaskCount
                      (EnhancedTodoItem.subtaskCount task)))).
Proof.
  unfold PriorityUpdates.validateAutoPriority, PriorityUpdates.updateTaskPriority.
  set (p := AutoPriorityAssigner.assignPriorityBySubtaskCount _).
  destruct (TaskPriority.eqb (EnhancedTodoItem.priority task) p) eqn:E;
    destruct (EnhancedTodoItem.isAutoPriority task) eqn:A; cbn.
  all: repeat split; try reflexivity.
  all: try (intros [|]; cbn; fold p; rewrite ?E, ?A, ?TaskPriority_eqb_refl; reflexivity).
  all: try (apply TaskPriority_eqb_eq in E; exact E).
  all: exact A.
Qed.

Lemma updateTaskPriority_again (task : EnhancedTodoItem.t) :
  PriorityUpdates.updateTaskPriority (fst (PriorityUpdates.updateTaskPriority task false)) false
  = (fst (PriorityUpdates.updateTaskPriority task false), false).
Proof.
  unfold PriorityUpdates.updateTaskPriority.
  set (p := AutoPriorityAssigner.assignPriorityBySubtaskCount _).
  destruct (TaskPriority.eqb (EnhancedTodoItem.priority task) p) eqn:E;
    destruct (EnhancedTodoItem.isAutoPriority task) eqn:A; cbn;
    fold p; rewrite ?E, ?A, ?TaskPriority_eqb_refl; reflexivity.
Qed.

End RecordCalls.

Section BatchUpdate.
Context {H : Host}.

Lemma setNth_length {V} (i : nat) (v : V) (a : list V) :
  List.length (setNth i v a) = List.length a.
Proof.
  revert i; induction a as [|x a IH]; intros [|i]; cbn; try reflexivity.
  rewrite IH. reflexivity.
Qed.

Lemma nth_error_setNth {V} (i k : nat) (v : V) (a : list V) :
  nth_error (setNth i v a) k
  = if (k =? i)%nat then option_map (fun _ => v) (nth_error a k) else nth_error a k.
Proof.
  revert i k; induction a as [|x a IH]; intros i k.
  - destruct i, k; cbn; try reflexivity; destruct (k =? i)%nat; reflexivity.
  - destruct i, k; cbn; try reflexivity. apply IH.
Qed.

Lemma filter_twice {T} (f g : T -> bool) (l : list T) :
  List.filter f (List.filter g l) = List.filter (fun x => g x && f x) l.
Proof.
  induction l as [|x l IH]; [reflexivity|]. cbn [List.filter].
  destruct (g x); cbn [List.filter andb]; [destruct (f x)|]; rewrite IH; reflexivity.
Qed.

Lemma autoUpdated_valid (task : EnhancedTodoItem.t) :
  isValid (PriorityUpdates.validateAutoPriority (autoUpdated task)) = true.
Proof.
  unfold autoUpdated. rewrite isValid_unless_updated, updateTaskPriority_again. reflexivity.
Qed.

Lemma autoUpdated_again (task : EnhancedTodoItem.t) :
  autoUpdated (autoUpdated task) = autoUpdated task.
Proof. unfold autoUpdated. rewrite updateTaskPriority_again. reflexivity. Qed.

(** One visit: the object is updated, and the reference is pushed when the
    object was rejected. *)
Lemma updateReferenced_step (store : list EnhancedTodoItem.t) (updatedTasks : list nat)
    (task : nat) :
  PriorityUpdates.updateReferenced (store, updatedTasks) task
  = (match nth_error store task with
     | Some object => setNth task (autoUpdated object) store
     | None => store
     end,
     if rejected store task then JS.push updatedTasks task else updatedTasks).
Proof.
  unfold PriorityUpdates.updateReferenced, rejected, autoUpdated.
  destruct (nth_error store task) as [object|]; [|reflexivity].
  rewrite isValid_unless_updated, negb_involutive.
  destruct (PriorityUpdates.updateTaskPriority object false) as [object' updated].
  reflexivity.
Qed.

Lemma batch_fold (tasks : list nat) :
  forall (store : list EnhancedTodoItem.t) (updatedTasks : list nat),
    let state := List.fold_left PriorityUpdates.updateReferenced tasks (store, updatedTasks) in
    List.length (fst state) = List.length store
    /\ (forall task,
          nth_error (fst state) task
          = if List.existsb (Nat.eqb task) tasks
            then option_map autoUpdated (nth_error store task)
            else nth_error store task)
    /\ snd state = (updatedTasks ++ List.filter (rejected store) (firstVisits tasks))%list.
Proof.
  induction tasks as [|task tasks IH]; intros store updatedTasks.
  - cbn. rewrite app_nil_r. auto.
  - cbn [List.fold_left]. rewrite updateReferenced_step.
    set (store1 := match nth_error store task with
                   | Some object => setNth task (autoUpdated object) store
                   | None => store
                   end).
    assert (Hlen : List.length store1 = List.length store).
    { unfold store1. destruct (nth_error store task); [apply setNth_length | reflexivity]. }
    assert (Hnth : forall k, nth_error store1 k
                             = if (k =? task)%nat then option_map autoUpdated (nth_error store k)
                               else nth_error store k).
    { intros k. unfold store1. destruct (nth_error store task) as [object|] eqn:E.
      - rewrite nth_error_setNth. destruct (Nat.eqb_spec k task) as [->|]; [|reflexivity].
        rewrite E. reflexivity.
      - destruct (Nat.eqb_spec k task) as [->|]; [|reflexivity]. rewrite E. reflexivity. }
    assert (Hrej : forall k, rejected store1 k = negb (k =? task)%nat && rejected store k).
    { intros k. unfold rejected. rewrite Hnth.
      destruct (Nat.eqb_spec k task) as [->|]; [|reflexivity]. cbn [negb andb].
      destruct (nth_error store task) as [object|]; [|reflexivity].
      cbn [option_map]. rewrite autoUpdated_valid. reflexivity. }
    specialize (IH store1 (if rejected store task then JS.push updatedTasks task
                           else updatedTasks)).
    cbv zeta in IH. destruct IH as (IHlen & IHnth & IHsnd).
    split; [congruence|]. split.
    + intros k. rewrite IHnth, Hnth. cbn [List.existsb].
      destruct (Nat.eqb_spec k task) as [->|]; cbn [orb]; [|reflexivity].
      destruct (List.existsb _ tasks); [|reflexivity].
      destruct (nth_error store task); [|reflexivity].
      cbn [option_map]. rewrite autoUpdated_again. reflexivity.
    + rewrite IHsnd. cbn [firstVisits List.filter].
      rewrite filter_twice.
      rewrite (filter_ext _ _ Hrej).
      destruct (rejected store task); [|reflexivity].
      unfold JS.push. rewrite <- app_assoc. reflexivity.
Qed.

(** X8: [batchUpdatePriorities] works on task objects through the
    references the array holds, and an object can stand in the array more
    than once.  Afterwards every object the array refers to is as a single
    unforced [updateTaskPriority] leaves it and no other object has
    changed; the returned array holds, once each and in the order of their
    first occurrence, the references to the objects that
    [validateAutoPriority] rejected beforehand; run again on the same
    array, the function changes nothing and returns an empty array. *)
Theorem batchUpdatePriorities_spec (store : list EnhancedTodoItem.t) (tasks : list nat) :
  let store' := fst (PriorityUpdates.batchUpdatePriorities store tasks) in
  List.length store' = List.length store
  /\ (forall task,
        nth_error store' task
        = if List.existsb (Nat.eqb task) tasks
          then option_map autoUpdated (nth_error store task)
          else nth_error store task)
  /\ snd (PriorityUpdates.batchUpdatePriorities store tasks)
     = List.filter (rejected store) (firstVisits tasks)
  /\ PriorityUpdates.batchUpdatePriorities store' tasks = (store', []).
Proof.
  intro store'.
  destruct (batch_fold tasks store []) as (Hlen & Hnth & Hsnd).
  fold (PriorityUpdates.batchUpdatePriorities store tasks) in Hlen, Hnth, Hsnd.
  fold store' in Hlen, Hnth.
  split; [exact Hlen|]. split; [exact Hnth|]. split; [exact Hsnd|].
  destruct (batch_fold tasks store' []) as (Hlen' & Hnth' & Hsnd').
  fold (PriorityUpdates.batchUpdatePriorities store' tasks) in Hlen', Hnth', Hsnd'.
  destruct (PriorityUpdates.batchUpdatePriorities store' tasks) as [store'' updated].
  cbn [fst snd] in Hlen', Hnth', Hsnd'. f_equal.
  - apply nth_error_ext. intros k. rewrite Hnth', Hnth.
    destruct (List.existsb (Nat.eqb k) tasks); [|reflexivity].
    destruct (nth_error store k); [|reflexivity].
    cbn [option_map]. f_equal. apply autoUpdated_again.
  - rewrite Hsnd'. cbn [app].
    assert (Hin : forall l, incl l tasks -> List.filter (rejected store') l = []).
    { induction l as [|k l IH]; intros Hl; [reflexivity|]. cbn [List.filter].
      rewrite IH by (intros x Hx; apply Hl; right; exact Hx).
      unfold rejected at 1. rewrite Hnth.
      assert (Hk : List.existsb (Nat.eqb k) tasks = true).
      { apply existsb_exists. exists k. split; [apply Hl; left; reflexivity|].
        apply Nat.eqb_refl. }
      rewrite Hk. destruct (nth_error store k); [|reflexivity].
      cbn [option_map]. rewrite autoUpdated_valid. reflexivity. }
    apply Hin. clear. induction tasks as [|task tasks IH]; [intros x []|].
    cbn [firstVisits]. intros x [->|Hx]; [left; reflexivity|].
    apply filter_In in Hx as [Hx _]. right. apply IH. exact Hx.
Qed.

End BatchUpdate.

(** The same task object twice in the array: it is updated once and
    returned once. *)
Example batchUpdatePriorities_same_object_twice :
  snd (PriorityUpdates.batchUpdatePriorities exampleStore [0; 0; 1; 0]%nat) = [0%nat]
  /\ List.map (@EnhancedTodoItem.priority exampleHost)
       (fst (PriorityUpdates.batchUpdatePriorities exampleStore [0; 0; 1; 0]%nat))
     = [TaskPriority.C; TaskPriority.C].
Proof. split; vm_compute; reflexivity. Qed.

Section Analysis.
Context {H : Host}.

(** X9: what the analysis recommends, by the three checks: a breakdown is
    required exactly when the task is too complex or exceeds its time
    allocation, suggested exactly when inconsistent complexity is the only
    issue, and the task is problematic exactly when some action is
    recommended; the urgency of a breakdown is never low: it is high
    exactly when a breakdown is needed at once, medium exactly when one is
    suggested but not needed at once, and none otherwise. *)
Theorem analysis_by_checks (task : EnhancedTodoItem.t) :
  let analysis := TaskSuitabilityAnalyzer.analyzeTaskSuitability task in
  (recommendedAction analysis = required
   <-> TaskSuitabilityAnalyzer.isTooComplexForSingleTask task = true
       \/ TaskSuitabilityAnalyzer.exceedsTimeAllocationLimits task = true)
  /\ (recommendedAction analysis = suggested
      <-> issues analysis = [TaskSuitabilityAnalyzer.inconsistentIssue])
  /\ (recommendedAction analysis = none <-> issues analysis = [])
  /\ isProblematic analysis = BreakdownQueries.shouldSuggestBreakdown task
  /\ List.length (issues analysis)
     = (Nat.b2n (TaskSuitabilityAnalyzer.isTooComplexForSingleTask task)
        + Nat.b2n (TaskSuitabilityAnalyzer.hasInconsistentSubtaskComplexity task)
        + Nat.b2n (TaskSuitabilityAnalyzer.exceedsTimeAllocationLimits task))%nat
  /\ BreakdownQueries.getBreakdownUrgency task <> urgency_low
  /\ (BreakdownQueries.getBreakdownUrgency task = urgency_high
      <-> BreakdownQueries.needsImmediateBreakdown task = true)
  /\ (BreakdownQueries.getBreakdownUrgency task = urgency_medium
      <-> BreakdownQueries.shouldSuggestBreakdown task = true
          /\ BreakdownQueries.needsImmediateBreakdown task = false)
  /\ (BreakdownQueries.getBreakdownUrgency task = urgency_none
      <-> BreakdownQueries.shouldSuggestBreakdown task = false).
Proof.
  unfold BreakdownQueries.getBreakdownUrgency, BreakdownQueries.shouldSuggestBreakdown,
    BreakdownQueries.needsImmediateBreakdown, TaskSuitabilityAnalyzer.analyzeTaskSuitability.
  destruct (TaskSuitabilityAnalyzer.isTooComplexForSingleTask task);
    destruct (TaskSuitabilityAnalyzer.hasInconsistentSubtaskComplexity task);
    destruct (TaskSuitabilityAnalyzer.exceedsTimeAllocationLimits task); cbn;
    repeat split; intros; try reflexivity; try discriminate; auto;
    try match goal with
        | E : _ \/ _ |- _ => destruct E; discriminate
        | E : _ /\ _ |- _ => destruct E; discriminate
        end.
Qed.

(** X10: the summary is one of six texts, chosen by the three checks; it
    counts the issues and, among them, the two of high severity. *)
Theorem generateBreakdownSummary_texts (task : EnhancedTodoItem.t) :
  BreakdownQueries.generateBreakdownSummary task
  = match TaskSuitabilityAnalyzer.isTooComplexForSingleTask task,
          TaskSuitabilityAnalyzer.hasInconsistentSubtaskComplexity task,
          TaskSuitabilityAnalyzer.exceedsTimeAllocationLimits task with
    | false, false, false => "Task structure looks good for the current priority system."
    | false, true, false =>
        "Found 1 issue. Consider breaking down this task for better time management."
    | true, false, false | false, false, true =>
        "Found 1 issue (1 high priority). Task breakdown is required before assignment."
    | true, true, false | false, true, true =>
        "Found 2 issues (1 high priority). Task breakdown is required before assignment."
    | true, false, true =>
        "Found 2 issues (2 high priority). Task breakdown is required before assignment."
    | true, true, true =>
        "Found 3 issues (2 high priority). Task breakdown is required before assignment."
    end.
Proof.
  unfold BreakdownQueries.generateBreakdownSummary,
    TaskSuitabilityAnalyzer.analyzeTaskSuitability.
  destruct (TaskSuitabilityAnalyzer.isTooComplexForSingleTask task);
    destruct (TaskSuitabilityAnalyzer.hasInconsistentSubtaskComplexity task);
    destruct (TaskSuitabilityAnalyzer.exceedsTimeAllocationLimits task); reflexivity.
Qed.

End Analysis.

Lemma originalAssignedDate_never_overwritten_witness :
  let x := @EnhancedTodoItem.assigned exampleHost 5 6
             (exampleTask TaskPriority.B true []) in
  let calls := [MethodCalls.assignToToday;
                MethodCalls.addRescheduleEvent (H := exampleHost) 5 8 "busy";
                MethodCalls.assignToDate (H := exampleHost) 9;
                MethodCalls.markCompleted] in
  exists x' n', MethodCalls.performAll calls x 0%nat = Returned (x', n')
                /\ EnhancedTodoItem.originalAssignedDate x' = Some 5.
Proof.
  intros x calls.
  apply (@originalAssignedDate_never_overwritten exampleHost calls x 0%nat 5).
  reflexivity.
Defined.

Section AutoFixAgain.
Context {H : Host}.

Lemma estimateTaskTime_updatePriority p m (x : EnhancedTodoItem.t) :
  TaskSuitabilityAnalyzer.estimateTaskTime (EnhancedTodoItem.updatePriority p m x)
  = TaskSuitabilityAnalyzer.estimateTaskTime x.
Proof. reflexivity. Qed.

(** X11: [autoFixSimpleIssues] is idempotent: run on its own result it
    changes nothing and reports nothing. *)
Theorem autoFixSimpleIssues_idempotent (task : EnhancedTodoItem.t) :
  TaskSuitabilityAnalyzer.autoFixSimpleIssues
    (fst (TaskSuitabilityAnalyzer.autoFixSimpleIssues task))
  = (fst (TaskSuitabilityAnalyzer.autoFixSimpleIssues task),
     {| fixed := false; changes := [] |}).
Proof.
  unfold TaskSuitabilityAnalyzer.autoFixSimpleIssues at 2 3.
  set (p := AutoPriorityAssigner.assignPriorityBySubtaskCount (EnhancedTodoItem.subtaskCount task)).
  destruct (negb (TaskPriority.eqb (EnhancedTodoItem.priority task) p)
            && EnhancedTodoItem.isAutoPriority task) eqn:B1.
  - rewrite estimateTaskTime_updatePriority.
    cbn [EnhancedTodoItem.estimatedTime EnhancedTodoItem.updatePriority].
    set (e := TaskSuitabilityAnalyzer.estimateTaskTime task).
    destruct (Z.abs (EnhancedTodoItem.estimatedTime task - e) >? 10) eqn:B2; cbn [fst];
      unfold TaskSuitabilityAnalyzer.autoFixSimpleIssues;
      cbn [EnhancedTodoItem.subtaskCount EnhancedTodoItem.priority
           EnhancedTodoItem.isAutoPriority EnhancedTodoItem.updatePriority
           EnhancedTodoItem.setEstimatedTime EnhancedTodoItem.estimatedTime];
      fold p; rewrite TaskPriority_eqb_refl; cbn [negb andb].
    + change (TaskSuitabilityAnalyzer.estimateTaskTime _) with e.
      rewrite Z.sub_diag. reflexivity.
    + change (TaskSuitabilityAnalyzer.estimateTaskTime _) with e.
      change (EnhancedTodoItem.estimatedTime (EnhancedTodoItem.updatePriority p false task))
        with (EnhancedTodoItem.estimatedTime task).
      rewrite B2. reflexivity.
  - set (e := TaskSuitabilityAnalyzer.estimateTaskTime task).
    destruct (Z.abs (EnhancedTodoItem.estimatedTime task - e) >? 10) eqn:B2; cbn [fst];
      unfold TaskSuitabilityAnalyzer.autoFixSimpleIssues;
      cbn [EnhancedTodoItem.subtaskCount EnhancedTodoItem.priority
           EnhancedTodoItem.isAutoPriority
           EnhancedTodoItem.setEstimatedTime EnhancedTodoItem.estimatedTime];
      fold p; rewrite B1.
    + change (TaskSuitabilityAnalyzer.estimateTaskTime _) with e.
      rewrite Z.sub_diag. reflexivity.
    + change (TaskSuitabilityAnalyzer.estimateTaskTime _) with e.
      rewrite B2. reflexivity.
Qed.

(** X12: [autoFixSimpleIssues] reports [fixed] exactly when it changed the
    record, and its report can be read off the record afterwards: one entry
    when the tier changed, which names the new tier twice and the old
    tier nowhere, then one entry when the estimate changed. *)
Theorem autoFixSimpleIssues_report (task : EnhancedTodoItem.t) :
  let task' := fst (TaskSuitabilityAnalyzer.autoFixSimpleIssues task) in
  let r := snd (TaskSuitabilityAnalyzer.autoFixSimpleIssues task) in
  (fixed r = true <-> task' <> task)
  /\ changes r
     = ((if TaskPriority.eqb (EnhancedTodoItem.priority task) (EnhancedTodoItem.priority task')
         then []
         else [("Updated priority from " ++ TaskPriority.toString (EnhancedTodoItem.priority task')
                ++ " to " ++ TaskPriority.toString (EnhancedTodoItem.priority task'))%string])
        ++ (if EnhancedTodoItem.estimatedTime task =? EnhancedTodoItem.estimatedTime task'
            then []
            else [("Updated estimated time to " ++ JS.ofZ (EnhancedTodoItem.estimatedTime task')
                   ++ " minutes")%string]))%list.
Proof.
  unfold TaskSuitabilityAnalyzer.autoFixSimpleIssues.
  set (p := AutoPriorityAssigner.assignPriorityBySubtaskCount (EnhancedTodoItem.subtaskCount task)).
  destruct (negb (TaskPriority.eqb (EnhancedTodoItem.priority task) p)
            && EnhancedTodoItem.isAutoPriority task) eqn:B1;
    rewrite ?estimateTaskTime_updatePriority;
    cbn [EnhancedTodoItem.estimatedTime EnhancedTodoItem.updatePriority];
    set (e := TaskSuitabilityAnalyzer.estimateTaskTime task);
    destruct (Z.abs (EnhancedTodoItem.estimatedTime task - e) >? 10) eqn:B2;
    cbn [fst snd fixed changes EnhancedTodoItem.priority EnhancedTodoItem.estimatedTime
         EnhancedTodoItem.setEstimatedTime EnhancedTodoItem.updatePriority].
  - (* the tier and the estimate change *)
    apply andb_prop in B1 as [B0 _]. apply negb_true_iff in B0. rewrite B0.
    assert (He : (EnhancedTodoItem.estimatedTime task =? e) = false)
      by (apply Z.eqb_neq; apply Z.gtb_lt in B2; lia).
    rewrite He. split; [|reflexivity].
    split; [intros _ E | reflexivity].
    apply (f_equal EnhancedTodoItem.estimatedTime) in E; cbn in E.
    rewrite E, Z.eqb_refl in He. discriminate.
  - (* the tier changes *)
    apply andb_prop in B1 as [B0 _]. apply negb_true_iff in B0. rewrite B0.
    rewrite Z.eqb_refl. split; [|reflexivity].
    split; [intros _ E | reflexivity].
    apply (f_equal EnhancedTodoItem.priority) in E; cbn in E.
    rewrite <- E, TaskPriority_eqb_refl in B0. discriminate.
  - (* the estimate changes *)
    rewrite TaskPriority_eqb_refl.
    assert (He : (EnhancedTodoItem.estimatedTime task =? e) = false)
      by (apply Z.eqb_neq; apply Z.gtb_lt in B2; lia).
    rewrite He. split; [|reflexivity].
    split; [intros _ E | reflexivity].
    apply (f_equal EnhancedTodoItem.estimatedTime) in E; cbn in E.
    rewrite E, Z.eqb_refl in He. discriminate.
  - (* nothing changes *)
    rewrite TaskPriority_eqb_refl, Z.eqb_refl. split; [|reflexivity].
    split; [discriminate | intros E; exfalso; apply E; reflexivity].
Qed.

End AutoFixAgain.

Lemma complexity_in_range (subtaskTitle : string) :
  1 <= AutoPriorityAssigner.calculateSubtaskComplexity subtaskTitle <= 5.
Proof.
  unfold AutoPriorityAssigner.calculateSubtaskComplexity.
  repeat match goal with
         | |- context [if ?b then _ else _] => destruct b
         end; cbn; lia.
Qed.

Lemma forEachIndexed_range (startLine : nat) (subtaskLines : list string) :
  forall index,
  Forall (fun st => 1 <= SubTask.complexity st <= 5)
         (AutoPriorityAssigner.forEachIndexed startLine index subtaskLines).
Proof.
  induction subtaskLines as [|l ls IH]; intro i; cbn; constructor;
    [apply complexity_in_range | apply IH].
Qed.

(** X13: the complexity of a subtask title is an integer from 1 to 5,
    whatever the title, and so is the complexity of every subtask that
    [parseSubtasksWithComplexity] returns. *)
Theorem calculateSubtaskComplexity_range (subtaskTitle content : string) (startLine : nat) :
  1 <= AutoPriorityAssigner.calculateSubtaskComplexity subtaskTitle <= 5
  /\ Forall (fun st => 1 <= SubTask.complexity st <= 5)
            (AutoPriorityAssigner.parseSubtasksWithComplexity content startLine).
Proof.
  split; [apply complexity_in_range | apply forEachIndexed_range].
Qed.

Section Complexity.
Context {H : Host}.

Lemma fold_left_max (l : list Z) : forall a,
  (forall x, In x (a :: l) -> x <= List.fold_left Z.max l a)
  /\ In (List.fold_left Z.max l a) (a :: l).
Proof.
  induction l as [|b l IH]; intro a; cbn [List.fold_left].
  - split; [intros x [<-|[]]; lia | left; reflexivity].
  - destruct (IH (Z.max a b)) as [Hle Hin]. split.
    + intros x [<-|[<-|Hx]].
      * specialize (Hle (Z.max a b) (or_introl eq_refl)). lia.
      * specialize (Hle (Z.max a b) (or_introl eq_refl)). lia.
      * apply Hle. right; exact Hx.
    + destruct Hin as [E|Hin]; [|right; right; exact Hin].
      rewrite <- E. destruct (Z.max_spec a b) as [[_ ->]|[_ ->]]; cbn; auto.
Qed.

Lemma fold_left_min (l : list Z) : forall a,
  (forall x, In x (a :: l) -> List.fold_left Z.min l a <= x)
  /\ In (List.fold_left Z.min l a) (a :: l).
Proof.
  induction l as [|b l IH]; intro a; cbn [List.fold_left].
  - split; [intros x [<-|[]]; lia | left; reflexivity].
  - destruct (IH (Z.min a b)) as [Hle Hin]. split.
    + intros x [<-|[<-|Hx]].
      * specialize (Hle (Z.min a b) (or_introl eq_refl)). lia.
      * specialize (Hle (Z.min a b) (or_introl eq_refl)). lia.
      * apply Hle. right; exact Hx.
    + destruct Hin as [E|Hin]; [|right; right; exact Hin].
      rewrite <- E. destruct (Z.min_spec a b) as [[_ ->]|[_ ->]]; cbn; auto.
Qed.

(** X14: for subtasks whose complexity lies between 1 and 5, as the parser
    gives them, the complexity is inconsistent exactly when there are at
    least three subtasks, one of complexity 1 and one of complexity 5. *)
Theorem hasInconsistentSubtaskComplexity_extremes (task : EnhancedTodoItem.t) :
  Forall (fun st => 1 <= SubTask.complexity st <= 5) (EnhancedTodoItem.subtasks task) ->
  (TaskSuitabilityAnalyzer.hasInconsistentSubtaskComplexity task = true
   <-> (3 <= List.length (EnhancedTodoItem.subtasks task))%nat
       /\ (exists st, In st (EnhancedTodoItem.subtasks task) /\ SubTask.complexity st = 1)
       /\ (exists st, In st (EnhancedTodoItem.subtasks task) /\ SubTask.complexity st = 5)).
Proof.
  intros Hr. unfold TaskSuitabilityAnalyzer.hasInconsistentSubtaskComplexity.
  rewrite Forall_forall in Hr.
  destruct (Nat.ltb_spec (List.length (EnhancedTodoItem.subtasks task)) 3) as [Hlt|Hge].
  - split; [discriminate | intros (Hl & _); lia].
  - destruct (EnhancedTodoItem.subtasks task) as [|s0 l] eqn:El; [cbn in Hge; lia|].
    cbn [List.map TaskSuitabilityAnalyzer.maxOf TaskSuitabilityAnalyzer.minOf].
    destruct (fold_left_max (List.map SubTask.complexity l) (SubTask.complexity s0))
      as [Hmax Hmaxin].
    destruct (fold_left_min (List.map SubTask.complexity l) (SubTask.complexity s0))
      as [Hmin Hminin].
    change (SubTask.complexity s0 :: List.map SubTask.complexity l)
      with (List.map SubTask.complexity (s0 :: l)) in *.
    apply in_map_iff in Hmaxin as (smax & Emax & Hmaxin).
    apply in_map_iff in Hminin as (smin & Emin & Hminin).
    pose proof (Hr _ Hmaxin) as Rmax. pose proof (Hr _ Hminin) as Rmin.
    rewrite Z.gtb_lt. split.
    + intros Hd. split; [exact Hge|]. split.
      * exists smin; split; [exact Hminin | lia].
      * exists smax; split; [exact Hmaxin | lia].
    + intros (_ & (s1 & H1 & E1) & (s5 & H5 & E5)).
      pose proof (Hmax _ (in_map SubTask.complexity _ _ H5)).
      pose proof (Hmin _ (in_map SubTask.complexity _ _ H1)). lia.
Qed.

Lemma sum_complexity_bounds (l : list SubTask.t) :
  Forall (fun st => 1 <= SubTask.complexity st <= 5) l ->
  Z.of_nat (List.length l)
  <= List.fold_right Z.add 0 (List.map (fun st => SubTask.complexity st * 10) l) / 10
  /\ List.fold_right Z.add 0 (List.map (fun st => SubTask.complexity st * 10) l)
     = 10 * (List.fold_right Z.add 0 (List.map (fun st => SubTask.complexity st * 10) l) / 10)
  /\ List.fold_right Z.add 0 (List.map (fun st => SubTask.complexity st * 10) l)
     <= 50 * Z.of_nat (List.length l)
  /\ (List.fold_right Z.add 0 (List.map (fun st => SubTask.complexity st * 10) l)
      = 10 * Z.of_nat (List.length l)
      <-> Forall (fun st => SubTask.complexity st = 1) l).
Proof.
  induction 1 as [|st l Hst Hl IH]; cbn [List.map List.fold_right List.length].
  - cbn. split; [lia|]. split; [reflexivity|]. split; [lia|].
    split; [constructor | reflexivity].
  - set (s := List.fold_right Z.add 0 (List.map (fun st => SubTask.complexity st * 10) l)) in *.
    destruct IH as (I1 & I2 & I3 & I4).
    assert (Ediv : (SubTask.complexity st * 10 + s) / 10 = SubTask.complexity st + s / 10).
    { rewrite I2 at 1. replace (SubTask.complexity st * 10 + 10 * (s / 10))
        with ((SubTask.complexity st + s / 10) * 10) by lia.
      apply Z.div_mul. lia. }
    rewrite Ediv. repeat split; try lia.
    + intros E. constructor; [lia|]. apply I4. lia.
    + intros HF. inversion HF as [|? ? E1 HF']; subst.
      apply I4 in HF'. lia.
Qed.

(** X15: for a record whose tier is the one of its subtask count, with
    subtask complexities between 1 and 5, the time check passes only
    without subtasks, with a single subtask, or with exactly four subtasks
    all of complexity 1; every other such task gets a TIME_MISMATCH issue. *)
Theorem auto_tier_time_mismatch (task : EnhancedTodoItem.t) :
  EnhancedTodoItem.priority task
  = AutoPriorityAssigner.assignPriorityBySubtaskCount (EnhancedTodoItem.subtaskCount task) ->
  EnhancedTodoItem.subtaskCount task = Z.of_nat (List.length (EnhancedTodoItem.subtasks task)) ->
  Forall (fun st => 1 <= SubTask.complexity st <= 5) (EnhancedTodoItem.subtasks task) ->
  (TaskSuitabilityAnalyzer.exceedsTimeAllocationLimits task = false
   <-> (List.length (EnhancedTodoItem.subtasks task) <= 1)%nat
       \/ (List.length (EnhancedTodoItem.subtasks task) = 4%nat
           /\ Forall (fun st => SubTask.complexity st = 1) (EnhancedTodoItem.subtasks task))).
Proof.
  intros Hp Hc Hr.
  unfold TaskSuitabilityAnalyzer.exceedsTimeAllocationLimits.
  rewrite estimateTaskTime_spec, Hp, Hc. unfold spec_estimatedTime.
  destruct (sum_complexity_bounds Hr) as (B1 & B2 & B3 & B4).
  destruct (EnhancedTodoItem.subtasks task) as [|s0 l] eqn:El.
  - cbn. split; [intros _; left; lia | reflexivity].
  - rewrite <- El in *. clear El s0 l.
    set (s := List.fold_right Z.add 0 _) in *.
    set (n := List.length (EnhancedTodoItem.subtasks task)) in *.
    unfold AutoPriorityAssigner.assignPriorityBySubtaskCount. cbn [PRIORITY_A PRIORITY_B PRIORITY_C AUTO_PRIORITY_THRESHOLDS].
    rewrite <- not_true_iff_false, Z.gtb_lt.
    destruct (Z.geb_spec (Z.of_nat n) 6);
      [cbn [timePerTask PRIORITY_TIME_RATIOS]; split; [lia | intros [?|[? _]]; lia]|].
    destruct (Z.geb_spec (Z.of_nat n) 4).
    { cbn [timePerTask PRIORITY_TIME_RATIOS]. rewrite <- B4.
      split; [intros ?; right; lia | intros [?|[? ?]]; lia]. }
    destruct (Z.geb_spec (Z.of_nat n) 2); cbn [timePerTask PRIORITY_TIME_RATIOS];
      (split; [intros ?; try (left; lia); exfalso; lia | intros [?|[? _]]; lia]).
Qed.

End Complexity.

Lemma hasInconsistentSubtaskComplexity_extremes_witness :
  TaskSuitabilityAnalyzer.hasInconsistentSubtaskComplexity
    (exampleTask TaskPriority.C true
       [exampleSubtask "a" "call" 1; exampleSubtask "b" "design" 3;
        exampleSubtask "c" "architect and build" 5])
  = true.
Proof.
  refine (proj2 (@hasInconsistentSubtaskComplexity_extremes exampleHost
                   (exampleTask TaskPriority.C true
                      [exampleSubtask "a" "call" 1; exampleSubtask "b" "design" 3;
                       exampleSubtask "c" "architect and build" 5]) _) _).
  - repeat constructor; cbn; lia.
  - split; [cbn; lia|]. split.
    + exists (exampleSubtask "a" "call" 1). split; [left; reflexivity | reflexivity].
    + exists (exampleSubtask "c" "architect and build" 5).
      split; [right; right; left; reflexivity | reflexivity].
Defined.

Lemma auto_tier_time_mismatch_witness :
  TaskSuitabilityAnalyzer.exceedsTimeAllocationLimits
    (exampleTask TaskPriority.B true
       [exampleSubtask "a" "call" 1; exampleSubtask "b" "send" 1;
        exampleSubtask "c" "read" 1; exampleSubtask "d" "check" 1])
  = false.
Proof.
  refine (proj2 (@auto_tier_time_mismatch exampleHost
                   (exampleTask TaskPriority.B true
                      [exampleSubtask "a" "call" 1; exampleSubtask "b" "send" 1;
                       exampleSubtask "c" "read" 1; exampleSubtask "d" "check" 1])
                   eq_refl eq_refl _) _).
  - repeat constructor; cbn; lia.
  - right. split; [reflexivity | repeat constructor].
Defined.

Section Grouping.
Context {H : Host}.

Lemma pushTo_keys (type : string) (st : SubTask.t) (groups : TaskSuitabilityAnalyzer.Groups) :
  List.map fst (TaskSuitabilityAnalyzer.pushTo type st groups)
  = if List.existsb (fun k => String.eqb k type) (List.map fst groups)
    then List.map fst groups
    else (List.map fst groups ++ [type])%list.
Proof.
  induction groups as [|[k v] groups IH]; [reflexivity|].
  cbn [TaskSuitabilityAnalyzer.pushTo List.map fst List.existsb].
  destruct (String.eqb k type); cbn [orb List.map fst]; [reflexivity|].
  rewrite IH. destruct (List.existsb _ _); reflexivity.
Qed.

Lemma existsb_eqb_In (type : string) (keys : list string) :
  List.existsb (fun k => String.eqb k type) keys = true <-> In type keys.
Proof.
  rewrite existsb_exists. split.
  - intros (k & Hk & E). apply String.eqb_eq in E. now subst.
  - intros Hin. exists type. split; [exact Hin | apply String.eqb_refl].
Qed.

Lemma pushTo_NoDup (type : string) (st : SubTask.t) (groups : TaskSuitabilityAnalyzer.Groups) :
  NoDup (List.map fst groups) ->
  NoDup (List.map fst (TaskSuitabilityAnalyzer.pushTo type st groups)).
Proof.
  intros Hnd. rewrite pushTo_keys.
  destruct (List.existsb _ _) eqn:E; [exact Hnd|].
  apply NoDup_rev in Hnd. rewrite <- (rev_involutive (_ ++ _)).
  apply NoDup_rev. rewrite rev_app_distr. cbn. constructor; [|exact Hnd].
  rewrite <- in_rev. rewrite <- existsb_eqb_In, E. discriminate.
Qed.

Lemma pushTo_In (type : string) (st : SubTask.t) (groups : TaskSuitabilityAnalyzer.Groups) :
  NoDup (List.map fst groups) ->
  forall k v,
    In (k, v) (TaskSuitabilityAnalyzer.pushTo type st groups)
    <-> (k <> type /\ In (k, v) groups)
        \/ (k = type
            /\ ((exists v0, In (type, v0) groups /\ v = JS.push v0 st)
                \/ (~ In type (List.map fst groups) /\ v = [st]))).
Proof.
  induction groups as [|[k0 v0] groups IH]; intros Hnd k v.
  - cbn. split.
    + intros [E|[]]. injection E as <- <-. right. split; [reflexivity|]. right. tauto.
    + intros [[_ []]|[-> [(v0 & [] & _)|[_ ->]]]]. left; reflexivity.
  - cbn [List.map fst] in Hnd. inversion Hnd as [|? ? Hk0 Hnd']; subst.
    cbn [TaskSuitabilityAnalyzer.pushTo].
    destruct (String.eqb_spec k0 type) as [->|Hne].
    + cbn [In List.map fst]. split.
      * intros [E|Hin].
        -- injection E as <- <-. right. split; [reflexivity|]. left.
           exists v0. split; [left; reflexivity | reflexivity].
        -- left. split; [|right; exact Hin].
           intros ->. apply Hk0. apply in_map_iff. exists (type, v). split; [reflexivity | exact Hin].
      * intros [[Hk [E|Hin]]|[-> [(v1 & [E|Hin] & ->)|[Hno _]]]].
        -- injection E as -> _. congruence.
        -- right; exact Hin.
        -- injection E as <-. left; reflexivity.
        -- exfalso. apply Hk0. apply in_map_iff. exists (type, v1). split; [reflexivity | exact Hin].
        -- exfalso. apply Hno. left; reflexivity.
    + cbn [In List.map fst]. rewrite (IH Hnd' k v). split.
      * intros [E|[[Hk Hin]|[-> [(v1 & Hin & ->)|[Hno ->]]]]].
        -- injection E as <- <-. left. split; [exact Hne | left; reflexivity].
        -- left. split; [exact Hk | right; exact Hin].
        -- right. split; [reflexivity|]. left. exists v1. split; [right; exact Hin | reflexivity].
        -- right. split; [reflexivity|]. right. split; [|reflexivity].
           intros [E|Hin]; [congruence | exact (Hno Hin)].
      * intros [[Hk [E|Hin]]|[-> [(v1 & [E|Hin] & ->)|[Hno ->]]]].
        -- left; exact E.
        -- right. left. split; assumption.
        -- injection E as E _. congruence.
        -- right. right. split; [reflexivity|]. left. exists v1. split; [exact Hin | reflexivity].
        -- right. right. split; [reflexivity|]. right. split; [|reflexivity].
           intros Hin. apply Hno. right; exact Hin.
Qed.

Lemma filter_push {T} (f : T -> bool) (l : list T) (x : T) :
  List.filter f (JS.push l x) = (List.filter f l ++ if f x then [x] else [])%list.
Proof. unfold JS.push. rewrite filter_app. cbn. destruct (f x); reflexivity. Qed.

(** The groups after the subtasks [done] have been processed. *)
Lemma groups_invariant (subtasks : list SubTask.t) :
  forall (done : list SubTask.t) (groups : TaskSuitabilityAnalyzer.Groups),
  (NoDup (List.map fst groups)
   /\ forall k v,
        In (k, v) groups
        <-> v = List.filter (fun st => String.eqb
                               (TaskSuitabilityAnalyzer.categorizeSubtask (SubTask.title st)) k)
                            done
            /\ v <> []) ->
  let groups' :=
    List.fold_left
      (fun groups subtask =>
         TaskSuitabilityAnalyzer.pushTo
           (TaskSuitabilityAnalyzer.categorizeSubtask (SubTask.title subtask)) subtask groups)
      subtasks groups in
  NoDup (List.map fst groups')
  /\ forall k v,
       In (k, v) groups'
       <-> v = List.filter (fun st => String.eqb
                              (TaskSuitabilityAnalyzer.categorizeSubtask (SubTask.title st)) k)
                           (done ++ subtasks)
           /\ v <> [].
Proof.
  induction subtasks as [|st subtasks IH]; intros done groups [Hnd Hin].
  - cbn. rewrite app_nil_r. split; assumption.
  - cbn [List.fold_left].
    replace (done ++ st :: subtasks)%list with (JS.push done st ++ subtasks)%list
      by (unfold JS.push; rewrite <- app_assoc; reflexivity).
    apply IH. split; [now apply pushTo_NoDup|].
    intros k v. rewrite (pushTo_In _ st Hnd), filter_push.
    set (c := TaskSuitabilityAnalyzer.categorizeSubtask (SubTask.title st)).
    destruct (String.eqb_spec c k) as [E|Hne].
    + subst k. split.
      * intros [[Hk _]|[_ [(v0 & Hv0 & ->)|[Hno ->]]]]; [congruence| |].
        -- apply Hin in Hv0 as [-> _]. split; [reflexivity|].
           unfold JS.push. intros E. apply app_eq_nil in E as [_ E]. discriminate.
        -- split; [|discriminate].
           destruct (List.filter _ done) as [|s0 r] eqn:Ef; [reflexivity|].
           exfalso. apply Hno. apply in_map_iff. exists (c, s0 :: r). split; [reflexivity|].
           apply Hin. split; [symmetry; exact Ef | discriminate].
      * intros [-> _]. right. split; [reflexivity|].
        destruct (List.filter _ done) as [|s0 r] eqn:Ef.
        -- right. split; [|reflexivity].
           intros Hk. apply in_map_iff in Hk as ([k v] & Ek & Hkv). cbn in Ek. subst k.
           apply Hin in Hkv as [-> Hv]. apply Hv. exact Ef.
        -- left. exists (s0 :: r). split; [|reflexivity].
           apply Hin. split; [symmetry; exact Ef | discriminate].
    + rewrite app_nil_r. split.
      * intros [[_ Hkv]|[-> _]]; [apply Hin; exact Hkv | congruence].
      * intros Hkv. left. split; [congruence | apply Hin; exact Hkv].
Qed.

Lemma groups_spec (subtasks : list SubTask.t) :
  NoDup (List.map fst (TaskSuitabilityAnalyzer.groupSubtasksByType subtasks))
  /\ forall k v,
       In (k, v) (TaskSuitabilityAnalyzer.groupSubtasksByType subtasks)
       <-> v = List.filter (fun st => String.eqb
                              (TaskSuitabilityAnalyzer.categorizeSubtask (SubTask.title st)) k)
                           subtasks
           /\ v <> [].
Proof.
  apply (@groups_invariant subtasks [] []). split; [constructor|].
  intros k v. cbn. split; [intros [] | intros [-> Hv]; apply Hv; reflexivity].
Qed.

(** X16: [groupSubtasksByType] partitions the subtasks by category: no
    category occurs twice, and the group of a category holds exactly the
    subtasks of that category, in their order, and is never empty. *)
Theorem groupSubtasksByType_partition (subtasks : list SubTask.t) :
  NoDup (List.map fst (TaskSuitabilityAnalyzer.groupSubtasksByType subtasks))
  /\ forall k v,
       In (k, v) (TaskSuitabilityAnalyzer.groupSubtasksByType subtasks)
       <-> v = List.filter (fun st => String.eqb
                              (TaskSuitabilityAnalyzer.categorizeSubtask (SubTask.title st)) k)
                           subtasks
           /\ v <> [].
Proof. exact (groups_spec subtasks). Qed.

End Grouping.

Section Suggestions.
Context {H : Host}.

Lemma suggestPriorityForGroup_not_D (subtasks : list SubTask.t) :
  (2 <= List.length subtasks)%nat ->
  TaskSuitabilityAnalyzer.suggestPriorityForGroup subtasks <> TaskPriority.D.
Proof.
  intros Hl. unfold TaskSuitabilityAnalyzer.suggestPriorityForGroup.
  set (sum := List.fold_left _ _ _). set (count := Z.of_nat _).
  assert (Hc : (count >=? 2) = true) by (apply Z.geb_le; unfold count; lia).
  rewrite Hc, orb_true_r.
  repeat match goal with |- context [if ?b then _ else _] => destruct b end; discriminate.
Qed.

Lemma suggestionOfGroup_In (task : EnhancedTodoItem.t) (groups : TaskSuitabilityAnalyzer.Groups) :
  forall acc s,
    In s (List.fold_left (TaskSuitabilityAnalyzer.suggestionOfGroup task) groups acc) ->
    In s acc
    \/ exists k v, In (k, v) groups /\ (2 <= List.length v)%nat
                   /\ bd_priority s = TaskSuitabilityAnalyzer.suggestPriorityForGroup v
                   /\ bd_estimatedTime s = timePerTask (PRIORITY_TIME_RATIOS (bd_priority s))
                   /\ bd_subtasks s = List.map SubTask.title v.
Proof.
  induction groups as [|[k v] groups IH]; intros acc s Hs; [now left|].
  cbn [List.fold_left] in Hs. apply IH in Hs.
  destruct Hs as [Hs|(k' & v' & Hin & Hrest)];
    [|right; exists k', v'; split; [right; exact Hin | exact Hrest]].
  unfold TaskSuitabilityAnalyzer.suggestionOfGroup in Hs.
  destruct (2 <=? List.length v)%nat eqn:E; [|now left].
  apply In_push in Hs. destruct Hs as [Hs| ->]; [now left|].
  right. exists k, v. split; [left; reflexivity|]. apply Nat.leb_le in E.
  repeat split; [exact E].
Qed.

(** X17: every suggestion of [suggestBreakdown] has a tier other than D,
    carries the time of its tier (30 or 10 minutes), and lists titles of
    subtasks of the task. *)
Theorem suggestBreakdown_tiers (task : EnhancedTodoItem.t) (s : TaskBreakdownSuggestion) :
  In s (TaskSuitabilityAnalyzer.suggestBreakdown task) ->
  bd_priority s <> TaskPriority.D
  /\ bd_estimatedTime s = timePerTask (PRIORITY_TIME_RATIOS (bd_priority s))
  /\ (bd_estimatedTime s = 30 \/ bd_estimatedTime s = 10)
  /\ bd_subtasks s <> []
  /\ incl (bd_subtasks s) (List.map SubTask.title (EnhancedTodoItem.subtasks task)).
Proof.
  intros Hs.
  assert (Hmain : bd_priority s <> TaskPriority.D
                  /\ bd_estimatedTime s = timePerTask (PRIORITY_TIME_RATIOS (bd_priority s))
                  /\ bd_subtasks s <> []
                  /\ incl (bd_subtasks s) (List.map SubTask.title (EnhancedTodoItem.subtasks task))).
  { unfold TaskSuitabilityAnalyzer.suggestBreakdown in Hs. cbv zeta in Hs.
    assert (Hcat : forall s,
               In s (List.fold_left (TaskSuitabilityAnalyzer.suggestionOfGroup task)
                       (TaskSuitabilityAnalyzer.groupSubtasksByType
                          (EnhancedTodoItem.subtasks task)) []) ->
               bd_priority s <> TaskPriority.D
               /\ bd_estimatedTime s = timePerTask (PRIORITY_TIME_RATIOS (bd_priority s))
               /\ bd_subtasks s <> []
               /\ incl (bd_subtasks s)
                       (List.map SubTask.title (EnhancedTodoItem.subtasks task))).
    { intros s0 Hs0. apply suggestionOfGroup_In in Hs0.
      destruct Hs0 as [[]|(k & v & Hin & Hl & Hp & Ht & Hsub)].
      apply (proj2 (groups_spec _)) in Hin as [Hv _].
      split; [rewrite Hp; now apply suggestPriorityForGroup_not_D|].
      split; [exact Ht|]. split.
      - rewrite Hsub. destruct v; [cbn in Hl; lia | discriminate].
      - rewrite Hsub, Hv. intros t Ht'. apply in_map_iff in Ht' as (st & <- & Hst).
        apply filter_In in Hst as [Hst _]. now apply in_map. }
    destruct ((List.length _ =? 0)%nat && (6 <? _)%nat); [|now apply Hcat].
    apply in_app_iff in Hs as [Hs|Hs]; [now apply Hcat|].
    unfold TaskSuitabilityAnalyzer.suggestComplexityBasedBreakdown in Hs. cbv zeta in Hs.
    repeat match type of Hs with
           | context [if (0 <? ?n)%nat then _ else _] => destruct (Nat.ltb_spec 0 n)
           end;
      rewrite ?In_push in Hs; cbn [In] in Hs;
      repeat match type of Hs with
             | _ \/ _ => destruct Hs as [Hs|Hs]
             | False => destruct Hs
             end; subst s; cbn [bd_priority bd_estimatedTime bd_subtasks];
      (split; [try discriminate; destruct (4 <=? _)%nat; discriminate|]);
      (split; [reflexivity|]);
      (split; [match goal with
               | Hl : (0 < List.length ?l)%nat |- List.map _ ?l <> [] =>
                   destruct l; [cbn in Hl; lia | discriminate]
               end|]);
      intros t Ht'; apply in_map_iff in Ht' as (st & <- & Hst);
      apply filter_In in Hst as [Hst _]; now apply in_map. }
  destruct Hmain as (Hp & Ht & Hne & Hincl).
  repeat split; try assumption.
  rewrite Ht. destruct (bd_priority s); cbn; auto. congruence.
Qed.

End Suggestions.

Lemma suggestBreakdown_tiers_witness :
  bd_priority complexTasksSuggestion <> TaskPriority.D
  /\ bd_estimatedTime complexTasksSuggestion = 30.
Proof.
  assert (Hin : In complexTasksSuggestion
                   (TaskSuitabilityAnalyzer.suggestBreakdown
                      (exampleTask TaskPriority.A true sevenCategories)))
    by (vm_compute; left; reflexivity).
  destruct (@suggestBreakdown_tiers exampleHost _ _ Hin) as (Hp & Ht & _).
  split; [exact Hp | exact Ht].
Defined.

Section Fallback.
Context {H : Host}.

Lemma categorizeSubtask_names (title : string) :
  In (TaskSuitabilityAnalyzer.categorizeSubtask title) categoryNames.
Proof.
  unfold TaskSuitabilityAnalyzer.categorizeSubtask, categoryNames.
  repeat match goal with |- context [if ?b then _ else _] => destruct b end;
    cbn; tauto.
Qed.

Lemma no_suggestion_small_groups (task : EnhancedTodoItem.t)
    (groups : TaskSuitabilityAnalyzer.Groups) :
  forall acc,
    List.fold_left (TaskSuitabilityAnalyzer.suggestionOfGroup task) groups acc = [] ->
    acc = [] /\ forall k v, In (k, v) groups -> (List.length v < 2)%nat.
Proof.
  induction groups as [|[k v] groups IH]; intros acc E.
  - split; [exact E | intros k v []].
  - cbn [List.fold_left] in E. apply IH in E as [E Hrest].
    unfold TaskSuitabilityAnalyzer.suggestionOfGroup in E.
    destruct (Nat.leb_spec 2 (List.length v)) as [Hl|Hl].
    + unfold JS.push in E. apply app_eq_nil in E as [_ E]. discriminate.
    + split; [exact E|]. intros k' v' [Ekv|Hin]; [|now apply (Hrest k')].
      injection Ekv as <- <-. exact Hl.
Qed.

Lemma NoDup_map_filter {T} (f : T -> string) (l : list T) :
  (forall k, (List.length (List.filter (fun x => String.eqb (f x) k) l) < 2)%nat) ->
  NoDup (List.map f l).
Proof.
  induction l as [|a l IH]; intros Hf; [constructor|].
  cbn [List.map]. constructor.
  - intros Hin. apply in_map_iff in Hin as (b & Eb & Hb).
    specialize (Hf (f a)). cbn [List.filter] in Hf. rewrite String.eqb_refl in Hf.
    cbn [List.length] in Hf.
    assert (Hbf : In b (List.filter (fun x => String.eqb (f x) (f a)) l))
      by (apply filter_In; split; [exact Hb | apply String.eqb_eq; exact Eb]).
    destruct (List.filter _ l); [destruct Hbf | cbn in Hf; lia].
  - apply IH. intros k. specialize (Hf k). cbn [List.filter] in Hf.
    destruct (String.eqb (f a) k); cbn [List.length] in Hf; lia.
Qed.

(** X18: the complexity-band fallback of [suggestBreakdown] is reached only
    by a task with seven or eight subtasks whose categories are pairwise
    different; every other task gets the suggestions by category (possibly
    none). *)
Theorem suggestBreakdown_fallback_rare (task : EnhancedTodoItem.t) :
  TaskSuitabilityAnalyzer.suggestBreakdown task
  = List.fold_left (TaskSuitabilityAnalyzer.suggestionOfGroup task)
      (TaskSuitabilityAnalyzer.groupSubtasksByType (EnhancedTodoItem.subtasks task)) []
  \/ (TaskSuitabilityAnalyzer.suggestBreakdown task
      = TaskSuitabilityAnalyzer.suggestComplexityBasedBreakdown task
      /\ (7 <= List.length (EnhancedTodoItem.subtasks task) <= 8)%nat
      /\ NoDup (List.map (fun st => TaskSuitabilityAnalyzer.categorizeSubtask (SubTask.title st))
                         (EnhancedTodoItem.subtasks task))).
Proof.
  unfold TaskSuitabilityAnalyzer.suggestBreakdown. cbv zeta.
  destruct ((List.length _ =? 0)%nat && (6 <? _)%nat) eqn:E; [|left; reflexivity].
  right. apply andb_prop in E as [E0 E6].
  apply Nat.eqb_eq in E0. apply Nat.ltb_lt in E6.
  apply length_zero_iff_nil in E0. rewrite E0. split; [reflexivity|].
  apply no_suggestion_small_groups in E0 as [_ Hsmall].
  assert (Hnd : NoDup (List.map (fun st => TaskSuitabilityAnalyzer.categorizeSubtask
                                             (SubTask.title st))
                                (EnhancedTodoItem.subtasks task))).
  { apply NoDup_map_filter. intros k.
    destruct (List.filter _ _) as [|s0 r] eqn:Ef; [cbn; lia|].
    rewrite <- Ef. apply (Hsmall k). apply (proj2 (groups_spec _)).
    split; [reflexivity | rewrite Ef; discriminate]. }
  split; [|exact Hnd]. split; [lia|].
  apply (NoDup_incl_length (l' := categoryNames)) in Hnd.
  - rewrite length_map in Hnd. exact Hnd.
  - intros c Hc. apply in_map_iff in Hc as (st & <- & _). apply categorizeSubtask_names.
Qed.

End Fallback.

Section GroupSizes.
Context {H : Host}.

(** The suggestions of the loop over the groups: one for each group of two
    subtasks or more, in the order of the groups. *)
Lemma suggestionOfGroup_outline (task : EnhancedTodoItem.t)
    (groups : TaskSuitabilityAnalyzer.Groups) :
  forall acc,
    List.map outline (List.fold_left (TaskSuitabilityAnalyzer.suggestionOfGroup task) groups acc)
    = (List.map outline acc
       ++ List.map (entitled (EnhancedTodoItem.title task))
            (List.filter (fun g => (2 <=? List.length (snd g))%nat) groups))%list.
Proof.
  induction groups as [|[k v] groups IH]; intros acc.
  - cbn. rewrite app_nil_r. reflexivity.
  - cbn [List.fold_left List.filter snd]. rewrite IH.
    unfold TaskSuitabilityAnalyzer.suggestionOfGroup.
    destruct (2 <=? List.length v)%nat; [|reflexivity].
    unfold JS.push. rewrite map_app, <- app_assoc. reflexivity.
Qed.

(** The groups of two subtasks or more are the categories of two subtasks
    or more. *)
Lemma large_group_spec (subtasks : list SubTask.t) (g : string * list SubTask.t) :
  In g (List.filter (fun g => (2 <=? List.length (snd g))%nat)
          (TaskSuitabilityAnalyzer.groupSubtasksByType subtasks))
  <-> snd g = ofCategory (fst g) subtasks
      /\ (2 <= List.length (ofCategory (fst g) subtasks))%nat.
Proof.
  destruct g as [k v]. cbn [fst snd]. rewrite filter_In. cbn [snd].
  rewrite (proj2 (groups_spec subtasks) k v). fold (ofCategory k subtasks).
  rewrite Nat.leb_le. split.
  - intros [[-> _] Hl]. split; [reflexivity | exact Hl].
  - intros [-> Hl]. repeat split; [|exact Hl].
    intros E. rewrite E in Hl. cbn in Hl. lia.
Qed.

(** The fallback: a suggestion for each band that is not empty, the three
    bands in their order. *)
Lemma suggestComplexityBasedBreakdown_outline (task : EnhancedTodoItem.t) :
  List.map outline (TaskSuitabilityAnalyzer.suggestComplexityBasedBreakdown task)
  = List.map (entitled (EnhancedTodoItem.title task))
      (List.filter (fun band => negb (isEmpty (snd band)))
         (complexityBands (EnhancedTodoItem.subtasks task))).
Proof.
  unfold TaskSuitabilityAnalyzer.suggestComplexityBasedBreakdown, complexityBands. cbv zeta.
  set (subtasks := EnhancedTodoItem.subtasks task).
  assert (Eh : List.filter (fun st => SubTask.complexity st >=? 4) subtasks
               = List.filter (fun st => 4 <=? SubTask.complexity st) subtasks).
  { apply filter_ext. intros st. apply Z.geb_leb. }
  assert (Em : List.filter (fun st => (SubTask.complexity st >=? 2)
                                      && (SubTask.complexity st <? 4)) subtasks
               = List.filter (fun st => (2 <=? SubTask.complexity st)
                                        && (SubTask.complexity st <=? 3)) subtasks).
  { apply filter_ext. intros st. rewrite Z.geb_leb. f_equal.
    destruct (Z.ltb_spec (SubTask.complexity st) 4), (Z.leb_spec (SubTask.complexity st) 3);
      first [reflexivity | lia]. }
  assert (El : List.filter (fun st => SubTask.complexity st <? 2) subtasks
               = List.filter (fun st => SubTask.complexity st <=? 1) subtasks).
  { apply filter_ext. intros st.
    destruct (Z.ltb_spec (SubTask.complexity st) 2), (Z.leb_spec (SubTask.complexity st) 1);
      first [reflexivity | lia]. }
  rewrite Eh, Em, El.
  cbn [List.filter snd].
  destruct (List.filter (fun st => 4 <=? SubTask.complexity st) subtasks) as [|h hs];
    destruct (List.filter (fun st => (2 <=? SubTask.complexity st)
                                     && (SubTask.complexity st <=? 3)) subtasks) as [|m ms];
    destruct (List.filter (fun st => SubTask.complexity st <=? 1) subtasks) as [|l ls];
    reflexivity.
Qed.

Lemma NoDup_keys_filter {K V : Type} (f : K * V -> bool) (l : list (K * V)) :
  NoDup (List.map fst l) -> NoDup (List.map fst (List.filter f l)).
Proof.
  induction l as [|g l IH]; intros Hnd; [constructor|].
  cbn [List.map] in Hnd. inversion Hnd as [|? ? Hg Hnd']; subst.
  cbn [List.filter]. destruct (f g); [|apply IH; exact Hnd'].
  cbn [List.map]. constructor; [|apply IH; exact Hnd'].
  intros Hin. apply Hg. apply in_map_iff in Hin as (g' & E & Hg').
  apply filter_In in Hg' as [Hg' _]. apply in_map_iff. exists g'. split; assumption.
Qed.

Lemma NoDup_categoryNames : NoDup categoryNames.
Proof.
  unfold categoryNames.
  repeat (constructor; [cbn [In]; intros Hin;
                        repeat (destruct Hin as [Hin|Hin]; [discriminate Hin|]);
                        exact Hin|]).
  constructor.
Qed.

(** As many groups of two subtasks or more as categories of two subtasks
    or more. *)
Lemma large_groups_count (subtasks : list SubTask.t) :
  List.length (List.filter (fun g => (2 <=? List.length (snd g))%nat)
                 (TaskSuitabilityAnalyzer.groupSubtasksByType subtasks))
  = List.length (List.filter
                   (fun category => (2 <=? List.length (ofCategory category subtasks))%nat)
                   categoryNames).
Proof.
  set (large := List.filter _ (TaskSuitabilityAnalyzer.groupSubtasksByType subtasks)).
  set (names := List.filter _ categoryNames).
  rewrite <- (length_map fst large).
  assert (Hl : NoDup (List.map fst large))
    by (apply NoDup_keys_filter; apply (proj1 (groups_spec subtasks))).
  assert (Hn : NoDup names) by (apply NoDup_filter; apply NoDup_categoryNames).
  assert (Hiff : forall category, In category (List.map fst large) <-> In category names).
  { intros category. unfold names. rewrite filter_In, Nat.leb_le, in_map_iff. split.
    - intros (g & <- & Hg). apply large_group_spec in Hg as [_ Hg]. split; [|exact Hg].
      destruct (ofCategory (fst g) subtasks) as [|st l] eqn:E; [cbn in Hg; lia|].
      assert (Hst : In st (ofCategory (fst g) subtasks)) by (rewrite E; left; reflexivity).
      apply filter_In in Hst as [_ Hst]. apply String.eqb_eq in Hst. rewrite <- Hst.
      apply categorizeSubtask_names.
    - intros [_ Hg]. exists (category, ofCategory category subtasks).
      split; [reflexivity|]. apply large_group_spec. cbn [fst snd]. auto. }
  apply Nat.le_antisymm; apply NoDup_incl_length; try assumption;
    intros category Hc; apply Hiff; exact Hc.
Qed.

Lemma map_outline_nil (l : list TaskBreakdownSuggestion) : List.map outline l = [] -> l = [].
Proof. destruct l; [reflexivity | discriminate]. Qed.

(** C7 (as the code has it): every category of two subtasks or more gets a
    suggestion, which lists the titles of the subtasks of the category, and
    then every suggestion is of that kind, so it holds at least 2 titles,
    and there are as many suggestions as such categories;
    the complexity-band fallback is used only when no category has two
    subtasks and the task has more than 6 subtasks (without such a category
    a task of 6 subtasks or fewer gets no suggestion); the fallback makes a
    suggestion for every band that is not empty, so a fallback suggestion
    holds at least 1 title and can hold a single one; the output is a
    function of the task title and the subtasks alone. *)
Theorem suggestBreakdown_group_sizes (task : EnhancedTodoItem.t) :
  let subtasks := EnhancedTodoItem.subtasks task in
  let title := EnhancedTodoItem.title task in
  (forall s, In s (TaskSuitabilityAnalyzer.suggestBreakdown task) ->
     (2 <= List.length (bd_subtasks s))%nat
     \/ (In s (TaskSuitabilityAnalyzer.suggestComplexityBasedBreakdown task)
         /\ (6 < List.length subtasks)%nat
         /\ (1 <= List.length (bd_subtasks s))%nat))
  /\ (forall category,
        (2 <= List.length (ofCategory category subtasks))%nat ->
        In (entitled title (category, ofCategory category subtasks))
           (List.map outline (TaskSuitabilityAnalyzer.suggestBreakdown task))
        /\ (forall s, In s (TaskSuitabilityAnalyzer.suggestBreakdown task) ->
              exists category',
                (2 <= List.length (ofCategory category' subtasks))%nat
                /\ outline s = entitled title (category', ofCategory category' subtasks))
        /\ List.length (TaskSuitabilityAnalyzer.suggestBreakdown task)
           = List.length
               (List.filter
                  (fun category' => (2 <=? List.length (ofCategory category' subtasks))%nat)
                  categoryNames))
  /\ ((forall category, (List.length (ofCategory category subtasks) < 2)%nat) ->
        TaskSuitabilityAnalyzer.suggestBreakdown task
        = if (6 <? List.length subtasks)%nat
          then TaskSuitabilityAnalyzer.suggestComplexityBasedBreakdown task
          else [])
  /\ List.map outline (TaskSuitabilityAnalyzer.suggestComplexityBasedBreakdown task)
     = List.map (entitled title)
         (List.filter (fun band => negb (isEmpty (snd band))) (complexityBands subtasks))
  /\ (forall task' : EnhancedTodoItem.t,
        EnhancedTodoItem.title task' = EnhancedTodoItem.title task ->
        EnhancedTodoItem.subtasks task' = EnhancedTodoItem.subtasks task ->
        TaskSuitabilityAnalyzer.suggestBreakdown task'
        = TaskSuitabilityAnalyzer.suggestBreakdown task).
Proof.
  intros subtasks title.
  pose proof (suggestionOfGroup_outline task
                (TaskSuitabilityAnalyzer.groupSubtasksByType subtasks) []) as Hout.
  cbn [List.map app] in Hout. fold title in Hout.
  split; [|split; [|split; [|split]]].
  - intros s. unfold TaskSuitabilityAnalyzer.suggestBreakdown. cbv zeta.
    destruct ((List.length _ =? 0)%nat && (6 <? _)%nat) eqn:E.
    + apply Bool.andb_true_iff in E. destruct E as [E0 E6].
      apply Nat.eqb_eq in E0. apply Nat.ltb_lt in E6.
      rewrite in_app_iff. intros [Hs | Hs].
      * apply suggestionOfGroup_sizes in Hs. destruct Hs as [[] | Hs]. now left.
      * right. repeat split; auto. now apply suggestComplexityBasedBreakdown_sizes in Hs.
    + intro Hs. apply suggestionOfGroup_sizes in Hs. destruct Hs as [[] | Hs]. now left.
  - intros category Hl.
    assert (Hin : In (entitled title (category, ofCategory category subtasks))
                    (List.map outline
                       (List.fold_left (TaskSuitabilityAnalyzer.suggestionOfGroup task)
                          (TaskSuitabilityAnalyzer.groupSubtasksByType subtasks) []))).
    { rewrite Hout. apply in_map. apply large_group_spec. cbn [fst snd]. auto. }
    assert (Eb : TaskSuitabilityAnalyzer.suggestBreakdown task
                 = List.fold_left (TaskSuitabilityAnalyzer.suggestionOfGroup task)
                     (TaskSuitabilityAnalyzer.groupSubtasksByType subtasks) []).
    { unfold TaskSuitabilityAnalyzer.suggestBreakdown. cbv zeta. fold subtasks.
      destruct (List.fold_left _ _ _) as [|s0 l]; [destruct Hin | reflexivity]. }
    rewrite Eb. split; [exact Hin|]. split.
    + intros s Hs. apply (in_map outline) in Hs. rewrite Hout in Hs.
      apply in_map_iff in Hs as (g & Eg & Hg).
      apply large_group_spec in Hg as [Ev Hg].
      exists (fst g). split; [exact Hg|]. rewrite <- Eg, <- Ev. destruct g; reflexivity.
    + rewrite <- large_groups_count.
      rewrite <- (length_map outline), Hout, length_map. reflexivity.
  - intros Hsmall.
    assert (En : List.filter (fun g => (2 <=? List.length (snd g))%nat)
                   (TaskSuitabilityAnalyzer.groupSubtasksByType subtasks) = []).
    { destruct (List.filter _ _) as [|g l] eqn:E; [reflexivity|].
      assert (Hg : In g (g :: l)) by (left; reflexivity).
      rewrite <- E in Hg. apply large_group_spec in Hg as [_ Hg].
      specialize (Hsmall (fst g)). lia. }
    rewrite En in Hout. apply map_outline_nil in Hout.
    unfold TaskSuitabilityAnalyzer.suggestBreakdown. cbv zeta. fold subtasks.
    rewrite Hout. cbn [List.length Nat.eqb andb app].
    destruct (6 <? List.length subtasks)%nat; reflexivity.
  - apply suggestComplexityBasedBreakdown_outline.
  - intros task' Ht Hs. unfold TaskSuitabilityAnalyzer.suggestBreakdown.
    unfold TaskSuitabilityAnalyzer.suggestComplexityBasedBreakdown.
    rewrite Hs, Ht. now rewrite (suggestionOfGroup_title _ Ht).
Qed.

End GroupSizes.

(** Seven subtasks of seven categories: no category groups two of them, the
    fallback runs, and its band of high complexity holds a single subtask. *)
Lemma suggestBreakdown_single_member_group :
  List.map (fun s => (bd_title s, bd_subtasks s))
    (TaskSuitabilityAnalyzer.suggestBreakdown (exampleTask TaskPriority.A true sevenCategories))
  = [("Release - Complex Tasks", ["Deploy and integrate server"]);
     ("Release - Standard Tasks", ["Design logo"; "Implement login"; "Research vendors"]);
     ("Release - Quick Tasks", ["Test checkout"; "Document API"; "Plan sprint"])]
  /\ ~ (forall s,
         In s (TaskSuitabilityAnalyzer.suggestBreakdown
                 (exampleTask TaskPriority.A true sevenCategories)) ->
         (2 <= List.length (bd_subtasks s))%nat).
Proof.
  split; [vm_compute; reflexivity |].
  intro Hall.
  assert (Hin : In complexTasksSuggestion
                   (TaskSuitabilityAnalyzer.suggestBreakdown
                      (exampleTask TaskPriority.A true sevenCategories)))
    by (vm_compute; left; reflexivity).
  apply Hall in Hin. cbn in Hin. apply Nat.nle_succ_diag_l in Hin. exact Hin.
Qed.

Lemma suggestBreakdown_group_sizes_witness :
  (In complexTasksSuggestion
      (TaskSuitabilityAnalyzer.suggestBreakdown (exampleTask TaskPriority.A true sevenCategories))
   /\ (1 <= List.length (bd_subtasks complexTasksSuggestion))%nat)
  /\ ((2 <= List.length (ofCategory "Design"
                           [exampleSubtask "s0" "Design logo" 2;
                            exampleSubtask "s1" "Design icons" 2]))%nat
      /\ In ("Release - Design", ["Design logo"; "Design icons"])
            (List.map outline
               (TaskSuitabilityAnalyzer.suggestBreakdown
                  (exampleTask TaskPriority.C true
                     [exampleSubtask "s0" "Design logo" 2;
                      exampleSubtask "s1" "Design icons" 2])))).
Proof.
  split.
  - assert (Hin : In complexTasksSuggestion
                     (TaskSuitabilityAnalyzer.suggestBreakdown
                        (exampleTask TaskPriority.A true sevenCategories)))
      by (vm_compute; left; reflexivity).
    split; [exact Hin |].
    destruct (proj1 (@suggestBreakdown_group_sizes exampleHost _) _ Hin)
      as [H2 | (_ & _ & H1)]; [| exact H1].
    apply Nat.le_trans with (2 := H2). repeat constructor.
  - assert (Hl : (2 <= List.length (ofCategory "Design"
                                      [exampleSubtask "s0" "Design logo" 2;
                                       exampleSubtask "s1" "Design icons" 2]))%nat)
      by (vm_compute; repeat constructor).
    split; [exact Hl |].
    exact (proj1 (proj1 (proj2 (@suggestBreakdown_group_sizes exampleHost
                                  (exampleTask TaskPriority.C true
                                     [exampleSubtask "s0" "Design logo" 2;
                                      exampleSubtask "s1" "Design icons" 2])))
                    "Design" Hl)).
Defined.

Section Views.
Context {H : Host}.

(** X19: the count of tasks completed today that [renderStats] shows is 0
    whatever the tasks are: [getTodaysAssignedTasks] has already left the
    completed ones out. *)
Theorem completedToday_always_zero (allTasks : list EnhancedTodoItem.t) :
  EnhancedTodoView.completedToday allTasks = 0%nat.
Proof.
  unfold EnhancedTodoView.completedToday, EnhancedTodoPlugin.getTodaysAssignedTasks.
  induction allTasks as [|t l IH]; [reflexivity|].
  cbn [List.filter].
  destruct (EnhancedTodoItem.isAssignedToday t); cbn [andb]; [|exact IH].
  destruct (EnhancedTodoItem.isCompleted t) eqn:E; cbn [negb]; [exact IH|].
  cbn [List.filter]. rewrite E. exact IH.
Qed.

Lemma filter_filter {T} (f g : T -> bool) (l : list T) :
  List.filter f (List.filter g l) = List.filter (fun x => g x && f x) l.
Proof.
  induction l as [|a l IH]; [reflexivity|]. cbn.
  destruct (g a); cbn; [destruct (f a)|]; rewrite IH; reflexivity.
Qed.

Lemma getFilteredTasks_filter (currentFilter : ViewFilter) (showCompletedTasks : bool)
    (currentPriorityFilter : option TaskPriority.t) (allTodos : list EnhancedTodoItem.t) :
  EnhancedTodoView.getFilteredTasks currentFilter showCompletedTasks currentPriorityFilter allTodos
  = List.filter
      (fun t =>
         match currentFilter with
         | filter_today => EnhancedTodoItem.isAssignedToday t
         | filter_scheduled =>
             EnhancedTodoView.isSet (EnhancedTodoItem.assignedDate t)
             && negb (EnhancedTodoItem.isAssignedToday t)
         | filter_inbox =>
             negb (EnhancedTodoItem.isAssignedToday t)
             && negb (EnhancedTodoView.isSet (EnhancedTodoItem.assignedDate t))
         | filter_all => true
         end
         && (showCompletedTasks || negb (EnhancedTodoItem.isCompleted t))
         && match currentPriorityFilter with
            | Some p => TaskPriority.eqb (EnhancedTodoItem.priority t) p
            | None => true
            end)
      allTodos.
Proof.
  unfold EnhancedTodoView.getFilteredTasks.
  assert (Hall : forall l : list EnhancedTodoItem.t, l = List.filter (fun _ => true) l)
    by (induction l as [|a l IH]; cbn; congruence).
  destruct currentFilter, showCompletedTasks, currentPriorityFilter; cbn [negb orb];
    rewrite ?filter_filter; try rewrite (Hall allTodos) at 1; rewrite ?filter_filter;
    apply filter_ext; intros x; cbn [andb];
    rewrite ?andb_true_r, ?andb_assoc; reflexivity.
Qed.

Lemma filter_length_split {T} (f p q r : T -> bool) (l : list T) :
  (forall x, (Nat.b2n (p x) + Nat.b2n (q x) + Nat.b2n (r x) = 1)%nat) ->
  List.length (List.filter f l)
  = (List.length (List.filter (fun x => p x && f x) l)
     + List.length (List.filter (fun x => q x && f x) l)
     + List.length (List.filter (fun x => r x && f x) l))%nat.
Proof.
  intros Hone. induction l as [|a l IH]; [reflexivity|]. cbn [List.filter].
  specialize (Hone a).
  destruct (f a), (p a), (q a), (r a); cbn in Hone; try discriminate Hone;
    cbn [andb List.length]; lia.
Qed.

(** X20: with the same settings, every task that the view lists under
    'all' is listed under exactly one of 'today', 'scheduled' and 'inbox';
    without completed tasks and without a tier filter, 'today' is the
    plugin's [getTodaysAssignedTasks] and 'scheduled' and 'inbox' together
    have as many tasks as [getUnassignedTasks]. *)
Theorem getFilteredTasks_partition (showCompletedTasks : bool)
    (currentPriorityFilter : option TaskPriority.t) (allTodos : list EnhancedTodoItem.t) :
  let view := fun f =>
    EnhancedTodoView.getFilteredTasks f showCompletedTasks currentPriorityFilter allTodos in
  List.length (view filter_all)
  = (List.length (view filter_today) + List.length (view filter_scheduled)
     + List.length (view filter_inbox))%nat
  /\ (forall t, In t (view filter_all)
                <-> In t (view filter_today) \/ In t (view filter_scheduled)
                    \/ In t (view filter_inbox))
  /\ (forall t, ~ (In t (view filter_today) /\ In t (view filter_scheduled))
                /\ ~ (In t (view filter_today) /\ In t (view filter_inbox))
                /\ ~ (In t (view filter_scheduled) /\ In t (view filter_inbox)))
  /\ EnhancedTodoView.getFilteredTasks filter_today false None allTodos
     = EnhancedTodoPlugin.getTodaysAssignedTasks allTodos
  /\ List.length (EnhancedTodoPlugin.getUnassignedTasks allTodos)
     = (List.length (EnhancedTodoView.getFilteredTasks filter_scheduled false None allTodos)
        + List.length (EnhancedTodoView.getFilteredTasks filter_inbox false None allTodos))%nat.
Proof.
  intro view. unfold view. clear view. rewrite !getFilteredTasks_filter.
  split; [|split; [|split; [|split]]].
  - rewrite (@filter_length_split _
               (fun t => true && (showCompletedTasks || negb (EnhancedTodoItem.isCompleted t))
                         && match currentPriorityFilter with
                            | Some p => TaskPriority.eqb (EnhancedTodoItem.priority t) p
                            | None => true
                            end)
               (fun t => EnhancedTodoItem.isAssignedToday t)
               (fun t => EnhancedTodoView.isSet (EnhancedTodoItem.assignedDate t)
                         && negb (EnhancedTodoItem.isAssignedToday t))
               (fun t => negb (EnhancedTodoItem.isAssignedToday t)
                         && negb (EnhancedTodoView.isSet (EnhancedTodoItem.assignedDate t)))).
    + f_equal; [f_equal|]; f_equal; apply filter_ext; intros t; cbn [andb];
        rewrite ?andb_assoc; reflexivity.
    + intros t. destruct (EnhancedTodoItem.isAssignedToday t),
        (EnhancedTodoView.isSet (EnhancedTodoItem.assignedDate t)); reflexivity.
  - intros t. rewrite !filter_In.
    destruct (EnhancedTodoItem.isAssignedToday t),
      (EnhancedTodoView.isSet (EnhancedTodoItem.assignedDate t)),
      (showCompletedTasks || negb (EnhancedTodoItem.isCompleted t));
      cbn [andb negb]; intuition discriminate.
  - intros t. rewrite !filter_In.
    destruct (EnhancedTodoItem.isAssignedToday t),
      (EnhancedTodoView.isSet (EnhancedTodoItem.assignedDate t));
      cbn [andb negb]; intuition discriminate.
  - unfold EnhancedTodoPlugin.getTodaysAssignedTasks. apply filter_ext. intros t.
    cbn [orb]. rewrite andb_true_r. reflexivity.
  - unfold EnhancedTodoPlugin.getUnassignedTasks.
    cbn [orb].
    induction allTodos as [|t l IH]; [reflexivity|].
    cbn [List.filter].
    destruct (EnhancedTodoItem.isAssignedToday t),
      (EnhancedTodoView.isSet (EnhancedTodoItem.assignedDate t)),
      (EnhancedTodoItem.isCompleted t); cbn [andb negb List.length]; lia.
Qed.

Lemma groupTasksByPriority_fold (tasks : list EnhancedTodoItem.t) :
  forall (groups : TaskPriority.t -> list EnhancedTodoItem.t) (key : TaskPriority.t),
  List.fold_left
    (fun (groups : TaskPriority.t -> list EnhancedTodoItem.t) task =>
       fun k => if TaskPriority.eqb k (EnhancedTodoItem.priority task)
                then JS.push (groups k) task else groups k)
    tasks groups key
  = (groups key
     ++ List.filter (fun t => TaskPriority.eqb key (EnhancedTodoItem.priority t)) tasks)%list.
Proof.
  induction tasks as [|t l IH]; intros groups key; cbn [List.fold_left List.filter].
  - rewrite app_nil_r. reflexivity.
  - rewrite IH. destruct (TaskPriority.eqb key (EnhancedTodoItem.priority t)).
    + unfold JS.push. rewrite <- app_assoc. reflexivity.
    + reflexivity.
Qed.

(** X21: the view's group of a tier holds exactly the tasks of that tier,
    in their order; grouped over the open tasks of the 'all' filter it is
    what the plugin's [getTasksByPriority] returns for the tier. *)
Theorem groupTasksByPriority_is_filter (tasks : list EnhancedTodoItem.t)
    (key : TaskPriority.t) :
  EnhancedTodoView.groupTasksByPriority tasks key
  = List.filter (fun t => TaskPriority.eqb (EnhancedTodoItem.priority t) key) tasks
  /\ EnhancedTodoView.groupTasksByPriority
       (EnhancedTodoView.getFilteredTasks filter_all false None tasks) key
     = EnhancedTodoPlugin.getTasksByPriority key tasks.
Proof.
  assert (Hg : forall l,
             EnhancedTodoView.groupTasksByPriority l key
             = List.filter (fun t => TaskPriority.eqb (EnhancedTodoItem.priority t) key) l).
  { intros l. unfold EnhancedTodoView.groupTasksByPriority.
    rewrite groupTasksByPriority_fold. cbn [app]. apply filter_ext.
    intros t. destruct key, (EnhancedTodoItem.priority t); reflexivity. }
  split; [apply Hg|].
  rewrite Hg. unfold EnhancedTodoView.getFilteredTasks, EnhancedTodoPlugin.getTasksByPriority.
  cbn [negb]. rewrite filter_filter. apply filter_ext. intros t. apply andb_comm.
Qed.

End Views.

(** ** Patterns made of literal words *)

Lemma includes_anyTail (s w : string) : JS.includes s w = anyTail (prefix w) s.
Proof. induction s as [|c s IH]; cbn [JS.includes anyTail]; [|rewrite IH]; reflexivity. Qed.

Lemma anyTail_ext (f g : string -> bool) (s : string) :
  (forall t, f t = g t) -> anyTail f s = anyTail g s.
Proof.
  intros E. induction s as [|c s IH]; cbn [anyTail]; rewrite E; [|rewrite IH]; reflexivity.
Qed.

Lemma existsb_orb {T} (f g : T -> bool) (l : list T) :
  List.existsb (fun x => f x || g x) l = List.existsb f l || List.existsb g l.
Proof.
  induction l as [|a l IH]; [reflexivity|]. cbn [List.existsb]. rewrite IH.
  destruct (f a), (g a), (List.existsb f l), (List.existsb g l); reflexivity.
Qed.

Lemma existsb_ext' {T} (f g : T -> bool) (l : list T) :
  (forall x, f x = g x) -> List.existsb f l = List.existsb g l.
Proof. intros E. induction l as [|a l IH]; cbn; [|rewrite E, IH]; reflexivity. Qed.

Lemma anyTail_words (ws : list string) (s : string) :
  anyTail (fun t => List.existsb (fun w => prefix w t) ws) s
  = List.existsb (fun w => JS.includes s w) ws.
Proof.
  induction s as [|c s IH]; cbn [anyTail].
  - rewrite orb_false_r. apply existsb_ext'. intros w. cbn [JS.includes].
    rewrite orb_false_r. reflexivity.
  - rewrite IH, <- existsb_orb. apply existsb_ext'. intros w. reflexivity.
Qed.

Lemma searchFrom_anyTail (r : regex) (f : string -> bool) :
  (forall i b s, isSome (matchAt r i {| before := b; rest := s |}) = f s) ->
  forall s i b, isSome (searchFrom r i b s) = anyTail f s.
Proof.
  intros Hm. induction s as [|c s IH]; intros i b; cbn [searchFrom anyTail];
    rewrite <- (Hm i b); destruct (matchAt r i _); cbn [isSome orb]; try reflexivity.
  apply IH.
Qed.

Lemma prefix_cons (a c : ascii) (p s : string) :
  prefix (String a p) (String c s) = Ascii.eqb c a && prefix p s.
Proof.
  simpl. destruct (ascii_dec a c) as [->|N].
  - rewrite Ascii.eqb_refl. reflexivity.
  - destruct (Ascii.eqb_spec c a) as [->|_]; [now elim N | reflexivity].
Qed.

Lemma prefix_nil (s : string) : prefix "" s = true.
Proof. destruct s; reflexivity. Qed.

Lemma run_lit (p : string) :
  forall b s cap k,
    run (lit p) {| before := b; rest := s |} cap k
    = if prefix p s
      then k {| before := beforeAfter (String.length p) b s;
                rest := JS.drop (String.length p) s |} cap
      else None.
Proof.
  induction p as [|a p IH]; intros b s cap k.
  - rewrite prefix_nil. cbn [lit run String.length beforeAfter JS.drop]. now destruct s.
  - destruct p as [|a' p'].
    + cbn [lit chr run rest String.length].
      destruct s as [|c s]; [reflexivity|].
      rewrite prefix_cons, prefix_nil, andb_true_r.
      cbn [beforeAfter JS.drop]. rewrite (Ascii.eqb_sym a c).
      destruct (Ascii.eqb c a); [|reflexivity].
      unfold advance. now destruct s.
    + change (lit (String a (String a' p'))) with (Seq (chr a) (lit (String a' p'))).
      cbn [run chr rest]. destruct s as [|c s]; [reflexivity|].
      rewrite prefix_cons, (Ascii.eqb_sym a c).
      destruct (Ascii.eqb c a); [|reflexivity].
      cbn [andb]. unfold advance. rewrite IH. reflexivity.
Qed.

Lemma run_words (ws : list string) :
  forall cur cap k,
    (forall c cp, k c cp <> None) ->
    isSome (run (words ws) cur cap k) = List.existsb (fun w => prefix w (rest cur)) ws.
Proof.
  induction ws as [|w ws IH]; intros [b s] cap k Hk.
  - cbn. reflexivity.
  - destruct ws as [|w' ws'].
    + cbn [words List.existsb rest]. rewrite run_lit, orb_false_r.
      destruct (prefix w s); [|reflexivity].
      destruct (k _ cap) eqn:E; [reflexivity | now elim (Hk _ _ E)].
    + change (words (w :: w' :: ws')) with (Alt (lit w) (words (w' :: ws'))).
      cbn [run]. rewrite run_lit. cbn [List.existsb rest] in *.
      destruct (prefix w s).
      * destruct (k _ cap) eqn:E; [reflexivity | now elim (Hk _ _ E)].
      * apply (IH {| before := b; rest := s |} cap k Hk).
Qed.

(** A pattern [(w1|w2|...)] of literal words finds a match exactly in the
    strings that contain one of the words. *)
Lemma test_words (ws : list string) (s : string) :
  test (Grp (words ws)) s = List.existsb (fun w => JS.includes s w) ws.
Proof.
  unfold test, exec. rewrite <- anyTail_words.
  change (match searchFrom (Grp (words ws)) 0 None s with Some _ => true | None => false end)
    with (isSome (searchFrom (Grp (words ws)) 0 None s)).
  apply searchFrom_anyTail. intros i b t. unfold matchAt. cbn [run].
  pose proof (@run_words ws {| before := b; rest := t |} None
                (fun cur' _ =>
                   done cur' (Some (JS.take (String.length t - String.length (rest cur')) t)))
                ltac:(intros c cp; discriminate)) as E.
  cbn [rest] in E. rewrite <- E.
  destruct (run (words ws) _ None _) as [[? ?]|]; reflexivity.
Qed.

(** The same for a pattern anchored at the start: [^(w1|w2|...)]. *)
Lemma test_words_anchored (ws : list string) (s : string) :
  test (Seq Bol (Grp (words ws))) s = List.existsb (fun w => prefix w s) ws.
Proof.
  rewrite test_Bol. unfold accepts. cbn [run].
  pose proof (@run_words ws {| before := None; rest := s |} None
                (fun cur' _ =>
                   done cur' (Some (JS.take (String.length s - String.length (rest cur')) s)))
                ltac:(intros c cp; discriminate)) as E.
  cbn [rest] in E. rewrite <- E. reflexivity.
Qed.

(** X22: the tier that [suggestPriorityFromContent] proposes, by the
    keywords that the lower-cased title and description contain: with an
    urgency keyword it is A or B; it is D exactly when a simple verb is the
    only hit; it is A exactly for the combinations of hits listed; the
    confidence follows the tier and the reasoning is never empty. *)
Theorem suggestPriorityFromContent_tiers (title description : string) :
  let content := JS.toLowerCase (title ++ " " ++ description) in
  let has := fun keywords => List.existsb (fun w => JS.includes content w) keywords in
  let urgent := has ["urgent"; "asap"; "immediately"; "critical"; "emergency"] in
  let complex := has ["complex"; "comprehensive"; "multiple"; "various"; "several"] in
  let action :=
    has ["design"; "implement"; "develop"; "analyze"; "research"; "build"; "architect"] in
  let scope := has ["project"; "system"; "platform"; "infrastructure"; "architecture"] in
  let simple :=
    has ["check"; "verify"; "confirm"; "send"; "email"; "call"; "read"; "update"] in
  let r := PriorityUpdates.suggestPriorityFromContent title description in
  (urgent = false \/ cs_suggestedPriority r = TaskPriority.A
   \/ cs_suggestedPriority r = TaskPriority.B)
  /\ (cs_suggestedPriority r = TaskPriority.D
      <-> simple && negb urgent && negb complex && negb action && negb scope = true)
  /\ (cs_suggestedPriority r = TaskPriority.A
      <-> (urgent && (complex || action || (scope && negb simple)))
          || (complex && action && (negb simple || scope)) = true)
  /\ cs_confidenceTenths r
     = match cs_suggestedPriority r with
       | TaskPriority.A => 8 | TaskPriority.B => 7 | TaskPriority.C => 6 | TaskPriority.D => 5
       end
  /\ cs_reasoning r <> "".
Proof.
  intros content has urgent complex action scope simple r.
  unfold r, PriorityUpdates.suggestPriorityFromContent, PriorityUpdates.contentScore.
  fold content.
  unfold PriorityUpdates.urgencyRe, PriorityUpdates.complexityRe, PriorityUpdates.actionRe,
    PriorityUpdates.scopeRe, PriorityUpdates.simpleRe.
  rewrite !test_words. fold (has ["urgent"; "asap"; "immediately"; "critical"; "emergency"]).
  change (List.existsb (fun w => JS.includes content w)) with has.
  fold urgent complex action scope simple.
  destruct urgent, complex, action, scope, simple; vm_compute;
    (split; [tauto|]); (split; [split; intros E; first [reflexivity | discriminate E]|]);
    (split; [split; intros E; first [reflexivity | discriminate E]|]);
    (split; [reflexivity | discriminate]).
Qed.

Lemma prefix_build (s : string) :
  prefix "build" s = true -> exists t, s = "build" ++ t.
Proof.
  intros Hp.
  do 5 (destruct s as [|? s]; [discriminate Hp|];
        rewrite prefix_cons in Hp; apply andb_prop in Hp as [E Hp];
        apply Ascii.eqb_eq in E; subst).
  exists s. reflexivity.
Qed.

Lemma includes_build_ui (s : string) :
  JS.includes s "build" = true -> JS.includes s "ui" = true.
Proof.
  induction s as [|c s IH]; cbn [JS.includes]; intros Hi.
  - rewrite orb_false_r in Hi. discriminate Hi.
  - apply orb_prop in Hi as [Hp|Hi].
    + apply prefix_build in Hp as (t & E). injection E as -> ->.
      apply orb_true_iff. right. reflexivity.
    + apply orb_true_iff. right. apply IH, Hi.
Qed.

(** X23: a subtask whose title contains "build", in any letter case, is
    put in the category Design and never in Implementation, although
    "build" is listed among the Implementation keywords: the Design pattern
    is tried first and "build" contains "ui". *)
Theorem categorizeSubtask_build_is_design (title : string) :
  JS.includes (JS.toLowerCase title) "build" = true ->
  TaskSuitabilityAnalyzer.categorizeSubtask title = "Design".
Proof.
  intros Hb. apply includes_build_ui in Hb.
  unfold TaskSuitabilityAnalyzer.categorizeSubtask. rewrite test_words.
  cbn [List.existsb]. rewrite Hb, !orb_true_r. reflexivity.
Qed.

Lemma categorizeSubtask_build_is_design_witness :
  TaskSuitabilityAnalyzer.categorizeSubtask "Build the API" = "Design".
Proof.
  apply (@categorizeSubtask_build_is_design "Build the API"). reflexivity.
Defined.

Lemma trimEnd_head (b : ascii) (t : string) :
  ws b = false -> exists t', JS.trimEnd (String b t) = String b t'.
Proof.
  intros Hb. cbn [JS.trimEnd]. destruct (JS.trimEnd t) as [|c t'].
  - unfold ws in Hb. rewrite Hb. exists "". reflexivity.
  - exists (String c t'). reflexivity.
Qed.

Lemma trim_task_line (line : string) :
  EnhancedTodoParser.isTodoLine line = true ->
  exists b t, JS.trim line = String b t /\ anyOf "-*" b = true.
Proof.
  rewrite isTodoLine_scan. unfold bulletLineb, JS.trim, JS.trimStart.
  fold ws. destruct (JS.dropWhile ws line) as [|b [|w s]]; try discriminate.
  intros Hb. apply andb_prop in Hb as [Hb _]. apply andb_prop in Hb as [Hb _].
  destruct (@trimEnd_head b (String w s) (bullet_not_space Hb)) as (t' & ->).
  exists b, t'. split; [reflexivity | exact Hb].
Qed.

Lemma bullet_cases (b : ascii) : anyOf "-*" b = true -> b = "-"%char \/ b = "*"%char.
Proof. by_ascii b; auto. Qed.

Lemma simple_rule_skips_bullet (b : ascii) (t : string) :
  anyOf "-*" b = true ->
  test AutoPriorityAssigner.simpleActionRe (JS.toLowerCase (String b t)) = false.
Proof.
  intros Hb. unfold AutoPriorityAssigner.simpleActionRe. rewrite test_words_anchored.
  unfold JS.toLowerCase. cbn [JS.map]. cbn [List.existsb].
  rewrite !prefix_cons.
  destruct (bullet_cases Hb) as [-> | ->]; reflexivity.
Qed.

(** X24: every line that [parseSubtasks] returns still begins with its
    bullet, so the early return of [calculateSubtaskComplexity] for titles
    that begin with a simple verb is never taken for a parsed subtask: the
    complexity is computed by the keyword sums alone. *)
Theorem parsed_subtasks_skip_simple_rule (content : string) (startLine : nat) :
  Forall
    (fun line =>
       (exists b t, line = String b t /\ anyOf "-*" b = true)
       /\ test AutoPriorityAssigner.simpleActionRe (JS.toLowerCase line) = false)
    (AutoPriorityAssigner.parseSubtasks content startLine).
Proof.
  unfold AutoPriorityAssigner.parseSubtasks. cbv zeta.
  rewrite parseSubtasks_loop_scan by lia. cbn [app].
  apply Forall_forall. intros line Hin.
  apply in_map_iff in Hin as (l & <- & Hl).
  apply filter_In in Hl as [_ Hl]. rewrite consumedAsSubtask_scan in Hl.
  apply andb_prop in Hl as [_ Hl].
  destruct (trim_task_line Hl) as (b & t & E & Hb).
  rewrite E. split; [exists b, t; split; [reflexivity | exact Hb]|].
  now apply simple_rule_skips_bullet.
Qed.

(** ** The checkbox of a task line *)

Lemma string_app_assoc (a b c : string) : (a ++ b) ++ c = a ++ b ++ c.
Proof. induction a as [|x a IH]; cbn; [|rewrite IH]; reflexivity. Qed.

Lemma string_app_nil_r (a : string) : a ++ "" = a.
Proof. induction a as [|x a IH]; cbn; [|rewrite IH]; reflexivity. Qed.

Lemma forallb_string_app (p : ascii -> bool) (a b : string) :
  JS.forallb p (a ++ b) = JS.forallb p a && JS.forallb p b.
Proof. induction a as [|x a IH]; cbn; [|rewrite IH, andb_assoc]; reflexivity. Qed.

Lemma forallb_string_weaken (p q : ascii -> bool) (a : string) :
  (forall c, p c = true -> q c = true) -> JS.forallb p a = true -> JS.forallb q a = true.
Proof.
  intros Hpq. induction a as [|x a IH]; cbn; [reflexivity|].
  intros Ha. apply andb_prop in Ha as [Hx Ha]. rewrite (Hpq _ Hx), (IH Ha). reflexivity.
Qed.

Lemma take_app_length (w s : string) : JS.take (String.length w) (w ++ s) = w.
Proof.
  unfold JS.take. induction w as [|c w IH]; cbn.
  - destruct s; reflexivity.
  - rewrite IH. reflexivity.
Qed.

Lemma searchFrom_skip (p : ascii -> bool) (r : regex) (w : string) :
  JS.forallb (fun c => negb (p c)) w = true ->
  forall i b s, exists b',
    searchFrom (Seq (Cls p) r) i b (w ++ s)
    = searchFrom (Seq (Cls p) r) (i + String.length w) b' s.
Proof.
  induction w as [|c w IH]; intros Hw i b s.
  - exists b. rewrite Nat.add_0_r. reflexivity.
  - cbn [JS.forallb] in Hw. apply andb_prop in Hw as [Hc Hw]. apply negb_true_iff in Hc.
    destruct (IH Hw (S i) (Some c) s) as (b' & E). exists b'.
    cbn [Nat.add] in E. cbn [append String.length]. rewrite Nat.add_succ_r, <- E.
    cbn [searchFrom]. unfold matchAt at 1. cbn [run rest]. rewrite Hc. reflexivity.
Qed.

Lemma space_not_bracketI (c : ascii) :
  ws c = true -> Ascii.eqb (JS.toUpperChar c) (JS.toUpperChar "[") = false.
Proof. by_ascii c. Qed.

Lemma bullet_not_bracketI (c : ascii) :
  anyOf "-*" c = true -> Ascii.eqb (JS.toUpperChar c) (JS.toUpperChar "[") = false.
Proof. by_ascii c. Qed.

Lemma space_not_bracket (c : ascii) : ws c = true -> Ascii.eqb c "[" = false.
Proof. by_ascii c. Qed.

Lemma bullet_not_bracket (c : ascii) : anyOf "-*" c = true -> Ascii.eqb c "[" = false.
Proof. by_ascii c. Qed.

Lemma box_cases (c : ascii) : anyOf " x" c = true -> c = " "%char \/ c = "x"%char.
Proof. by_ascii c; auto. Qed.

(** The first checkbox of a line whose text before it holds no bracket. *)
Lemma exec_checkbox (w : string) (c : ascii) (t : string) :
  JS.forallb (fun x => negb (Ascii.eqb (JS.toUpperChar x) (JS.toUpperChar "["))) w = true ->
  anyOf " x" c = true ->
  exists m,
    exec EnhancedTodoPlugin.checkboxRe (w ++ String "[" (String c (String "]" t))) = Some m
    /\ index m = String.length w /\ rest (after m) = t.
Proof.
  intros Hw Hc. unfold exec, EnhancedTodoPlugin.checkboxRe.
  change (seq [chrI "["; Cls (anyOfI " x"); chrI "]"])
    with (Seq (Cls (fun x => Ascii.eqb (JS.toUpperChar x) (JS.toUpperChar "[")))
              (Seq (Cls (anyOfI " x")) (chrI "]"))).
  destruct (@searchFrom_skip _ (Seq (Cls (anyOfI " x")) (chrI "]")) w Hw 0%nat None
              (String "[" (String c (String "]" t)))) as (b' & ->).
  cbn [Nat.add searchFrom]. unfold matchAt.
  assert (Hrun : run (Seq (Cls (fun x => Ascii.eqb (JS.toUpperChar x) (JS.toUpperChar "[")))
                          (Seq (Cls (anyOfI " x")) (chrI "]")))
                     {| before := b'; rest := String "[" (String c (String "]" t)) |} None done
                 = Some ({| before := Some "]"%char; rest := t |}, None)).
  { destruct (box_cases Hc) as [-> | ->]; reflexivity. }
  rewrite Hrun. eexists. split; [reflexivity|]. split; reflexivity.
Qed.

Lemma newLine_decomposed (lead gap rest : string) (b c : ascii) (todo_isCompleted : bool) :
  JS.forallb ws lead = true -> anyOf "-*" b = true -> JS.forallb ws gap = true ->
  anyOf " x" c = true ->
  EnhancedTodoPlugin.newLine todo_isCompleted
    (lead ++ String b (gap ++ String "[" (String c (String "]" rest))))
  = (lead ++ String b gap) ++ (if todo_isCompleted then "[ ]" else "[x]") ++ rest.
Proof.
  intros Hlead Hb Hgapw Hc.
  assert (E : lead ++ String b (gap ++ String "[" (String c (String "]" rest)))
              = (lead ++ String b gap) ++ String "[" (String c (String "]" rest))).
  { rewrite string_app_assoc. reflexivity. }
  rewrite E.
  assert (Hw : JS.forallb (fun x => negb (Ascii.eqb (JS.toUpperChar x) (JS.toUpperChar "[")))
                          (lead ++ String b gap) = true).
  { rewrite forallb_string_app. cbn [JS.forallb].
    rewrite (bullet_not_bracketI Hb). cbn [negb andb]. apply andb_true_intro. split.
    - apply (@forallb_string_weaken ws); [|exact Hlead].
      intros x Hx. rewrite (space_not_bracketI Hx). reflexivity.
    - apply (@forallb_string_weaken ws); [|exact Hgapw].
      intros x Hx. rewrite (space_not_bracketI Hx). reflexivity. }
  destruct (exec_checkbox rest Hw Hc) as (m & Em & Hi & Hr).
  unfold EnhancedTodoPlugin.newLine, replace. rewrite Em, Hi, Hr, take_app_length.
  reflexivity.
Qed.

(** X25: on a task line the checkbox that [toggleTaskStatus] rewrites is
    the one of the task: the line is some text without a bracket, the
    checkbox holding a space or [x], and the rest; the new line differs
    only in the checkbox, which holds a space when the task was completed
    and [x] when it was not, and it is again a task line. *)
Theorem toggle_rewrites_the_checkbox (line : string) :
  EnhancedTodoParser.isTodoLine line = true ->
  exists head c rest,
    line = head ++ String "[" (String c (String "]" rest))
    /\ lacks "[" head = true
    /\ (c = " "%char \/ c = "x"%char)
    /\ forall todo_isCompleted,
         EnhancedTodoPlugin.newLine todo_isCompleted line
         = head ++ (if todo_isCompleted then "[ ]" else "[x]") ++ rest
         /\ EnhancedTodoParser.isTodoLine (EnhancedTodoPlugin.newLine todo_isCompleted line)
            = true.
Proof.
  intros Hl. apply isTodoLine_exact in Hl.
  destruct Hl as (lead & b & gap & c & rest & -> & Hlead & Hb & Hgap & Hgapw & Hc).
  exists (lead ++ String b gap), c, rest.
  split; [rewrite string_app_assoc; reflexivity|]. split.
  { unfold lacks. rewrite forallb_string_app. cbn [JS.forallb].
    rewrite (bullet_not_bracket Hb). cbn [negb andb]. apply andb_true_intro. split.
    - apply (@forallb_string_weaken ws); [|exact Hlead].
      intros x Hx. rewrite (space_not_bracket Hx). reflexivity.
    - apply (@forallb_string_weaken ws); [|exact Hgapw].
      intros x Hx. rewrite (space_not_bracket Hx). reflexivity. }
  split; [exact (box_cases Hc)|].
  intros f. rewrite (newLine_decomposed rest f Hlead Hb Hgapw Hc).
  split; [reflexivity|].
  apply isTodoLine_exact.
  exists lead, b, gap, (if f then " "%char else "x"%char), rest.
  split; [destruct f; rewrite string_app_assoc; reflexivity|].
  repeat split; try assumption. destruct f; reflexivity.
Qed.

Lemma toggle_rewrites_the_checkbox_witness :
  exists head c rest,
    "  * [x] water plants [ ]" = head ++ String "[" (String c (String "]" rest))
    /\ lacks "[" head = true
    /\ (c = " "%char \/ c = "x"%char)
    /\ forall todo_isCompleted,
         EnhancedTodoPlugin.newLine todo_isCompleted "  * [x] water plants [ ]"
         = head ++ (if todo_isCompleted then "[ ]" else "[x]") ++ rest
         /\ EnhancedTodoParser.isTodoLine
              (EnhancedTodoPlugin.newLine todo_isCompleted "  * [x] water plants [ ]")
            = true.
Proof.
  apply (@toggle_rewrites_the_checkbox "  * [x] water plants [ ]"). reflexivity.
Defined.

(** ** The status of a parsed line *)

Lemma anyTail_orb (f g : string -> bool) (s : string) :
  anyTail (fun t => f t || g t) s = anyTail f s || anyTail g s.
Proof.
  induction s as [|c s IH]; cbn [anyTail]; [|rewrite IH];
    destruct (f _), (g _); cbn; try reflexivity;
    destruct (anyTail f s), (anyTail g s); reflexivity.
Qed.

Lemma bracketI_eq (c : ascii) :
  Ascii.eqb (JS.toUpperChar c) (JS.toUpperChar "[") = Ascii.eqb c "[".
Proof. by_ascii c. Qed.

Lemma closeI_eq (c : ascii) :
  Ascii.eqb (JS.toUpperChar c) (JS.toUpperChar "]") = Ascii.eqb c "]".
Proof. by_ascii c. Qed.

Lemma xI_eq (c : ascii) :
  Ascii.eqb (JS.toUpperChar c) (JS.toUpperChar "x") = Ascii.eqb c "x" || Ascii.eqb c "X".
Proof. by_ascii c. Qed.

Lemma prefixI_checked (t : string) :
  prefixI "[x]" t = prefix "[x]" t || prefix "[X]" t.
Proof.
  destruct t as [|c1 t]; [reflexivity|].
  cbn [prefixI]. rewrite !prefix_cons, bracketI_eq.
  destruct t as [|c2 t]; [destruct (Ascii.eqb c1 "["); reflexivity|].
  rewrite !prefix_cons, xI_eq.
  destruct t as [|c3 t];
    [destruct (Ascii.eqb c1 "["), (Ascii.eqb c2 "x"), (Ascii.eqb c2 "X"); reflexivity|].
  rewrite !prefix_cons, !prefix_nil, closeI_eq.
  destruct (Ascii.eqb c1 "["), (Ascii.eqb c2 "x"), (Ascii.eqb c2 "X"), (Ascii.eqb c3 "]");
    reflexivity.
Qed.

Lemma test_checked (s : string) :
  test EnhancedTodoParser.checkedRe s = JS.includes s "[x]" || JS.includes s "[X]".
Proof.
  rewrite !includes_anyTail, <- anyTail_orb.
  rewrite <- (anyTail_ext s prefixI_checked).
  unfold test, exec.
  change (match searchFrom EnhancedTodoParser.checkedRe 0 None s with
          | Some _ => true | None => false end)
    with (isSome (searchFrom (litI "[x]") 0 None s)).
  apply searchFrom_anyTail. intros i b t. unfold matchAt. rewrite run_litI.
  destruct (prefixI "[x]" t); reflexivity.
Qed.

(** X26: a task line with an open checkbox whose trimmed text contains
    [[x]] somewhere is parsed as done, the test for the status not being
    tied to the checkbox; and toggling it, which writes an open checkbox
    for a completed task, leaves the line as it is. *)
Theorem checked_text_sticks (line : string) (lineNumber : nat) :
  bulletLineb " " line = true ->
  JS.includes (JS.trim line) "[x]" = true ->
  EnhancedTodoParser.isTodoLine line = true
  /\ pd_status (EnhancedTodoParser.parseBasicTodoData line lineNumber) = TodoItemStatus.Done
  /\ EnhancedTodoPlugin.newLine true line = line.
Proof.
  intros Hl Hx.
  apply bulletLineb_shape in Hl.
  destruct Hl as (lead & b & gap & c & rest & -> & Hlead & Hb & Hgap & Hgapw & Hc).
  assert (Ec : c = " "%char).
  { cbn [anyOf] in Hc. rewrite orb_false_r in Hc. apply Ascii.eqb_eq in Hc. exact Hc. }
  subst c. split; [|split].
  - apply isTodoLine_exact. exists lead, b, gap, " "%char, rest.
    repeat split; try assumption.
  - unfold EnhancedTodoParser.parseBasicTodoData. cbv zeta. cbn [pd_status].
    rewrite test_checked, Hx. reflexivity.
  - rewrite (@newLine_decomposed lead gap rest b " " true Hlead Hb Hgapw eq_refl).
    rewrite string_app_assoc. reflexivity.
Qed.

Lemma checked_text_sticks_witness :
  pd_status (EnhancedTodoParser.parseBasicTodoData "- [ ] tick the [x] box" 0)
  = TodoItemStatus.Done
  /\ EnhancedTodoPlugin.newLine true "- [ ] tick the [x] box" = "- [ ] tick the [x] box".
Proof.
  destruct (@checked_text_sticks "- [ ] tick the [x] box" 0 eq_refl eq_refl) as (_ & Hs & Hn).
  split; [exact Hs | exact Hn].
Defined.

Section DailyNotes.
Context {H : Host}.

Lemma parseLines_daily_note (self : EnhancedTodoParser.t) (file : TFile) (content : string) :
  compilesDateTag self ->
  EnhancedTodoParser.isDailyNote (path file) = true ->
  forall lines i todos n,
    if everyTaskDated self lines n
    then exists n',
        EnhancedTodoParser.parseLines self file content lines i todos n
        = Returned ((todos ++ recordsFrom self (path file) content lines i n)%list, n')
    else EnhancedTodoParser.parseLines self file content lines i todos n
         = Threw (TypeError "date.startOf is not a function").
Proof.
  intros Hc Hd. induction lines as [|line lines IH]; intros i todos n.
  - cbn. exists n. rewrite app_nil_r. reflexivity.
  - cbn [everyTaskDated EnhancedTodoParser.parseLines recordsFrom].
    destruct (EnhancedTodoParser.isTodoLine line) eqn:Hl; [|apply IH].
    destruct (fst (dueDateOf self line (S (S n)))) as [d|] eqn:Hdue.
    + match goal with |- context [bind ?c ?f n] =>
        assert (E : bind c f n
                    = EnhancedTodoParser.parseLines self file content lines (S i)
                        (JS.push todos (recordOfLine self (path file) content i line n))
                        (readingsAfter self line n))
      end.
      { unfold bind.
        rewrite (@parseEnhancedTodoLine_returns _ self line (path file) i content n (Hc line) Hl)
          by (right; rewrite Hdue; discriminate).
        reflexivity. }
      rewrite !E.
      specialize (IH (S i) (JS.push todos (recordOfLine self (path file) content i line n))
                     (readingsAfter self line n)).
      destruct (everyTaskDated self lines (readingsAfter self line n)); [|exact IH].
      destruct IH as (n' & ->). exists n'. unfold JS.push. rewrite <- app_assoc. reflexivity.
    + unfold bind.
      rewrite (@parseEnhancedTodoLine_daily_note _ self line (path file) i content n
                 (Hc line) Hl Hd Hdue).
      reflexivity.
Qed.

(** X27: in a daily note, as soon as one task line carries no due date the
    plugin gets no task at all from the file, not even the dated ones: the
    parser throws on that line and [parseFileForTodos] returns an empty
    list; only when every task line is dated does it return their records.
    Whether a line is dated is what [DateTime.fromISO] says of its date text
    at the reading the line is parsed at. *)
Theorem daily_note_all_or_nothing (parser : EnhancedTodoParser.t) (file : TFile)
    (content : string) (clockReadings : nat) :
  compilesDateTag parser ->
  EnhancedTodoParser.isDailyNote (path file) = true ->
  EnhancedTodoPlugin.parseFileForTodos parser file content clockReadings
  = if everyTaskDated parser (JS.split "010" content) clockReadings
    then recordsFrom parser (path file) content (JS.split "010" content) 0 clockReadings
    else [].
Proof.
  intros Hc Hd. unfold EnhancedTodoPlugin.parseFileForTodos,
    EnhancedTodoParser.parseEnhancedTodosInFile. cbv zeta.
  pose proof (@parseLines_daily_note parser file content Hc Hd (JS.split "010" content)
                0%nat [] clockReadings) as Hp.
  destruct (everyTaskDated parser (JS.split "010" content) clockReadings).
  - destruct Hp as (n' & ->). reflexivity.
  - rewrite Hp. reflexivity.
Qed.

End DailyNotes.

Lemma daily_note_all_or_nothing_witness :
  List.length
    (@EnhancedTodoPlugin.parseFileForTodos exampleHost EnhancedTodoParser.default
       {| path := "journal/2024-01-15.md" |} vacation 0%nat)
  = 0%nat.
Proof.
  rewrite (@daily_note_all_or_nothing exampleHost EnhancedTodoParser.default
             {| path := "journal/2024-01-15.md" |} vacation 0%nat).
  - reflexivity.
  - intro content. unfold dateTagPattern. cbn.
    destruct (exec defaultDateTagRe content); discriminate.
  - vm_compute. reflexivity.
Defined.

(** ** Writing a task back as a line *)

Lemma firstAt_skip {T} (f : string -> option T) (w : string) :
  (forall c t, Ascii.eqb c "#" = false -> f (String c t) = None) ->
  lacks "#" w = true ->
  forall i s, firstAt f i (w ++ s) = firstAt f (i + String.length w) s.
Proof.
  intros Hf. induction w as [|c w IH]; intros Hw i s.
  - rewrite Nat.add_0_r. reflexivity.
  - unfold lacks in Hw. cbn [JS.forallb] in Hw. apply andb_prop in Hw as [Hc Hw].
    apply negb_true_iff in Hc.
    cbn [append firstAt String.length]. rewrite (Hf c _ Hc), Nat.add_succ_r.
    apply (IH Hw (S i) s).
Qed.

Lemma hashI_eq (c : ascii) :
  Ascii.eqb (JS.toUpperChar c) (JS.toUpperChar "#") = Ascii.eqb c "#".
Proof. by_ascii c. Qed.

Lemma priorityTagAt_needs_hash (c : ascii) (t : string) :
  Ascii.eqb c "#" = false -> priorityTagAt (String c t) = None.
Proof.
  intros Hc. unfold priorityTagAt. cbn [prefixI]. rewrite hashI_eq, Hc. reflexivity.
Qed.

Lemma lacks_app (c : ascii) (a b : string) :
  lacks c (a ++ b) = lacks c a && lacks c b.
Proof. apply forallb_string_app. Qed.

Section GenerateLine.
Context {H : Host}.
Variable toISODate : DateTime -> option string.

Lemma tags_fold_append (tags : list string) :
  forall line,
    List.fold_left
      (fun line tag => if negb (JS.startsWith tag "#priority/") then line ++ " " ++ tag else line)
      tags line
    = line ++ List.fold_left
                (fun line tag =>
                   if negb (JS.startsWith tag "#priority/") then line ++ " " ++ tag else line)
                tags "".
Proof.
  induction tags as [|tag tags IH]; intros line; cbn [List.fold_left].
  - rewrite string_app_nil_r. reflexivity.
  - rewrite IH. rewrite (IH (if negb _ then _ else _)).
    destruct (negb (JS.startsWith tag "#priority/")).
    + rewrite !string_app_assoc. reflexivity.
    + reflexivity.
Qed.

(** The line is the checkbox and the title, then the description, then the
    tier of a manual task, then whatever follows. *)
Lemma generateTodoLine_parts (self : EnhancedTodoParser.t) (todo : EnhancedTodoItem.t) :
  exists more,
    ParserTools.generateTodoLine toISODate self todo
    = ("- " ++ (if EnhancedTodoItem.isCompleted todo then "[x]" else "[ ]") ++ " "
       ++ EnhancedTodoItem.title todo)
      ++ (if negb (String.eqb (EnhancedTodoItem.description todo) "")
          then " " ++ EnhancedTodoItem.description todo else "")
      ++ (if negb (EnhancedTodoItem.isAutoPriority todo)
          then " #priority/" ++ TaskPriority.toString (EnhancedTodoItem.priority todo) else "")
      ++ more.
Proof.
  unfold ParserTools.generateTodoLine. cbv zeta.
  set (line0 := "- " ++ _ ++ " " ++ EnhancedTodoItem.title todo).
  rewrite tags_fold_append.
  set (tagsText := List.fold_left _ (EnhancedTodoItem.tags todo) "").
  exists (tagsText ++ match EnhancedTodoItem.assignedDate todo with
                      | Some assignedDate =>
                          " " ++ JS.replaceStr (EnhancedTodoParser.dateTagFormat self) "%date%"
                                   (match toISODate assignedDate with
                                    | Some s => s | None => "" end)
                      | None => ""
                      end).
  destruct (negb (String.eqb (EnhancedTodoItem.description todo) ""));
    destruct (negb (EnhancedTodoItem.isAutoPriority todo));
    destruct (EnhancedTodoItem.assignedDate todo);
    cbn [append]; rewrite ?string_app_assoc, ?string_app_nil_r; cbn [append];
    rewrite ?string_app_assoc; reflexivity.
Qed.

(** X28: for a manual task whose title and description hold no [#], the
    line that [generateTodoLine] writes is a task line, and reading it back
    with [extractManualPriority] gives the tier of the task, whatever tags
    and date follow. *)
Theorem generateTodoLine_round_trip (self : EnhancedTodoParser.t) (todo : EnhancedTodoItem.t) :
  EnhancedTodoItem.isAutoPriority todo = false ->
  lacks "#" (EnhancedTodoItem.title todo) = true ->
  lacks "#" (EnhancedTodoItem.description todo) = true ->
  EnhancedTodoParser.isTodoLine (ParserTools.generateTodoLine toISODate self todo) = true
  /\ EnhancedTodoParser.extractManualPriority (ParserTools.generateTodoLine toISODate self todo)
     = Some (EnhancedTodoItem.priority todo).
Proof.
  intros Hm Ht Hd.
  destruct (generateTodoLine_parts self todo) as (more & ->).
  rewrite Hm. cbn [negb]. split.
  - apply isTodoLine_exact.
    exists "", "-"%char, " ", (if EnhancedTodoItem.isCompleted todo then "x"%char else " "%char).
    eexists. split.
    + destruct (EnhancedTodoItem.isCompleted todo); cbn [append]; reflexivity.
    + repeat split; try reflexivity; try discriminate.
      destruct (EnhancedTodoItem.isCompleted todo); reflexivity.
  - rewrite extractManualPriority_scan.
    set (w := ("- " ++ (if EnhancedTodoItem.isCompleted todo then "[x]" else "[ ]") ++ " "
               ++ EnhancedTodoItem.title todo)
              ++ (if negb (String.eqb (EnhancedTodoItem.description todo) "")
                  then " " ++ EnhancedTodoItem.description todo else "") ++ " ").
    match goal with |- context [firstAt priorityTagAt 0 ?l] =>
      replace l with (w ++ "#priority/" ++ TaskPriority.toString (EnhancedTodoItem.priority todo)
                        ++ more)
        by (unfold w; rewrite ?string_app_assoc; cbn [append]; reflexivity)
    end.
    assert (Hw : lacks "#" w = true).
    { unfold w. rewrite !lacks_app.
      destruct (EnhancedTodoItem.isCompleted todo),
        (negb (String.eqb (EnhancedTodoItem.description todo) ""));
        rewrite ?lacks_app, Ht, ?Hd; reflexivity. }
    rewrite (firstAt_skip priorityTagAt_needs_hash Hw).
    destruct (EnhancedTodoItem.priority todo); reflexivity.
Qed.

End GenerateLine.

Lemma generateTodoLine_round_trip_witness :
  EnhancedTodoParser.extractManualPriority
    (@ParserTools.generateTodoLine exampleHost (fun _ => Some "2024-01-15")
       EnhancedTodoParser.default (exampleTask TaskPriority.B false []))
  = Some TaskPriority.B.
Proof.
  apply (proj2 (@generateTodoLine_round_trip exampleHost (fun _ => Some "2024-01-15")
                  EnhancedTodoParser.default (exampleTask TaskPriority.B false [])
                  eq_refl eq_refl eq_refl)).
Defined.

(** ** Maps keyed by strings *)

Lemma mapGet_mapSet {V} (key k : string) (v : V) (m : list (string * V)) :
  ParserTools.mapGet k (ParserTools.mapSet key v m)
  = if String.eqb key k then Some v else ParserTools.mapGet k m.
Proof.
  induction m as [|[k0 v0] m IH]; cbn [ParserTools.mapSet ParserTools.mapGet].
  - destruct (String.eqb key k); reflexivity.
  - destruct (String.eqb_spec k0 key) as [->|Hne]; cbn [ParserTools.mapGet].
    + destruct (String.eqb key k); reflexivity.
    + rewrite IH. destruct (String.eqb_spec k0 k) as [->|Hk]; [|reflexivity].
      destruct (String.eqb_spec key k) as [->|_]; [now elim Hne | reflexivity].
Qed.

Lemma mapSet_keys {V} (key : string) (v : V) (m : list (string * V)) :
  List.map fst (ParserTools.mapSet key v m)
  = if List.existsb (fun k => String.eqb k key) (List.map fst m)
    then List.map fst m
    else (List.map fst m ++ [key])%list.
Proof.
  induction m as [|[k0 v0] m IH]; [reflexivity|].
  cbn [ParserTools.mapSet List.map fst List.existsb].
  destruct (String.eqb k0 key); cbn [orb List.map fst]; [reflexivity|].
  rewrite IH. destruct (List.existsb _ _); reflexivity.
Qed.

Lemma mapSet_NoDup {V} (key : string) (v : V) (m : list (string * V)) :
  NoDup (List.map fst m) -> NoDup (List.map fst (ParserTools.mapSet key v m)).
Proof.
  intros Hnd. rewrite mapSet_keys.
  destruct (List.existsb _ _) eqn:E; [exact Hnd|].
  apply NoDup_rev in Hnd. rewrite <- (rev_involutive (_ ++ _)).
  apply NoDup_rev. rewrite rev_app_distr. cbn. constructor; [|exact Hnd].
  rewrite <- in_rev. rewrite <- existsb_eqb_In, E. discriminate.
Qed.

Lemma mapPush_NoDup {V} (key : string) (v : V) (m : list (string * list V)) :
  NoDup (List.map fst m) -> NoDup (List.map fst (ParserTools.mapPush key v m)).
Proof.
  intros Hnd. unfold ParserTools.mapPush.
  destruct (ParserTools.mapGet key m); now apply mapSet_NoDup.
Qed.

Lemma nonEmpty_push {T} (l : list T) (x : T) : nonEmpty (l ++ [x]) = Some (l ++ [x])%list.
Proof. destruct l; reflexivity. Qed.

(** Pushing under a key, for a map that holds no empty list. *)
Lemma mapGet_mapPush {V} (key k : string) (v : V) (m : list (string * list V))
    (X : string -> list V) :
  (forall k, ParserTools.mapGet k m = nonEmpty (X k)) ->
  ParserTools.mapGet k (ParserTools.mapPush key v m)
  = nonEmpty (X k ++ if String.eqb key k then [v] else [])%list.
Proof.
  intros HX. unfold ParserTools.mapPush.
  assert (E : forall l, ParserTools.mapGet k (ParserTools.mapSet key (JS.push l v) m)
                        = if String.eqb key k then Some (JS.push l v) else ParserTools.mapGet k m)
    by (intros l; apply mapGet_mapSet).
  pose proof (HX key) as Hkey.
  destruct (ParserTools.mapGet key m) as [l|]; rewrite E;
    (destruct (String.eqb_spec key k) as [->|Hne];
     [|rewrite app_nil_r; apply HX]).
  - unfold JS.push. rewrite nonEmpty_push.
    destruct (X k); [discriminate Hkey | injection Hkey as ->; reflexivity].
  - unfold JS.push. rewrite nonEmpty_push.
    destruct (X k); [reflexivity | discriminate Hkey].
Qed.

Section ProjectTags.
Context {H : Host}.

Lemma push_tags (todo : EnhancedTodoItem.t) (projectTags : list string) :
  forall (m : list (string * list EnhancedTodoItem.t)) (X : string -> list EnhancedTodoItem.t),
  NoDup (List.map fst m) ->
  (forall k, ParserTools.mapGet k m = nonEmpty (X k)) ->
  let m' := List.fold_left (fun projectMap projectTag =>
                              ParserTools.mapPush projectTag todo projectMap) projectTags m in
  NoDup (List.map fst m')
  /\ forall k, ParserTools.mapGet k m'
               = nonEmpty (X k ++ List.map (fun _ => todo)
                                    (List.filter (fun tag => String.eqb tag k) projectTags))%list.
Proof.
  induction projectTags as [|tag tags IH]; intros m X Hnd HX; cbn [List.fold_left].
  - split; [exact Hnd|]. intros k. cbn. rewrite app_nil_r. apply HX.
  - destruct (IH (ParserTools.mapPush tag todo m)
                 (fun k => X k ++ if String.eqb tag k then [todo] else [])%list
                 (mapPush_NoDup tag todo Hnd)
                 (fun k => mapGet_mapPush tag k todo HX)) as [Hnd' HX'].
    split; [exact Hnd'|]. intros k. rewrite HX'. cbn [List.filter].
    rewrite <- app_assoc. destruct (String.eqb tag k); reflexivity.
Qed.

Lemma parseProjectTags_fold (todos : list EnhancedTodoItem.t) :
  forall (done : list EnhancedTodoItem.t) (m : list (string * list EnhancedTodoItem.t)),
  NoDup (List.map fst m) ->
  (forall k, ParserTools.mapGet k m = nonEmpty (tasksUnder k done)) ->
  let m' :=
    List.fold_left
      (fun projectMap todo =>
         let projectTags := List.filter ParserTools.isProjectTag (EnhancedTodoItem.tags todo) in
         if (List.length projectTags =? 0)%nat
         then ParserTools.mapPush "uncategorized" todo projectMap
         else List.fold_left (fun projectMap projectTag =>
                                ParserTools.mapPush projectTag todo projectMap)
                             projectTags projectMap)
      todos m in
  NoDup (List.map fst m')
  /\ forall k, ParserTools.mapGet k m' = nonEmpty (tasksUnder k (done ++ todos)).
Proof.
  induction todos as [|todo todos IH]; intros done m Hnd HX; cbn [List.fold_left].
  - rewrite app_nil_r. split; assumption.
  - replace (done ++ todo :: todos)%list with ((done ++ [todo]) ++ todos)%list
      by (rewrite <- app_assoc; reflexivity).
    assert (Hstep : forall k,
               tasksUnder k (done ++ [todo])
               = (tasksUnder k done
                  ++ let projectTags :=
                       List.filter ParserTools.isProjectTag (EnhancedTodoItem.tags todo) in
                     if (List.length projectTags =? 0)%nat
                     then (if String.eqb "uncategorized" k then [todo] else [])
                     else List.map (fun _ => todo)
                                   (List.filter (fun tag => String.eqb tag k) projectTags))%list).
    { intros k. unfold tasksUnder. rewrite flat_map_app. cbn [List.flat_map].
      rewrite app_nil_r. reflexivity. }
    cbv zeta in Hstep. cbv zeta.
    destruct (List.length (List.filter ParserTools.isProjectTag (EnhancedTodoItem.tags todo))
              =? 0)%nat.
    + apply IH; [now apply mapPush_NoDup|].
      intros k. rewrite Hstep. apply (mapGet_mapPush "uncategorized" k todo HX).
    + destruct (push_tags todo
                  (List.filter ParserTools.isProjectTag (EnhancedTodoItem.tags todo)) Hnd HX)
        as [Hnd' HX'].
      apply IH; [exact Hnd'|]. intros k. rewrite Hstep. apply HX'.
Qed.

(** X29: what [parseProjectTags] returns: no key twice; under
    ["uncategorized"] the tasks without a project tag, under any other key
    every task once for each of its [#project/], [#work/] or [#personal/]
    tags equal to the key, both in the order of the tasks; a key under
    which no task belongs is absent. *)
Theorem parseProjectTags_groups (todos : list EnhancedTodoItem.t) :
  NoDup (List.map fst (ParserTools.parseProjectTags todos))
  /\ forall key,
       ParserTools.mapGet key (ParserTools.parseProjectTags todos)
       = nonEmpty (tasksUnder key todos).
Proof.
  apply (@parseProjectTags_fold todos [] []); [constructor|].
  intros k. reflexivity.
Qed.

End ProjectTags.

(** ** Parent and child links *)

Section ParentChild.
Context {H : Host}.

Lemma parentPass_spec (todos : list EnhancedTodoItem.t) :
  forall i parentMap name,
    ParserTools.mapGet name (ParserTools.parentPass todos i parentMap)
    = match declaredParent name todos i with
      | Some p => Some p
      | None => ParserTools.mapGet name parentMap
      end.
Proof.
  induction todos as [|todo todos IH]; intros i parentMap name;
    cbn [ParserTools.parentPass declaredParent]; [reflexivity|].
  rewrite IH. destruct (declaredParent name todos (S i)); [reflexivity|].
  destruct (ParserTools.findTag "#parent/" (EnhancedTodoItem.tags todo)); [|reflexivity].
  rewrite mapGet_mapSet. destruct (String.eqb _ name); reflexivity.
Qed.

Lemma declaredParent_bounds (name : string) (todos : list EnhancedTodoItem.t) :
  forall i p, declaredParent name todos i = Some p ->
              (i <= p < i + List.length todos)%nat.
Proof.
  induction todos as [|todo todos IH]; intros i p; cbn [declaredParent List.length];
    [discriminate|].
  destruct (declaredParent name todos (S i)) as [q|] eqn:E.
  - intros Ep. injection Ep as <-. apply IH in E. lia.
  - destruct (ParserTools.findTag _ _); [|discriminate].
    destruct (String.eqb _ name); [|discriminate].
    intros Ep. injection Ep as <-. lia.
Qed.

(** What one step of the second pass leaves alone. *)
Lemma linkChild_frame (parentMap : list (string * nat)) (store : list EnhancedTodoItem.t)
    (j : nat) :
  List.length (ParserTools.linkChild parentMap store j) = List.length store
  /\ forall i t', nth_error (ParserTools.linkChild parentMap store j) i = Some t' ->
       exists t, nth_error store i = Some t
                 /\ EnhancedTodoItem.id t' = EnhancedTodoItem.id t
                 /\ EnhancedTodoItem.tags t' = EnhancedTodoItem.tags t
                 /\ (i <> j -> EnhancedTodoItem.parentTaskId t' = EnhancedTodoItem.parentTaskId t)
                 /\ (forall x, In x (EnhancedTodoItem.childTaskIds t)
                               -> In x (EnhancedTodoItem.childTaskIds t')).
Proof.
  assert (Hsame : forall i t', nth_error store i = Some t' ->
            exists t, nth_error store i = Some t
                      /\ EnhancedTodoItem.id t' = EnhancedTodoItem.id t
                      /\ EnhancedTodoItem.tags t' = EnhancedTodoItem.tags t
                      /\ (i <> j -> EnhancedTodoItem.parentTaskId t'
                                    = EnhancedTodoItem.parentTaskId t)
                      /\ (forall x, In x (EnhancedTodoItem.childTaskIds t)
                                    -> In x (EnhancedTodoItem.childTaskIds t')))
    by (intros i t' E; exists t'; repeat split; auto).
  unfold ParserTools.linkChild.
  destruct (nth_error store j) as [todo|] eqn:Ej; [|split; [reflexivity | exact Hsame]].
  destruct (ParserTools.findTag "#child/" _) as [childTag|]; [|split; [reflexivity | exact Hsame]].
  destruct (ParserTools.mapGet _ parentMap) as [p|]; [|split; [reflexivity | exact Hsame]].
  destruct (nth_error store p) as [parent|] eqn:Ep; [|split; [reflexivity | exact Hsame]].
  rewrite nth_error_setNth. rewrite Ep. 
  destruct (Nat.eqb_spec p j) as [Epj|Npj]; cbn [option_map].
  - subst p. split; [rewrite !setNth_length; reflexivity|].
    intros i t'. rewrite !nth_error_setNth.
    destruct (Nat.eqb_spec i j) as [->|Nij].
    + rewrite Ej. cbn [option_map]. intros E. injection E as <-.
      exists todo. repeat split; try reflexivity; [intros N; now elim N|].
      intros x Hx. cbn. unfold JS.push. apply in_app_iff. left. exact Hx.
    + intros E. exists t'. repeat split; auto.
  - split; [rewrite !setNth_length; reflexivity|].
    intros i t'. rewrite !nth_error_setNth.
    destruct (Nat.eqb_spec i p) as [->|Nip].
    + destruct (Nat.eqb_spec p j) as [->|_]; [now elim Npj|].
      rewrite Ep. cbn [option_map]. intros E. injection E as <-.
      exists parent. repeat split; try reflexivity.
      intros x Hx. cbn. unfold JS.push. apply in_app_iff. left. exact Hx.
    + destruct (Nat.eqb_spec i j) as [->|Nij].
      * rewrite Ej. cbn [option_map]. intros E. injection E as <-.
        exists todo. repeat split; try reflexivity; [intros N; now elim N | auto].
      * intros E. exists t'. repeat split; auto.
Qed.

(** What one step of the second pass does for the task at its index. *)
Lemma linkChild_link (parentMap : list (string * nat)) (store : list EnhancedTodoItem.t)
    (j : nat) (todo : EnhancedTodoItem.t) :
  nth_error store j = Some todo ->
  exists todo', nth_error (ParserTools.linkChild parentMap store j) j = Some todo'
    /\ match ParserTools.findTag "#child/" (EnhancedTodoItem.tags todo) with
       | Some childTag =>
           match ParserTools.mapGet (JS.replaceStr childTag "#child/" "") parentMap with
           | Some p =>
               match nth_error store p with
               | Some parent =>
                   exists parent',
                     nth_error (ParserTools.linkChild parentMap store j) p = Some parent'
                     /\ EnhancedTodoItem.parentTaskId todo' = Some (EnhancedTodoItem.id parent)
                     /\ In (EnhancedTodoItem.id todo) (EnhancedTodoItem.childTaskIds parent')
               | None => todo' = todo
               end
           | None => todo' = todo
           end
       | None => todo' = todo
       end.
Proof.
  intros Ej. unfold ParserTools.linkChild. rewrite Ej.
  destruct (ParserTools.findTag "#child/" _) as [childTag|]; [|exists todo; split; [exact Ej | reflexivity]].
  destruct (ParserTools.mapGet _ parentMap) as [p|]; [|exists todo; split; [exact Ej | reflexivity]].
  destruct (nth_error store p) as [parent|] eqn:Ep; [|exists todo; split; [exact Ej | reflexivity]].
  rewrite nth_error_setNth, Ep.
  destruct (Nat.eqb_spec p j) as [Epj|Npj]; cbn [option_map].
  - subst p. rewrite Ej in Ep. injection Ep as ->.
    eexists. rewrite !nth_error_setNth, Nat.eqb_refl, Ej. cbn [option_map].
    split; [reflexivity|]. eexists. split; [reflexivity|]. split; [reflexivity|].
    cbn. unfold JS.push. apply in_app_iff. right. left. reflexivity.
  - eexists. rewrite !nth_error_setNth.
    destruct (Nat.eqb_spec j p) as [->|_]; [now elim Npj|].
    rewrite Nat.eqb_refl, Ej. cbn [option_map].
    split; [reflexivity|]. eexists. rewrite Nat.eqb_refl.
    destruct (Nat.eqb_spec p j) as [->|_]; [now elim Npj|].
    rewrite Ep. cbn [option_map].
    split; [reflexivity|]. split; [reflexivity|].
    cbn. unfold JS.push. apply in_app_iff. right. left. reflexivity.
Qed.


Lemma links_fold (parentMap : list (string * nat)) (js : list nat) :
  forall store : list EnhancedTodoItem.t,
  List.length (List.fold_left (ParserTools.linkChild parentMap) js store) = List.length store
  /\ forall i t',
       nth_error (List.fold_left (ParserTools.linkChild parentMap) js store) i = Some t' ->
       exists t, nth_error store i = Some t
                 /\ EnhancedTodoItem.id t' = EnhancedTodoItem.id t
                 /\ EnhancedTodoItem.tags t' = EnhancedTodoItem.tags t
                 /\ (~ In i js -> EnhancedTodoItem.parentTaskId t'
                                  = EnhancedTodoItem.parentTaskId t)
                 /\ (forall x, In x (EnhancedTodoItem.childTaskIds t)
                               -> In x (EnhancedTodoItem.childTaskIds t')).
Proof.
  induction js as [|j js IH]; intros store; cbn [List.fold_left].
  - split; [reflexivity|]. intros i t' E. exists t'. repeat split; auto.
  - destruct (IH (ParserTools.linkChild parentMap store j)) as [Hlen Hnth].
    destruct (linkChild_frame parentMap store j) as [Hlen1 Hnth1].
    split; [rewrite Hlen; exact Hlen1|].
    intros i t' E. destruct (Hnth i t' E) as (t1 & E1 & Hid & Htags & Hpar & Hch).
    destruct (Hnth1 i t1 E1) as (t & E0 & Hid0 & Htags0 & Hpar0 & Hch0).
    exists t. split; [exact E0|]. split; [congruence|]. split; [congruence|]. split.
    + intros Hin. rewrite Hpar, Hpar0; [reflexivity | |].
      * intros ->. apply Hin. left; reflexivity.
      * intros Hi. apply Hin. right; exact Hi.
    + intros x Hx. apply Hch, Hch0, Hx.
Qed.

Lemma nth_error_same_length {T} (a b : list T) (i : nat) (x : T) :
  List.length a = List.length b -> nth_error a i = Some x -> exists y, nth_error b i = Some y.
Proof.
  intros Hlen Ha. assert (Hi : (i < List.length a)%nat) by (apply nth_error_Some; congruence).
  destruct (nth_error b i) as [y|] eqn:Eb; [exists y; reflexivity|].
  apply nth_error_None in Eb. lia.
Qed.

(** X30: after [parseParentChildRelationships] every task keeps its id and
    tags; a task whose first [#child/] tag names a parent that some task
    declares with [#parent/] is linked both ways to the last task that
    declares it: its [parentTaskId] is the id of that task, whose
    [childTaskIds] hold its own id; any other task keeps its
    [parentTaskId]. *)
Theorem parseParentChildRelationships_links (todos : list EnhancedTodoItem.t) (j : nat)
    (todo : EnhancedTodoItem.t) :
  nth_error todos j = Some todo ->
  exists todo',
    nth_error (ParserTools.parseParentChildRelationships todos) j = Some todo'
    /\ EnhancedTodoItem.id todo' = EnhancedTodoItem.id todo
    /\ EnhancedTodoItem.tags todo' = EnhancedTodoItem.tags todo
    /\ match ParserTools.findTag "#child/" (EnhancedTodoItem.tags todo) with
       | Some childTag =>
           match declaredParent (JS.replaceStr childTag "#child/" "") todos 0 with
           | Some p =>
               exists parent parent',
                 nth_error todos p = Some parent
                 /\ nth_error (ParserTools.parseParentChildRelationships todos) p = Some parent'
                 /\ EnhancedTodoItem.parentTaskId todo' = Some (EnhancedTodoItem.id parent)
                 /\ In (EnhancedTodoItem.id todo) (EnhancedTodoItem.childTaskIds parent')
           | None => EnhancedTodoItem.parentTaskId todo' = EnhancedTodoItem.parentTaskId todo
           end
       | None => EnhancedTodoItem.parentTaskId todo' = EnhancedTodoItem.parentTaskId todo
       end.
Proof.
  intros Ej. unfold ParserTools.parseParentChildRelationships. cbv zeta.
  set (pm := ParserTools.parentPass todos 0 []).
  assert (Hj : (j < List.length todos)%nat) by (apply nth_error_Some; congruence).
  assert (Hseq : List.seq 0 (List.length todos)
                 = (List.seq 0 j ++ j :: List.seq (S j) (List.length todos - S j))%list).
  { replace (List.length todos) with (j + S (List.length todos - S j))%nat at 1 by lia.
    rewrite seq_app. reflexivity. }
  rewrite Hseq, fold_left_app. cbn [List.fold_left].
  set (s1 := List.fold_left (ParserTools.linkChild pm) (List.seq 0 j) todos).
  set (s2 := ParserTools.linkChild pm s1 j).
  destruct (links_fold pm (List.seq 0 j) todos) as [Hlen1 Hnth1]. fold s1 in Hlen1, Hnth1.
  destruct (links_fold pm (List.seq (S j) (List.length todos - S j)) s2) as [Hlen3 Hnth3].
  set (s3 := List.fold_left (ParserTools.linkChild pm) _ s2) in *.
  destruct (linkChild_frame pm s1 j) as [Hlen2 Hnth2]. fold s2 in Hlen2, Hnth2.
  assert (Hnotin1 : ~ In j (List.seq 0 j)) by (rewrite in_seq; lia).
  assert (Hnotin3 : ~ In j (List.seq (S j) (List.length todos - S j))) by (rewrite in_seq; lia).
  (* the task before its own step *)
  destruct (@nth_error_same_length _ todos s1 j todo (eq_sym Hlen1) Ej) as (t1 & E1).
  destruct (Hnth1 j t1 E1) as (t0 & E0 & Hid1 & Htags1 & Hpar1 & _).
  rewrite Ej in E0. injection E0 as <-. specialize (Hpar1 Hnotin1).
  (* its own step *)
  destruct (linkChild_link pm E1) as (t2 & E2 & Hlink). fold s2 in E2, Hlink.
  destruct (Hnth2 j t2 E2) as (t1' & E1' & Hid2 & Htags2 & _ & _).
  rewrite E1 in E1'. injection E1' as <-.
  (* the steps after *)
  destruct (@nth_error_same_length _ s2 s3 j t2 (eq_sym Hlen3) E2) as (t3 & E3).
  destruct (Hnth3 j t3 E3) as (t2' & E2' & Hid3 & Htags3 & Hpar3 & _).
  rewrite E2 in E2'. injection E2' as <-. specialize (Hpar3 Hnotin3).
  exists t3. split; [exact E3|]. split; [congruence|]. split; [congruence|].
  rewrite Htags1 in Hlink.
  destruct (ParserTools.findTag "#child/" (EnhancedTodoItem.tags todo)) as [childTag|];
    [|subst t2; congruence].
  unfold pm in Hlink at 1. rewrite parentPass_spec in Hlink. cbn [ParserTools.mapGet] in Hlink.
  destruct (declaredParent (JS.replaceStr childTag "#child/" "") todos 0) as [p|] eqn:Ep;
    [|subst t2; congruence].
  apply declaredParent_bounds in Ep. cbn [Nat.add] in Ep.
  destruct (nth_error todos p) as [parent|] eqn:Eparent;
    [|apply nth_error_None in Eparent; lia].
  destruct (@nth_error_same_length _ todos s1 p parent (eq_sym Hlen1) Eparent) as (parent1 & Ep1).
  destruct (Hnth1 p parent1 Ep1) as (parent0 & Ep0 & Hpid1 & _).
  rewrite Eparent in Ep0. injection Ep0 as <-.
  rewrite Ep1 in Hlink. destruct Hlink as (parent2 & Ep2 & Hpar2 & Hin2).
  destruct (@nth_error_same_length _ s2 s3 p parent2 (eq_sym Hlen3) Ep2) as (parent3 & Ep3).
  destruct (Hnth3 p parent3 Ep3) as (parent2' & Ep2' & _ & _ & _ & Hch3).
  rewrite Ep2 in Ep2'. injection Ep2' as <-.
  exists parent, parent3. split; [reflexivity|]. split; [exact Ep3|]. split.
  - rewrite Hpar3, Hpar2, Hpid1. reflexivity.
  - apply Hch3. rewrite <- Hid1. exact Hin2.
Qed.

End ParentChild.

Lemma parseParentChildRelationships_links_witness :
  exists todo',
    nth_error (ParserTools.parseParentChildRelationships
                 [exampleTagged "a" ["#parent/home"]; exampleTagged "b" ["#child/home"];
                  exampleTagged "c" ["#parent/home"]]) 1
    = Some todo'
    /\ EnhancedTodoItem.id todo' = "b"
    /\ EnhancedTodoItem.tags todo' = ["#child/home"]
    /\ exists parent parent',
         nth_error [exampleTagged "a" ["#parent/home"]; exampleTagged "b" ["#child/home"];
                    exampleTagged "c" ["#parent/home"]] 2 = Some parent
         /\ nth_error (ParserTools.parseParentChildRelationships
                         [exampleTagged "a" ["#parent/home"]; exampleTagged "b" ["#child/home"];
                          exampleTagged "c" ["#parent/home"]]) 2 = Some parent'
         /\ EnhancedTodoItem.parentTaskId todo' = Some (EnhancedTodoItem.id parent)
         /\ In "b" (EnhancedTodoItem.childTaskIds parent').
Proof.
  apply (@parseParentChildRelationships_links exampleHost
           [exampleTagged "a" ["#parent/home"]; exampleTagged "b" ["#child/home"];
            exampleTagged "c" ["#parent/home"]] 1 (exampleTagged "b" ["#child/home"])).
  reflexivity.
Defined.
